(** * AutoForge web front end: a shallow embedding of [web_app.py]

    The development follows [src/autoforge/web_app.py]: the job registry
    [active_jobs], the HTTP handlers ([upload_files], [start_optimization],
    [get_status], [cancel_job]), the throttled [ProgressCallback] and the
    background thread [run_autoforge_optimization].

    Conventions.
    - A Python [dict] used as a registry is a [gmap string _]; a job, which
      is a [dict] with a fixed set of keys some of which may be absent, is a
      record whose optional keys are [option] fields.
    - Python [float] values (clock readings, losses, float parameters) are
      binary64 primitive floats.  The elements of torch/numpy float32
      tensors are rationals: only their exact real value is kept.
    - A Python exception is the [Raise] case of [result]; functions of the
      repository that live outside this file's source (the optimizer, the
      image and material helpers, the output writers) and the third-party
      calls that can fail are fields of the record [Collaborators]. *)

From Stdlib Require Import ZArith QArith Qround Ascii String.
From Stdlib Require Import Floats.
From stdpp Require Import gmap strings list.

Set Warnings "-inexact-float".

Local Open Scope Z_scope.
Local Open Scope string_scope.

(** ** Python exceptions *)

Inductive result (A : Type) : Type :=
| Ok (a : A)
| Raise (msg : string).
Arguments Ok {A} a.
Arguments Raise {A} msg.

Definition rbind {A B} (r : result A) (k : A -> result B) : result B :=
  match r with
  | Ok a => k a
  | Raise m => Raise m
  end.

(** ** Strings: [in], [rsplit] and [lower] *)

Module PyStr.

(** [c in s] for a one-character [c]. *)
Fixpoint contains (c : ascii) (s : string) : bool :=
  match s with
  | EmptyString => false
  | String d s' => if Ascii.eqb d c then true else contains c s'
  end.

(** The split of [s] at the last occurrence of [sep], if there is one. *)
Fixpoint rsplit_last (sep : ascii) (s : string) : option (string * string) :=
  match s with
  | EmptyString => None
  | String d s' =>
      match rsplit_last sep s' with
      | Some (a, b) => Some (String d a, b)
      | None => if Ascii.eqb d sep then Some (EmptyString, s') else None
      end
  end.

(** [s.rsplit(sep, 1)]: a list of one or two strings. *)
Definition rsplit1 (sep : ascii) (s : string) : list string :=
  match rsplit_last sep s with
  | Some (a, b) => [a; b]
  | None => [s]
  end.

Definition is_upper (c : ascii) : bool :=
  let n := nat_of_ascii c in (65 <=? n)%nat && (n <=? 90)%nat.

Definition lower_ascii (c : ascii) : ascii :=
  if is_upper c then ascii_of_nat (nat_of_ascii c + 32) else c.

(** [s.lower()] on the bytes of [s].  Strings are UTF-8 byte strings; the
    bytes of a non-ASCII character are left as they are.  Python maps two
    non-ASCII characters to text containing an ASCII letter (U+212A to
    [k], U+0130 to [i] followed by U+0307); neither letter occurs in an
    allowed extension, so membership in the extension sets below is the
    same for both readings. *)
Fixpoint lower (s : string) : string :=
  match s with
  | EmptyString => EmptyString
  | String c s' => String (lower_ascii c) (lower s')
  end.

End PyStr.

(** ** The job registry *)

Inductive Device := Cuda | Cpu.

(** The [params] dictionary built by [start_optimization]; every key is
    always present, so each is a field. *)
Record Params := {
  p_iterations : Z;
  p_learning_rate : float;
  p_layer_height : float;
  p_max_layers : Z;
  p_min_layers : Z;
  p_background_height : float;
  p_background_color : string;
  p_stl_output_size : Z;
  p_processing_reduction_factor : Z;
  p_nozzle_diameter : float;
  p_init_tau : float;
  p_final_tau : float;
  p_warmup_fraction : float;
  p_learning_rate_warmup_fraction : float;
  p_num_init_rounds : Z;
  p_num_init_cluster_layers : Z;
  p_early_stopping : Z;
  p_perform_pruning : bool;
  p_pruning_max_colors : Z;
  p_pruning_max_swaps : Z;
  p_visualize : bool;
  p_tensorboard : bool
}.

(** The value of [active_jobs[job_id]['outputs']]. *)
Record Outputs := {
  o_discretized_image : string;
  o_stl_file : string;
  o_swap_instructions : string;
  o_project_file : option string
}.

(** One entry of [active_jobs].  The keys written by [upload_files] are
    plain fields; ['params'], ['cancelled'], ['iteration'], ['outputs'] and
    ['error'] exist only once some code has assigned them. *)
Record Job := {
  j_id : string;
  j_status : string;
  j_progress : Z;
  j_image_path : string;
  j_material_path : string;
  j_created_at : float;
  j_params : option Params;
  j_cancelled : option bool;
  j_iteration : option Z;
  j_outputs : option Outputs;
  j_error : option string
}.

Definition set_status (v : string) (j : Job) : Job :=
  {| j_id := j_id j; j_status := v; j_progress := j_progress j;
     j_image_path := j_image_path j; j_material_path := j_material_path j;
     j_created_at := j_created_at j; j_params := j_params j;
     j_cancelled := j_cancelled j; j_iteration := j_iteration j;
     j_outputs := j_outputs j; j_error := j_error j |}.

Definition set_progress (v : Z) (j : Job) : Job :=
  {| j_id := j_id j; j_status := j_status j; j_progress := v;
     j_image_path := j_image_path j; j_material_path := j_material_path j;
     j_created_at := j_created_at j; j_params := j_params j;
     j_cancelled := j_cancelled j; j_iteration := j_iteration j;
     j_outputs := j_outputs j; j_error := j_error j |}.

Definition set_params (v : Params) (j : Job) : Job :=
  {| j_id := j_id j; j_status := j_status j; j_progress := j_progress j;
     j_image_path := j_image_path j; j_material_path := j_material_path j;
     j_created_at := j_created_at j; j_params := Some v;
     j_cancelled := j_cancelled j; j_iteration := j_iteration j;
     j_outputs := j_outputs j; j_error := j_error j |}.

Definition set_cancelled (v : bool) (j : Job) : Job :=
  {| j_id := j_id j; j_status := j_status j; j_progress := j_progress j;
     j_image_path := j_image_path j; j_material_path := j_material_path j;
     j_created_at := j_created_at j; j_params := j_params j;
     j_cancelled := Some v; j_iteration := j_iteration j;
     j_outputs := j_outputs j; j_error := j_error j |}.

Definition set_iteration (v : Z) (j : Job) : Job :=
  {| j_id := j_id j; j_status := j_status j; j_progress := j_progress j;
     j_image_path := j_image_path j; j_material_path := j_material_path j;
     j_created_at := j_created_at j; j_params := j_params j;
     j_cancelled := j_cancelled j; j_iteration := Some v;
     j_outputs := j_outputs j; j_error := j_error j |}.

Definition set_outputs (v : Outputs) (j : Job) : Job :=
  {| j_id := j_id j; j_status := j_status j; j_progress := j_progress j;
     j_image_path := j_image_path j; j_material_path := j_material_path j;
     j_created_at := j_created_at j; j_params := j_params j;
     j_cancelled := j_cancelled j; j_iteration := j_iteration j;
     j_outputs := Some v; j_error := j_error j |}.

Definition set_error (v : string) (j : Job) : Job :=
  {| j_id := j_id j; j_status := j_status j; j_progress := j_progress j;
     j_image_path := j_image_path j; j_material_path := j_material_path j;
     j_created_at := j_created_at j; j_params := j_params j;
     j_cancelled := j_cancelled j; j_iteration := j_iteration j;
     j_outputs := j_outputs j; j_error := Some v |}.

(** [ALLOWED_EXTENSIONS] and [ALLOWED_MATERIAL_EXTENSIONS]. *)
Definition ALLOWED_EXTENSIONS : gset string :=
  {[ "png"; "jpg"; "jpeg"; "bmp"; "webp" ]}.
Definition ALLOWED_MATERIAL_EXTENSIONS : gset string :=
  {[ "csv"; "json" ]}.

(** [allowed_file(filename, allowed_exts)].  Python's [and] evaluates the
    index [[1]] only when ['.' in filename] holds, where the split has two
    parts; the [None] branch of the lookup is never taken. *)
Definition allowed_file (filename : string) (allowed_exts : gset string) : bool :=
  PyStr.contains "." filename &&
  match PyStr.rsplit1 "." filename !! 1%nat with
  | Some ext => bool_decide (PyStr.lower ext ∈ allowed_exts)
  | None => false
  end.

(** ** Python numbers *)

Module PyNum.

(** [float(z)] for an [int]: the nearest binary64 value. *)
Definition float_of_Z (z : Z) : float :=
  SF2Prim (binary_normalize prec emax z 0 false).

(** [int(f)]: truncation towards zero; [nan] and the infinities raise. *)
Definition py_int (f : float) : result Z :=
  match Prim2SF f with
  | S754_zero _ => Ok 0
  | S754_finite s m e =>
      let v := if (0 <=? e)%Z then Z.pos m * 2 ^ e else Z.pos m / 2 ^ (- e) in
      Ok (if s then - v else v)
  | S754_infinity _ => Raise "cannot convert float infinity to integer"
  | S754_nan => Raise "cannot convert float NaN to integer"
  end.

(** [a / b] on two [int]s.  For operands below 2^53 in absolute value,
    which iteration counts are, the quotient is that of the two floats. *)
Definition truediv (a b : Z) : result float :=
  if (b =? 0)%Z then Raise "division by zero"
  else Ok (PrimFloat.div (float_of_Z a) (float_of_Z b)).

(** [a // b] on two [int]s: floor division, as [Z.div] is. *)
Definition floordiv (a b : Z) : result Z :=
  if (b =? 0)%Z then Raise "integer division or modulo by zero"
  else Ok (a / b).

(** [s.endswith(suffix)]. *)
Definition endswith (s suffix : string) : bool :=
  let n := String.length s in
  let k := String.length suffix in
  (k <=? n)%nat && String.eqb (String.substring (n - k) k s) suffix.

End PyNum.

(** ** Images and tensors *)

(** A [numpy] array of [uint8] with shape height x width x channels. *)
Definition RawImage : Type := list (list (list Z)).

Definition Tensor1 : Type := list Q.
Definition Tensor2 : Type := list (list Q).
Definition Tensor3 : Type := list (list (list Q)).

(** [x / 255.0], elementwise. *)
Definition div255 (x : Q) : Q := (x / 255)%Q.
Definition div255_1 (t : Tensor1) : Tensor1 := map div255 t.
Definition div255_2 (t : Tensor2) : Tensor2 := map div255_1 t.
Definition div255_3 (t : Tensor3) : Tensor3 := map div255_2 t.

(** [x * 255], elementwise. *)
Definition mul255 (x : Q) : Q := (x * 255)%Q.
Definition mul255_2 (t : Tensor2) : Tensor2 := map (map mul255) t.

(** [torch.tensor(image, dtype=torch.float32)]. *)
Definition tensor_of_image (im : RawImage) : Tensor3 :=
  map (map (map inject_Z)) im.

(** [(x * 255).astype(np.uint8)]: truncation towards zero, then the value
    modulo 256. *)
Definition to_uint8 (x : Q) : Z :=
  Z.quot (Qnum (mul255 x)) (Z.pos (Qden (mul255 x))) mod 256.
Definition image_of_tensor (t : Tensor3) : RawImage :=
  map (map (map to_uint8)) t.

(** The dictionary returned by [load_materials]. *)
Record Materials := {
  m_colors : Tensor2;
  m_TDs : Tensor1;
  m_names : list string
}.

(** ** Events sent over the socket *)

(** The [progress_data] dictionary of [ProgressCallback.update]. *)
Record ProgressData := {
  pd_job_id : string;
  pd_iteration : Z;
  pd_total_iterations : Z;
  pd_progress : Z;
  pd_loss : float;
  pd_preview : option string
}.

(** One call [socketio.emit(name, payload, namespace='/autoforge')]. *)
Inductive Event :=
| job_started (job_id : string)
| status (job_id message : string)
| progress (data : ProgressData)
| job_completed (job_id : string) (outputs : Outputs)
| job_failed (job_id error : string).

(** ** The server state *)

(** The arguments of one [threading.Thread(target=run_autoforge_optimization,
    args=...)] that has been started. *)
Record Launch := {
  l_job_id : string;
  l_image_path : string;
  l_material_path : string;
  l_params : Params
}.

(** What the handlers and the background threads share: the registry, and
    the traces of what was emitted, printed and launched. *)
Record Server := {
  active_jobs : gmap string Job;
  emitted : list Event;
  printed : list string;
  launched : list Launch
}.

Definition with_jobs (f : gmap string Job -> gmap string Job) (s : Server) : Server :=
  {| active_jobs := f (active_jobs s); emitted := emitted s;
     printed := printed s; launched := launched s |}.

Definition with_emitted (e : Event) (s : Server) : Server :=
  {| active_jobs := active_jobs s; emitted := emitted s ++ [e];
     printed := printed s; launched := launched s |}.

Definition with_printed (line : string) (s : Server) : Server :=
  {| active_jobs := active_jobs s; emitted := emitted s;
     printed := printed s ++ [line]; launched := launched s |}.

Definition with_launched (l : Launch) (s : Server) : Server :=
  {| active_jobs := active_jobs s; emitted := emitted s;
     printed := printed s; launched := launched s ++ [l] |}.

(** ** Code outside this file *)

(** The keyword arguments of the call [FilamentOptimizer(...)]: what the
    optimization core receives.  [ci_init] stands for the three results of
    [run_init_threads]. *)
Record CoreInputs (I P : Type) := {
  ci_args : Params;
  ci_target : Tensor3;
  ci_init : I;
  ci_material_colors : Tensor2;
  ci_material_TDs : Tensor1;
  ci_background : Tensor1;
  ci_device : Device;
  ci_perception_loss_module : P
}.
Arguments ci_args {I P} _.
Arguments ci_target {I P} _.
Arguments ci_init {I P} _.
Arguments ci_material_colors {I P} _.
Arguments ci_material_TDs {I P} _.
Arguments ci_background {I P} _.
Arguments ci_device {I P} _.
Arguments ci_perception_loss_module {I P} _.

(** The calls [web_app.py] makes into the rest of the repository and into
    third-party packages.  A call that can raise returns a [result]. *)
Record Collaborators := {
  (** [FilamentOptimizer] instances, [run_init_threads] results,
      [PerceptionLoss] modules, height maps and discrete solutions *)
  Optimizer : Type;
  InitData : Type;
  Perception : Type;
  HeightMap : Type;
  Solution : Type;
  (** [torch.cuda.is_available()] *)
  cuda_is_available : bool;
  (** [load_materials(csv_file=path)] for [true], [json_file=path] for [false] *)
  load_materials : bool -> string -> result Materials;
  imread : string -> result RawImage;
  resize_image : RawImage -> Z -> Z -> result RawImage;
  hex_to_rgb : string -> result Tensor1;
  run_init_threads :
    RawImage -> Tensor2 -> Tensor1 -> Tensor1 -> Z -> float -> float -> Z -> Z ->
    result InitData;
  PerceptionLoss : Device -> result Perception;
  FilamentOptimizer : CoreInputs InitData Perception -> result Optimizer;
  (** [optimizer.step()]: the optimizer after the call, and the loss or
      the exception *)
  step : Optimizer -> Optimizer * result float;
  get_composite_image_disc : Optimizer -> result Tensor3;
  get_height_map : Optimizer -> result HeightMap;
  get_best_discrete_solution : Optimizer -> result Solution;
  (** [base64.b64encode(cv2.imencode('.jpg', image)[1]).decode('utf-8')] *)
  imencode_jpg_base64 : RawImage -> result string;
  (** [socketio.emit]: [Some msg] when the call raises *)
  emit_fault : Event -> option string;
  (** [secure_filename], and the two temporary folders of [app.config] *)
  secure_filename : string -> string;
  UPLOAD_FOLDER : string;
  OUTPUT_FOLDER : string;
  (** [FileStorage.save(path)] for a file with the given content *)
  save : string -> string -> result unit;
  (** writing the outputs of a finished run *)
  mkdir : string -> result unit;
  imwrite_rgb : string -> RawImage -> result unit;
  generate_stl : HeightMap -> string -> Z -> float -> result unit;
  generate_swap_instructions : Solution -> list string -> float -> float -> result string;
  write_text : string -> string -> result unit;
  generate_project_file : Solution -> Materials -> string -> float -> float -> Z -> result unit;
  (** [path.exists()] for the project file, after the attempt to write it *)
  project_file_exists : string -> bool
}.

(** ** HTTP requests and responses *)

(** An uploaded file of [request.files]. *)
Record FileStorage := {
  filename : string;
  content : string
}.

(** The JSON object posted to [/api/start], once typed: every key may be
    missing, and a present key has the type of its default.  Bodies that
    are not objects and ids that are not strings are the subject of
    [StartBody] and [api_start] below. *)
Record StartData := {
  d_job_id : option string;
  d_iterations : option Z;
  d_learning_rate : option float;
  d_layer_height : option float;
  d_max_layers : option Z;
  d_min_layers : option Z;
  d_background_height : option float;
  d_background_color : option string;
  d_stl_output_size : option Z;
  d_processing_reduction_factor : option Z;
  d_nozzle_diameter : option float;
  d_init_tau : option float;
  d_final_tau : option float;
  d_warmup_fraction : option float;
  d_learning_rate_warmup_fraction : option float;
  d_num_init_rounds : option Z;
  d_num_init_cluster_layers : option Z;
  d_early_stopping : option Z;
  d_perform_pruning : option bool;
  d_pruning_max_colors : option Z;
  d_pruning_max_swaps : option Z
}.

(** The JSON bodies the handlers return. *)
Inductive Body :=
| error_body (error : string)
| job_body (job_id message : string)
| message_body (message : string)
| status_body (job_id status : string) (progress : Z)
    (outputs : option Outputs) (error : option string)
| unhandled_exception (msg : string).

Record Response := {
  r_code : Z;
  r_body : Body
}.

Definition respond (code : Z) (b : Body) : Response :=
  {| r_code := code; r_body := b |}.

(** [str(KeyError(k))] *)
Definition key_error (k : string) : string := "'" ++ k ++ "'".

(** The state of a [ProgressCallback] object. *)
Record ProgressCallback := {
  cb_job_id : string;
  last_update : float;
  update_interval : float
}.

(** What the environment of one background thread decides: whether a
    [/api/cancel] request for the job has been served between the previous
    poll of the flag and the poll of iteration [i] ([cancels i]; index
    [iterations] stands for the time between the last poll and the first
    statement after the loop), and what [time.time()] returns inside the
    progress update of iteration [i].  A schedule describes the runs in
    which each cancel request is served as a whole between two polls.  A
    request served while the thread is between a poll and the next one
    is seen by the next poll all the same; the two assignments of
    [cancel_job] taken apart, and a request served after the thread's last
    assignment to ['status'], are not among these runs. *)
Record Schedule := {
  cancels : nat -> bool;
  clock : nat -> float
}.

(** [i % 50 == 0 or i == iterations - 1]: whether iteration [i] asks the
    optimizer for a preview image. *)
Definition wants_preview (iterations : Z) (i : nat) : bool :=
  (Z.of_nat i mod 50 =? 0)%Z || (Z.of_nat i =? iterations - 1)%Z.

Section WebApp.

Context (C : Collaborators).

(** *** Effects on the shared state *)

Definition M (A : Type) : Type := Server -> Server * result A.

Definition ret {A} (a : A) : M A := fun s => (s, Ok a).
Definition raise {A} (msg : string) : M A := fun s => (s, Raise msg).
Definition bind {A B} (m : M A) (k : A -> M B) : M B :=
  fun s =>
    match m s with
    | (s', Ok a) => k a s'
    | (s', Raise msg) => (s', Raise msg)
    end.
Definition call {A} (r : result A) : M A := fun s => (s, r).

Notation "x <- m ;; k" := (bind m (fun x => k))
  (at level 100, m at next level, right associativity).
Notation "m ;;; k" := (bind m (fun _ => k))
  (at level 100, right associativity).

(** [socketio.emit(...)] *)
Definition emit (e : Event) : M unit :=
  fun s =>
    match emit_fault C e with
    | Some msg => (s, Raise msg)
    | None => (with_emitted e s, Ok tt)
    end.

(** [print(...)] *)
Definition print (line : string) : M unit :=
  fun s => (with_printed line s, Ok tt).

(** [active_jobs[job_id]], raising [KeyError] for an unknown key *)
Definition get_job (job_id : string) : M Job :=
  fun s =>
    match active_jobs s !! job_id with
    | Some j => (s, Ok j)
    | None => (s, Raise (key_error job_id))
    end.

(** [active_jobs[job_id][key] = value], where [f] assigns the key *)
Definition update_job (job_id : string) (f : Job -> Job) : M unit :=
  j <- get_job job_id ;;
  fun s => (with_jobs (insert job_id (f j)) s, Ok tt).

(** *** [upload_files] *)

(** [os.path.join(app.config['UPLOAD_FOLDER'], f"{job_id}_{name}")] *)
Definition upload_path (job_id name : string) : string :=
  UPLOAD_FOLDER C ++ "/" ++ job_id ++ "_" ++ name.

(** The handler of [POST /api/upload].  [uuid] is the value of
    [str(uuid.uuid4())] and [now] that of [time.time()] in this request.
    An exception that leaves the handler becomes a response 500. *)
Definition upload_files (files : gmap string FileStorage)
    (uuid : string) (now : float) (s : Server) : Server * Response :=
  match files !! "image", files !! "materials" with
  | Some image_file, Some material_file =>
      if bool_decide (filename image_file = "")
         || bool_decide (filename material_file = "")
      then (s, respond 400 (error_body "No files selected"))
      else if negb (allowed_file (filename image_file) ALLOWED_EXTENSIONS)
      then (s, respond 400 (error_body "Invalid image file type"))
      else if negb (allowed_file (filename material_file) ALLOWED_MATERIAL_EXTENSIONS)
      then (s, respond 400 (error_body "Invalid material file type"))
      else
        let job_id := uuid in
        let image_filename := secure_filename C (filename image_file) in
        let material_filename := secure_filename C (filename material_file) in
        let image_path := upload_path job_id image_filename in
        let material_path := upload_path job_id material_filename in
        match save C image_path (content image_file) with
        | Raise msg => (s, respond 500 (unhandled_exception msg))
        | Ok _ =>
            match save C material_path (content material_file) with
            | Raise msg => (s, respond 500 (unhandled_exception msg))
            | Ok _ =>
                let job :=
                  {| j_id := job_id; j_status := "uploaded"; j_progress := 0;
                     j_image_path := image_path;
                     j_material_path := material_path;
                     j_created_at := now; j_params := None;
                     j_cancelled := None; j_iteration := None;
                     j_outputs := None; j_error := None |} in
                (with_jobs (insert job_id job) s,
                 respond 200 (job_body job_id "Files uploaded successfully"))
            end
        end
  | _, _ => (s, respond 400 (error_body "Missing required files"))
  end.

(** *** [start_optimization] *)

(** The [params] dictionary: [data.get(key, default)] for each key. *)
Definition params_of (data : StartData) : Params :=
  {| p_iterations := default 2000 (d_iterations data);
     p_learning_rate := default 0.015%float (d_learning_rate data);
     p_layer_height := default 0.04%float (d_layer_height data);
     p_max_layers := default 75 (d_max_layers data);
     p_min_layers := default 0 (d_min_layers data);
     p_background_height := default 0.24%float (d_background_height data);
     p_background_color := default "#000000" (d_background_color data);
     p_stl_output_size := default 150 (d_stl_output_size data);
     p_processing_reduction_factor :=
       default 2 (d_processing_reduction_factor data);
     p_nozzle_diameter := default 0.4%float (d_nozzle_diameter data);
     p_init_tau := default 1.0%float (d_init_tau data);
     p_final_tau := default 0.01%float (d_final_tau data);
     p_warmup_fraction := default 1.0%float (d_warmup_fraction data);
     p_learning_rate_warmup_fraction :=
       default 0.01%float (d_learning_rate_warmup_fraction data);
     p_num_init_rounds := default 8 (d_num_init_rounds data);
     p_num_init_cluster_layers := default (-1) (d_num_init_cluster_layers data);
     p_early_stopping := default 2000 (d_early_stopping data);
     p_perform_pruning := default false (d_perform_pruning data);
     p_pruning_max_colors := default 8 (d_pruning_max_colors data);
     p_pruning_max_swaps := default 20 (d_pruning_max_swaps data);
     p_visualize := false;
     p_tensorboard := false |}.

(** The handler of [POST /api/start].  [thread.start()] is recorded in
    [launched]; the thread's own statements run later. *)
Definition start_optimization (data : StartData) (s : Server) : Server * Response :=
  match d_job_id data with
  | None => (s, respond 400 (error_body "Invalid job ID"))
  | Some job_id =>
      if bool_decide (job_id = "")
      then (s, respond 400 (error_body "Invalid job ID"))
      else
        match active_jobs s !! job_id with
        | None => (s, respond 400 (error_body "Invalid job ID"))
        | Some job =>
            if negb (bool_decide (j_status job = "uploaded"))
            then (s, respond 400 (error_body "Job already started or completed"))
            else
              let params := params_of data in
              let s1 := with_jobs (insert job_id (set_params params job)) s in
              let s2 :=
                with_launched
                  {| l_job_id := job_id;
                     l_image_path := j_image_path job;
                     l_material_path := j_material_path job;
                     l_params := params |} s1 in
              (s2, respond 200 (job_body job_id "Optimization started"))
        end
  end.

(** *** [get_status] and [cancel_job] *)

Definition get_status (job_id : string) (s : Server) : Response :=
  match active_jobs s !! job_id with
  | None => respond 404 (error_body "Job not found")
  | Some job =>
      respond 200
        (status_body job_id (j_status job) (j_progress job)
           (j_outputs job) (j_error job))
  end.

Definition cancel_job (job_id : string) (s : Server) : Server * Response :=
  match active_jobs s !! job_id with
  | None => (s, respond 404 (error_body "Job not found"))
  | Some job =>
      (with_jobs (insert job_id (set_status "cancelled" (set_cancelled true job))) s,
       respond 200 (message_body "Job cancelled"))
  end.

(** *** [ProgressCallback] *)

(** [ProgressCallback(job_id)] *)
Definition new_callback (job_id : string) : ProgressCallback :=
  {| cb_job_id := job_id; last_update := 0%float; update_interval := 0.5%float |}.

(** The test that makes [update] return at once. *)
Definition throttled (cb : ProgressCallback) (current_time : float)
    (iteration total_iterations : Z) : bool :=
  PrimFloat.ltb (PrimFloat.sub current_time (last_update cb)) (update_interval cb)
  && (iteration <? total_iterations - 1)%Z.

(** The value of [progress_data['preview']], when there is a preview
    image: the JPEG encoding of the image as a data URL. *)
Definition encode_preview (preview_image : option RawImage)
    : result (option string) :=
  match preview_image with
  | None => Ok None
  | Some image =>
      rbind (imencode_jpg_base64 C image)
        (fun img_base64 => Ok (Some ("data:image/jpeg;base64," ++ img_base64)))
  end.

(** The part of [update] after the assignment to [self.last_update]:
    build [progress_data], emit it, record the progress in the registry. *)
Definition send_progress (job_id : string) (iteration total_iterations : Z)
    (loss : float) (preview_image : option RawImage) : M unit :=
  ratio <- call (PyNum.truediv iteration total_iterations) ;;
  percent <- call (PyNum.py_int (PrimFloat.mul ratio 100%float)) ;;
  preview <- call (encode_preview preview_image) ;;
  let progress_data :=
    {| pd_job_id := job_id; pd_iteration := iteration;
       pd_total_iterations := total_iterations; pd_progress := percent;
       pd_loss := loss; pd_preview := preview |} in
  emit (progress progress_data) ;;;
  fun s =>
    match active_jobs s !! job_id with
    | Some job =>
        (with_jobs
           (insert job_id (set_iteration iteration (set_progress percent job))) s,
         Ok tt)
    | None => (s, Ok tt)
    end.

(** [ProgressCallback.update(iteration, total_iterations, loss,
    preview_image)], where [current_time] is what [time.time()] returns.
    The callback object after the call comes first in the result. *)
Definition update (cb : ProgressCallback) (current_time : float)
    (iteration total_iterations : Z) (loss : float)
    (preview_image : option RawImage) (s : Server)
    : ProgressCallback * Server * result unit :=
  if throttled cb current_time iteration total_iterations
  then (cb, s, Ok tt)
  else
    let cb' :=
      {| cb_job_id := cb_job_id cb; last_update := current_time;
         update_interval := update_interval cb |} in
    let '(s', r) :=
      send_progress (cb_job_id cb) iteration total_iterations loss preview_image s in
    (cb', s', r).

(** *** [run_autoforge_optimization] *)

(** The objects the optimization loop works on. *)
Record Thread := {
  t_server : Server;
  t_optimizer : Optimizer C;
  t_callback : ProgressCallback
}.

(** A [/api/cancel] request for [job_id] served by another thread, when
    the schedule has one at index [i]. *)
Definition interfere (sch : Schedule) (i : nat) (job_id : string)
    (s : Server) : Server :=
  if cancels sch i then fst (cancel_job job_id s) else s.

(** One iteration of [for i in range(iterations)]: the poll of the flag,
    the step, the progress update.  [s0] is the shared state the poll sees,
    after any cancel request served since the previous poll. *)
Definition loop_body (job_id : string) (iterations : Z) (sch : Schedule)
    (i : nat) (t : Thread) : Thread * result unit :=
  let s0 := interfere sch i job_id (t_server t) in
  let stop s msg :=
    ({| t_server := s; t_optimizer := t_optimizer t;
        t_callback := t_callback t |}, Raise msg) in
  match active_jobs s0 !! job_id with
  | None => stop s0 (key_error job_id)
  | Some job =>
      if default false (j_cancelled job)
      then stop s0 "Job cancelled by user"
      else
        let '(opt, stepped) := step C (t_optimizer t) in
        let fail msg :=
          ({| t_server := s0; t_optimizer := opt;
              t_callback := t_callback t |}, Raise msg) in
        let report loss preview :=
          let '(cb, s1, r) :=
            update (t_callback t) (clock sch i) (Z.of_nat i + 1) iterations
              loss preview s0 in
          ({| t_server := s1; t_optimizer := opt; t_callback := cb |}, r) in
        match stepped with
        | Raise msg => fail msg
        | Ok loss =>
            if wants_preview iterations i
            then
              match get_composite_image_disc C opt with
              | Raise msg => fail msg
              | Ok preview => report loss (Some (image_of_tensor preview))
              end
            else report loss None
        end
  end.

(** The iterations [i], [i + 1], ..., [i + n - 1] of the loop. *)
Fixpoint loop (job_id : string) (iterations : Z) (sch : Schedule)
    (n i : nat) (t : Thread) : Thread * result unit :=
  match n with
  | O => (t, Ok tt)
  | S n' =>
      match loop_body job_id iterations sch i t with
      | (t', Ok _) => loop job_id iterations sch n' (S i) t'
      | (t', Raise msg) => (t', Raise msg)
      end
  end.

(** [torch.device('cuda' if torch.cuda.is_available() else 'cpu')] *)
Definition select_device : Device :=
  if cuda_is_available C then Cuda else Cpu.

(** [args_ns]: the namespace made of [params], with [args_ns.visualize = False] *)
Definition namespace_of (params : Params) : Params :=
  {| p_iterations := p_iterations params;
     p_learning_rate := p_learning_rate params;
     p_layer_height := p_layer_height params;
     p_max_layers := p_max_layers params;
     p_min_layers := p_min_layers params;
     p_background_height := p_background_height params;
     p_background_color := p_background_color params;
     p_stl_output_size := p_stl_output_size params;
     p_processing_reduction_factor := p_processing_reduction_factor params;
     p_nozzle_diameter := p_nozzle_diameter params;
     p_init_tau := p_init_tau params;
     p_final_tau := p_final_tau params;
     p_warmup_fraction := p_warmup_fraction params;
     p_learning_rate_warmup_fraction := p_learning_rate_warmup_fraction params;
     p_num_init_rounds := p_num_init_rounds params;
     p_num_init_cluster_layers := p_num_init_cluster_layers params;
     p_early_stopping := p_early_stopping params;
     p_perform_pruning := p_perform_pruning params;
     p_pruning_max_colors := p_pruning_max_colors params;
     p_pruning_max_swaps := p_pruning_max_swaps params;
     p_visualize := false;
     p_tensorboard := p_tensorboard params |}.

(** From the first statement of the [try] block to the construction of
    the optimizer. *)
Definition prepare (job_id image_path material_file : string)
    (params : Params) : M (Materials * Optimizer C) :=
  update_job job_id (set_status "running") ;;;
  emit (job_started job_id) ;;;
  let device := select_device in
  materials <-
    call (load_materials C (PyNum.endswith material_file ".csv") material_file) ;;
  let material_colors := div255_2 (m_colors materials) in
  let material_TDs := m_TDs materials in
  target_image <- call (imread C image_path) ;;
  processing_size <-
    call (PyNum.floordiv (p_stl_output_size params)
            (p_processing_reduction_factor params)) ;;
  target_image <-
    call (resize_image C target_image processing_size processing_size) ;;
  let target_tensor := div255_3 (tensor_of_image target_image) in
  background_rgb <- call (hex_to_rgb C (p_background_color params)) ;;
  let background_tensor := div255_1 background_rgb in
  emit (status job_id "Initializing height map...") ;;;
  init <-
    call (run_init_threads C target_image (mul255_2 material_colors)
            material_TDs background_rgb (p_max_layers params)
            (p_layer_height params) (p_background_height params)
            (p_num_init_rounds params) (p_num_init_cluster_layers params)) ;;
  perception_loss_module <- call (PerceptionLoss C device) ;;
  emit (status job_id "Starting optimization...") ;;;
  optimizer <-
    call (FilamentOptimizer C
            {| ci_args := namespace_of params; ci_target := target_tensor;
               ci_init := init; ci_material_colors := material_colors;
               ci_material_TDs := material_TDs;
               ci_background := background_tensor; ci_device := device;
               ci_perception_loss_module := perception_loss_module |}) ;;
  ret (materials, optimizer).

(** [try: m except Exception as e: handler(str(e))] *)
Definition try_except {A} (m : M A) (handler : string -> M A) : M A :=
  fun s =>
    match m s with
    | (s', Ok a) => (s', Ok a)
    | (s', Raise msg) => handler msg s'
    end.

(** From ['Generating outputs...'] to the [job_completed] event. *)
Definition finish (job_id : string) (params : Params)
    (materials : Materials) (optimizer : Optimizer C) : M unit :=
  emit (status job_id "Generating outputs...") ;;;
  final_image <- call (get_composite_image_disc C optimizer) ;;
  let final_image_np := image_of_tensor final_image in
  height_map <- call (get_height_map C optimizer) ;;
  let output_dir := OUTPUT_FOLDER C ++ "/" ++ job_id in
  call (mkdir C output_dir) ;;;
  let discrete_path := output_dir ++ "/discretized.png" in
  call (imwrite_rgb C discrete_path final_image_np) ;;;
  emit (status job_id "Generating STL file...") ;;;
  let stl_path := output_dir ++ "/model.stl" in
  call (generate_stl C height_map stl_path (p_stl_output_size params)
          (p_nozzle_diameter params)) ;;;
  solution <- call (get_best_discrete_solution C optimizer) ;;
  swap_instructions <-
    call (generate_swap_instructions C solution (m_names materials)
            (p_layer_height params) (p_background_height params)) ;;
  let swap_path := output_dir ++ "/swap_instructions.txt" in
  call (write_text C swap_path swap_instructions) ;;;
  let project_path := output_dir ++ "/project.json" in
  try_except
    (solution <- call (get_best_discrete_solution C optimizer) ;;
     call (generate_project_file C solution materials project_path
             (p_layer_height params) (p_background_height params)
             (p_stl_output_size params)))
    (fun e => print ("Warning: Could not generate project file: " ++ e)) ;;;
  update_job job_id (set_status "completed") ;;;
  update_job job_id (set_progress 100) ;;;
  update_job job_id
    (set_outputs
       {| o_discretized_image := "discretized.png";
          o_stl_file := "model.stl";
          o_swap_instructions := "swap_instructions.txt";
          o_project_file :=
            if project_file_exists C project_path
            then Some "project.json" else None |}) ;;;
  job <- get_job job_id ;;
  match j_outputs job with
  | Some outputs => emit (job_completed job_id outputs)
  | None => raise (key_error "outputs")
  end.

(** The [try] block: preparation, the optimization loop, the outputs. *)
Definition try_block (job_id image_path material_file : string)
    (params : Params) (sch : Schedule) : M unit :=
  prepared <- prepare job_id image_path material_file params ;;
  let '(materials, optimizer) := prepared in
  let progress_callback := new_callback job_id in
  let iterations := p_iterations params in
  optimizer <-
    (fun s =>
       let '(t, r) :=
         loop job_id iterations sch (Z.to_nat iterations) 0
           {| t_server := s; t_optimizer := optimizer;
              t_callback := progress_callback |} in
       match r with
       | Ok _ =>
           (interfere sch (Z.to_nat iterations) job_id (t_server t),
            Ok (t_optimizer t))
       | Raise msg => (t_server t, Raise msg)
       end) ;;
  finish job_id params materials optimizer.

(** The [except Exception as e] block.  The printed line ends with the
    traceback text, which is left out. *)
Definition except_block (job_id error_msg : string) : M unit :=
  print ("Error in job " ++ job_id ++ ": " ++ error_msg) ;;;
  update_job job_id (set_status "failed") ;;;
  update_job job_id (set_error error_msg) ;;;
  emit (job_failed job_id error_msg).

(** [run_autoforge_optimization(job_id, image_path, material_file,
    params)], the body of a background thread.  A [Raise] in the result
    is an exception that escapes the [except] block. *)
Definition run_autoforge_optimization (job_id image_path material_file : string)
    (params : Params) (sch : Schedule) : M unit :=
  try_except (try_block job_id image_path material_file params sch)
    (except_block job_id).

End WebApp.

Arguments t_server {C} _.
Arguments t_optimizer {C} _.
Arguments t_callback {C} _.

(** ** A concrete environment

    Stand-ins for the collaborators, used to evaluate the handlers and the
    background thread on concrete requests.  The optimizer is the number of
    steps it has made, which is also its best discrete solution; every call
    succeeds, except [socketio.emit] where [fault] says otherwise. *)

Module Stub.

Definition materials : Materials :=
  {| m_colors := [[0; 0; 0]; [255; 255; 255]]%Q;
     m_TDs := [1; 1 # 2]%Q;
     m_names := ["black"; "white"] |}.

Definition image : RawImage := [[[128; 128; 128]; [0; 64; 255]]].

Definition collaborators (cuda : bool) (fault : Event -> option string)
    : Collaborators :=
  {| Optimizer := nat;
     InitData := unit;
     Perception := Device;
     HeightMap := unit;
     Solution := nat;
     cuda_is_available := cuda;
     load_materials := fun _ _ => Ok materials;
     imread := fun _ => Ok image;
     resize_image := fun im _ _ => Ok im;
     hex_to_rgb := fun _ => Ok [0; 0; 0]%Q;
     run_init_threads := fun _ _ _ _ _ _ _ _ _ => Ok tt;
     PerceptionLoss := fun d => Ok d;
     FilamentOptimizer := fun _ => Ok O;
     step := fun n => (S n, Ok (PrimFloat.div 1 (PyNum.float_of_Z (Z.of_nat (S n)))));
     get_composite_image_disc := fun _ => Ok [[[1 # 2; 1 # 2; 1 # 2]]]%Q;
     get_height_map := fun _ => Ok tt;
     get_best_discrete_solution := fun n => Ok n;
     imencode_jpg_base64 := fun _ => Ok "AAAA";
     emit_fault := fault;
     secure_filename := fun name => name;
     UPLOAD_FOLDER := "/tmp/uploads";
     OUTPUT_FOLDER := "/tmp/outputs";
     save := fun _ _ => Ok tt;
     mkdir := fun _ => Ok tt;
     imwrite_rgb := fun _ _ => Ok tt;
     generate_stl := fun _ _ _ _ => Ok tt;
     generate_swap_instructions := fun _ _ _ _ => Ok "swap";
     write_text := fun _ _ => Ok tt;
     generate_project_file := fun _ _ _ _ _ _ => Ok tt;
     project_file_exists := fun _ => true |}.

Definition no_fault : Event -> option string := fun _ => None.

(** [socketio.emit] raises on every progress event. *)
Definition progress_fault (e : Event) : option string :=
  match e with
  | progress _ => Some "socket closed"
  | _ => None
  end.

(** Every call succeeds and CUDA is unavailable. *)
Definition env : Collaborators := collaborators false no_fault.

(** The same, with a socket that refuses progress events. *)
Definition flaky : Collaborators := collaborators false progress_fault.

(** The loop state of the thread of ["job-1"] before its first
    iteration, with a fresh optimizer. *)
Definition thread (fault : Event -> option string) (s : Server)
    : Thread (collaborators false fault) :=
  Build_Thread (collaborators false fault) s O (new_callback "job-1").

Definition empty_server : Server :=
  {| active_jobs := ∅; emitted := []; printed := []; launched := [] |}.

(** A request with an image and a material file. *)
Definition files (image_name material_name : string) : gmap string FileStorage :=
  {[ "image" := {| filename := image_name; content := "<image>" |};
     "materials" := {| filename := material_name; content := "<materials>" |} ]}.

(** The server after the upload of [photo.PNG] and [filaments.csv] as
    job ["job-1"]. *)
Definition uploaded : Server :=
  fst (upload_files (collaborators false no_fault)
         (files "photo.PNG" "filaments.csv") "job-1" 1000%float empty_server).

(** A start request for ["job-1"] that sets the iteration count and the
    two layer bounds. *)
Definition start_data (iterations min_layers max_layers : Z) : StartData :=
  {| d_job_id := Some "job-1";
     d_iterations := Some iterations;
     d_learning_rate := None; d_layer_height := None;
     d_max_layers := Some max_layers; d_min_layers := Some min_layers;
     d_background_height := None; d_background_color := None;
     d_stl_output_size := None; d_processing_reduction_factor := None;
     d_nozzle_diameter := None; d_init_tau := None; d_final_tau := None;
     d_warmup_fraction := None; d_learning_rate_warmup_fraction := None;
     d_num_init_rounds := None; d_num_init_cluster_layers := None;
     d_early_stopping := None; d_perform_pruning := None;
     d_pruning_max_colors := None; d_pruning_max_swaps := None |}.

(** No cancel request; the clock advances by one second per iteration. *)
Definition quiet : Schedule :=
  {| cancels := fun _ => false;
     clock := fun i => PyNum.float_of_Z (1001 + Z.of_nat i) |}.

(** A cancel request served during iteration [k - 1], seen by the poll
    of iteration [k]. *)
Definition cancel_before (k : nat) : Schedule :=
  {| cancels := fun i => Nat.eqb i k;
     clock := fun i => PyNum.float_of_Z (1001 + Z.of_nat i) |}.

(** The thread of ["job-1"] run to its end on the stored paths. *)
Definition run (C : Collaborators) (params : Params) (sch : Schedule)
    (s : Server) : Server * result unit :=
  run_autoforge_optimization C "job-1" "/tmp/uploads/job-1_photo.PNG"
    "/tmp/uploads/job-1_filaments.csv" params sch s.

End Stub.

(** ** Specification-level notions *)

(** The file name is a stem, a dot, and an extension without a dot whose
    lower-case form is allowed: the final extension, compared without
    regard to case, is in the set. *)
Definition has_allowed_extension (name : string) (exts : gset string) : Prop :=
  ∃ stem ext : string,
    name = stem ++ String "." ext
    ∧ PyStr.contains "." ext = false
    ∧ PyStr.lower ext ∈ exts.

(** Both files are present in the request, each with a non-empty file name
    that has an allowed extension of its kind. *)
Definition valid_upload (files : gmap string FileStorage) : Prop :=
  ∃ image_file material_file : FileStorage,
    files !! "image" = Some image_file
    ∧ files !! "materials" = Some material_file
    ∧ filename image_file ≠ ""
    ∧ filename material_file ≠ ""
    ∧ has_allowed_extension (filename image_file) ALLOWED_EXTENSIONS
    ∧ has_allowed_extension (filename material_file) ALLOWED_MATERIAL_EXTENSIONS.

(** The start request names a job of the registry whose status is
    ['uploaded']. *)
Definition startable (data : StartData) (s : Server) (job_id : string)
    (job : Job) : Prop :=
  d_job_id data = Some job_id ∧ job_id ≠ ""
  ∧ active_jobs s !! job_id = Some job ∧ j_status job = "uploaded".

(** The thread a start request launches. *)
Definition launch_of (data : StartData) (job_id : string) (job : Job) : Launch :=
  {| l_job_id := job_id; l_image_path := j_image_path job;
     l_material_path := j_material_path job; l_params := params_of data |}.

(** The optimizer after [k] calls of [step], whatever they returned. *)
Definition steps (C : Collaborators) (k : nat) (opt : Optimizer C) : Optimizer C :=
  Nat.iter k (fun o => fst (step C o)) opt.

(** The job [job_id] of [s] is still in the registry of [s'], with the
    same ['outputs'] entry. *)
Definition job_kept (job_id : string) (s s' : Server) : Prop :=
  ∀ job, active_jobs s !! job_id = Some job →
    ∃ job', active_jobs s' !! job_id = Some job'
            ∧ j_outputs job' = j_outputs job.



(** What may differ between a job before and after a step of its thread:
    the identity of the job, its two paths, its creation time and its
    parameters are kept, and a cancellation flag that is set stays set. *)
Definition job_step (j j' : Job) : Prop :=
  j_id j' = j_id j
  ∧ j_image_path j' = j_image_path j
  ∧ j_material_path j' = j_material_path j
  ∧ j_created_at j' = j_created_at j
  ∧ j_params j' = j_params j
  ∧ (j_cancelled j = Some true → j_cancelled j' = Some true).

(** What the thread of [job_id] leaves alone in the shared state: no thread
    is launched, every other job is as it was, the job itself is neither
    created nor removed and changes only by [job_step]. *)
Definition frame (job_id : string) (s s' : Server) : Prop :=
  launched s' = launched s
  ∧ (∀ k, k ≠ job_id → active_jobs s' !! k = active_jobs s !! k)
  ∧ (∀ j, active_jobs s !! job_id = Some j →
       ∃ j', active_jobs s' !! job_id = Some j' ∧ job_step j j')
  ∧ (active_jobs s !! job_id = None → active_jobs s' !! job_id = None).

(** Every run of the computation [m], whatever it returns or raises,
    respects [frame]. *)
Definition preserves {A} (job_id : string) (m : M A) : Prop :=
  ∀ s s' r, m s = (s', r) → frame job_id s s'.

(** ** A second concrete environment

    As [Stub], with the optimizer step, the materials loader and the
    writer of the project file chosen by the caller. *)

Module Lab.

Definition collaborators (stepper : nat -> nat * result float)
    (loader : bool -> string -> result Materials)
    (project : result unit) (project_there : bool) : Collaborators :=
  {| Optimizer := nat;
     InitData := unit;
     Perception := Device;
     HeightMap := unit;
     Solution := nat;
     cuda_is_available := false;
     load_materials := loader;
     imread := fun _ => Ok Stub.image;
     resize_image := fun im _ _ => Ok im;
     hex_to_rgb := fun _ => Ok [0; 0; 0]%Q;
     run_init_threads := fun _ _ _ _ _ _ _ _ _ => Ok tt;
     PerceptionLoss := fun d => Ok d;
     FilamentOptimizer := fun _ => Ok O;
     step := stepper;
     get_composite_image_disc := fun _ => Ok [[[1 # 2; 1 # 2; 1 # 2]]]%Q;
     get_height_map := fun _ => Ok tt;
     get_best_discrete_solution := fun n => Ok n;
     imencode_jpg_base64 := fun _ => Ok "AAAA";
     emit_fault := Stub.no_fault;
     secure_filename := fun name => name;
     UPLOAD_FOLDER := "/tmp/uploads";
     OUTPUT_FOLDER := "/tmp/outputs";
     save := fun _ _ => Ok tt;
     mkdir := fun _ => Ok tt;
     imwrite_rgb := fun _ _ => Ok tt;
     generate_stl := fun _ _ _ _ => Ok tt;
     generate_swap_instructions := fun _ _ _ _ => Ok "swap";
     write_text := fun _ _ => Ok tt;
     generate_project_file := fun _ _ _ _ _ _ => project;
     project_file_exists := fun _ => project_there |}.

(** A step that succeeds. *)
Definition good_step (n : nat) : nat * result float := (S n, Ok 1%float).

(** The step diverges at its second call: the loss is not a number. *)
Definition diverging_step (n : nat) : nat * result float :=
  (S n, if Nat.eqb n 1 then Raise "loss is NaN" else Ok 1%float).

Definition good_loader (csv : bool) (path : string) : result Materials :=
  Ok Stub.materials.

(** A JSON loader that cannot read a CSV file. *)
Definition strict_loader (csv : bool) (path : string) : result Materials :=
  if csv then Ok Stub.materials else Raise "Expecting value: line 1 column 1 (char 0)".

(** The project file cannot be written. *)
Definition no_project : Collaborators :=
  collaborators good_step good_loader (Raise "disk full") false.

Definition diverging : Collaborators :=
  collaborators diverging_step good_loader (Ok tt) true.

Definition strict : Collaborators :=
  collaborators good_step strict_loader (Ok tt) true.

(** The loop state of the thread of ["job-1"] on these collaborators. *)
Definition thread (C : Collaborators) (opt : Optimizer C) (s : Server) : Thread C :=
  Build_Thread C s opt (new_callback "job-1").

(** The server with ["job-1"] uploaded and a second job, ["job-2"],
    completed earlier. *)
Definition two_jobs : Server :=
  with_jobs
    (insert "job-2"
       {| j_id := "job-2"; j_status := "completed"; j_progress := 100;
          j_image_path := "/tmp/uploads/job-2_cat.jpg";
          j_material_path := "/tmp/uploads/job-2_filaments.json";
          j_created_at := 900%float; j_params := None; j_cancelled := None;
          j_iteration := Some 10;
          j_outputs :=
            Some {| o_discretized_image := "discretized.png";
                    o_stl_file := "model.stl";
                    o_swap_instructions := "swap_instructions.txt";
                    o_project_file := None |};
          j_error := None |})
    Stub.uploaded.

End Lab.

(** ** The body of a start request, before it is typed

    [request.json] is any JSON value, and the value under ['job_id'] is any
    JSON value too.  The handler reads the body with [data.get], which only
    an object has, and looks the id up in the registry, which hashes it. *)

(** The value of [data.get('job_id')]. *)
Inductive JobIdValue :=
| id_absent                                   (* no such key, or [null] *)
| id_string (s : string)
| id_scalar (truthy : bool)                   (* a number or a boolean *)
| id_container (type_name : string) (empty : bool).   (* a list or an object *)

(** The value of [request.json]. *)
Inductive StartBody :=
| body_not_object (type_name : string)        (* a list, string, number, boolean or [null] *)
| body_object (job_id : JobIdValue) (data : StartData).

(** The object [data] with the string or nothing under ['job_id']. *)
Definition with_job_id (job_id : option string) (data : StartData) : StartData :=
  {| d_job_id := job_id;
     d_iterations := d_iterations data;
     d_learning_rate := d_learning_rate data;
     d_layer_height := d_layer_height data;
     d_max_layers := d_max_layers data;
     d_min_layers := d_min_layers data;
     d_background_height := d_background_height data;
     d_background_color := d_background_color data;
     d_stl_output_size := d_stl_output_size data;
     d_processing_reduction_factor := d_processing_reduction_factor data;
     d_nozzle_diameter := d_nozzle_diameter data;
     d_init_tau := d_init_tau data;
     d_final_tau := d_final_tau data;
     d_warmup_fraction := d_warmup_fraction data;
     d_learning_rate_warmup_fraction := d_learning_rate_warmup_fraction data;
     d_num_init_rounds := d_num_init_rounds data;
     d_num_init_cluster_layers := d_num_init_cluster_layers data;
     d_early_stopping := d_early_stopping data;
     d_perform_pruning := d_perform_pruning data;
     d_pruning_max_colors := d_pruning_max_colors data;
     d_pruning_max_swaps := d_pruning_max_swaps data |}.

(** The handler of [POST /api/start] on any JSON body.  [data.get] raises
    [AttributeError] on a body that is not an object.  An id that is not a
    string is refused by [not job_id] when it is falsy; a truthy number or
    boolean is hashed and found in no key of the registry, whose keys are
    strings; a non-empty list or object cannot be hashed and
    [job_id not in active_jobs] raises [TypeError].  An exception that
    leaves the handler becomes a response 500. *)
Definition api_start (body : StartBody) (s : Server) : Server * Response :=
  match body with
  | body_not_object type_name =>
      (s, respond 500
            (unhandled_exception
               ("'" ++ type_name ++ "' object has no attribute 'get'")))
  | body_object id_absent data => start_optimization (with_job_id None data) s
  | body_object (id_string job_id) data =>
      start_optimization (with_job_id (Some job_id) data) s
  | body_object (id_scalar _) data =>
      (s, respond 400 (error_body "Invalid job ID"))
  | body_object (id_container type_name empty) data =>
      if empty
      then (s, respond 400 (error_body "Invalid job ID"))
      else (s, respond 500
                 (unhandled_exception ("unhashable type: '" ++ type_name ++ "'")))
  end.

(** The bodies on which the handler raises. *)
Definition start_raises (body : StartBody) : bool :=
  match body with
  | body_not_object _ => true
  | body_object (id_container _ empty) _ => negb empty
  | body_object _ _ => false
  end.

(** ** The validation of the configuration

    [web_app.py] hands the parameters of a start request to the
    constructor of the optimizer as they came.  The constructor is the one
    place the two layer bounds reach together. *)

(** Modelled from the spec: the text of the exception the optimization
    core raises for a configuration it rejects.  The class [ConfigError]
    is not defined in the sources; the spec's error taxonomy has
    "ConfigError (invalid/out-of-range parameter, e.g., min_layers >
    max_layers)". *)
Definition ConfigError : string := "ConfigError: min_layers > max_layers".

(** Modelled from the spec: the constructor [FilamentOptimizer] of
    [autoforge/Modules/Optimizer.py], which is not among the sources,
    with the validation the spec's error taxonomy names: a configuration
    with [min_layers > max_layers] is rejected with [ConfigError].
    [construct] is the rest of the constructor. *)
Definition checked_FilamentOptimizer {I P O : Type}
    (construct : CoreInputs I P -> result O) (inputs : CoreInputs I P)
    : result O :=
  if (p_max_layers (ci_args inputs) <? p_min_layers (ci_args inputs))%Z
  then Raise ConfigError
  else construct inputs.

Module Checked.

(** Modelled from the spec: the stand-in collaborators of [Stub.env] with
    a constructor that validates the layer bounds. *)
Definition collaborators : Collaborators :=
  {| Optimizer := nat;
     InitData := unit;
     Perception := Device;
     HeightMap := unit;
     Solution := nat;
     cuda_is_available := false;
     load_materials := fun _ _ => Ok Stub.materials;
     imread := fun _ => Ok Stub.image;
     resize_image := fun im _ _ => Ok im;
     hex_to_rgb := fun _ => Ok [0; 0; 0]%Q;
     run_init_threads := fun _ _ _ _ _ _ _ _ _ => Ok tt;
     PerceptionLoss := fun d => Ok d;
     FilamentOptimizer := checked_FilamentOptimizer (fun _ => Ok O);
     step := fun n => (S n, Ok 1%float);
     get_composite_image_disc := fun _ => Ok [[[1 # 2; 1 # 2; 1 # 2]]]%Q;
     get_height_map := fun _ => Ok tt;
     get_best_discrete_solution := fun n => Ok n;
     imencode_jpg_base64 := fun _ => Ok "AAAA";
     emit_fault := Stub.no_fault;
     secure_filename := fun name => name;
     UPLOAD_FOLDER := "/tmp/uploads";
     OUTPUT_FOLDER := "/tmp/outputs";
     save := fun _ _ => Ok tt;
     mkdir := fun _ => Ok tt;
     imwrite_rgb := fun _ _ => Ok tt;
     generate_stl := fun _ _ _ _ => Ok tt;
     generate_swap_instructions := fun _ _ _ _ => Ok "swap";
     write_text := fun _ _ => Ok tt;
     generate_project_file := fun _ _ _ _ _ _ => Ok tt;
     project_file_exists := fun _ => true |}.

End Checked.

(** ** The diagnostic script [check_mps.py]

    The script only prints.  Its output on [sys.stdout] is the list of the
    texts of its [print] calls, in order; what [traceback.print_exc()]
    writes goes to [sys.stderr] and is not part of it. *)

Module CheckMps.

(** What the script reads from its machine.  [mps_tensor_test] is [None]
    when a tensor can be created on the MPS device and added to, and the
    text of the exception otherwise. *)
Record Machine := {
  platform_system : string;
  platform_release : string;
  platform_machine : string;
  sys_version : string;
  torch_version : string;
  mps_is_built : bool;
  mps_is_available : bool;
  environ : list (string * string);
  mps_tensor_test : option string
}.

(** [s.upper()] on the bytes of [s]; the names of environment variables
    are ASCII. *)
Definition upper_ascii (c : ascii) : ascii :=
  let n := nat_of_ascii c in
  if (97 <=? n)%nat && (n <=? 122)%nat then ascii_of_nat (n - 32) else c.

Fixpoint upper (s : string) : string :=
  match s with
  | EmptyString => EmptyString
  | String c s' => String (upper_ascii c) (upper s')
  end.

(** [pattern in s] *)
Fixpoint occurs (pattern s : string) : bool :=
  String.prefix pattern s
  || match s with
     | EmptyString => false
     | String _ s' => occurs pattern s'
     end.

(** [str(b)] for a [bool] *)
Definition str_bool (b : bool) : string := if b then "True" else "False".

(** ["=" * n] *)
Fixpoint equals_signs (n : nat) : string :=
  match n with
  | O => EmptyString
  | S k => String "=" (equals_signs k)
  end.

Definition newline : string := String (ascii_of_nat 10) EmptyString.

Definition banner : list string :=
  [equals_signs 60; "MPS Diagnostic Information"; equals_signs 60; ""].

Definition system_information (m : Machine) : list string :=
  ["System Information:";
   "  OS: " ++ platform_system m ++ " " ++ platform_release m;
   "  Machine: " ++ platform_machine m;
   "  Python: " ++ sys_version m;
   ""].

Definition pytorch_information (m : Machine) : list string :=
  ["PyTorch Information:";
   "  Version: " ++ torch_version m;
   "  MPS built: " ++ str_bool (mps_is_built m);
   "  MPS available: " ++ str_bool (mps_is_available m);
   ""].

(** The variables whose name, in upper case, contains [MPS] or
    [PYTORCH]. *)
Definition mps_vars (m : Machine) : list (string * string) :=
  filter (fun kv => occurs "MPS" (upper (fst kv)) || occurs "PYTORCH" (upper (fst kv)))
    (environ m).

Definition environment_variables (m : Machine) : list string :=
  ["Relevant Environment Variables:"]
  ++ match mps_vars m with
     | [] => ["  (none found)"]
     | vars => map (fun kv => "  " ++ fst kv ++ "=" ++ snd kv) vars
     end
  ++ [""].

Definition failed_line (e : string) : string := "  ✗ Failed to use MPS: " ++ e.

Definition testing_mps_device (m : Machine) : list string :=
  ["Testing MPS Device:"]
  ++ (if mps_is_built m
      then match mps_tensor_test m with
           | None =>
               ["  ✓ Successfully created and operated on MPS tensor";
                "  ✓ MPS is working!"]
           | Some e => [failed_line e; "  Traceback:"]
           end
      else ["  ✗ MPS is not built into this PyTorch installation"])
  ++ [""; equals_signs 60].

Definition should_work_line : string :=
  "  ✓ MPS should work! Use --mps flag with autoforge".

Definition recommendations (m : Machine) : list string :=
  [newline ++ "Recommendations:"]
  ++ (if negb (mps_is_built m)
      then ["  1. Install PyTorch with MPS support:";
            "     pip3 install --upgrade torch torchvision"]
      else if negb (mps_is_available m)
      then ["  Possible issues:";
            "  1. Check macOS version (requires 12.3+):";
            "     sw_vers";
            "  2. Unset PYTORCH_ENABLE_MPS_FALLBACK if set:";
            "     unset PYTORCH_ENABLE_MPS_FALLBACK";
            "  3. Try forcing MPS anyway (will be attempted in updated code)"]
      else [should_work_line]).

(** The standard output of the script. *)
Definition check_mps (m : Machine) : list string :=
  banner ++ system_information m ++ pytorch_information m
  ++ environment_variables m ++ testing_mps_device m ++ recommendations m.

(** A machine where MPS is built and reported available, but the tensor
    test raises. *)
Definition broken_mac : Machine :=
  {| platform_system := "Darwin"; platform_release := "23.1.0";
     platform_machine := "arm64"; sys_version := "3.11.6";
     torch_version := "2.1.0"; mps_is_built := true;
     mps_is_available := true;
     environ := [("HOME", "/Users/me"); ("pytorch_enable_mps_fallback", "1");
                 ("PATH", "/usr/bin")];
     mps_tensor_test := Some "MPS backend out of memory" |}.

End CheckMps.

(** * Properties *)

(** ** File names *)

Section FileNames.

Import PyStr.

Lemma contains_app (c : ascii) (a b : string) :
  contains c (a ++ String c b) = true.
Proof.
  induction a as [|d a IH]; simpl.
  - by rewrite Ascii.eqb_refl.
  - destruct (Ascii.eqb d c); [done | exact IH].
Qed.

Lemma rsplit_last_None (sep : ascii) (s : string) :
  rsplit_last sep s = None ↔ contains sep s = false.
Proof.
  induction s as [|d s IH]; simpl; [done |].
  destruct (rsplit_last sep s) as [[a b]|] eqn:E.
  - split; [done |]. destruct (Ascii.eqb d sep); [done |].
    intros H. apply IH in H. discriminate.
  - destruct (Ascii.eqb d sep); [split; discriminate |].
    split; intros _; [by apply IH | done].
Qed.

Lemma rsplit_last_Some (sep : ascii) (s a b : string) :
  rsplit_last sep s = Some (a, b) ↔
  s = a ++ String sep b ∧ contains sep b = false.
Proof.
  split.
  - revert a. induction s as [|d s IH]; simpl; intros a H; [discriminate |].
    destruct (rsplit_last sep s) as [[a' b']|] eqn:E.
    + injection H as <- <-. destruct (IH a' eq_refl) as [-> Hb]. done.
    + destruct (Ascii.eqb_spec d sep) as [->|]; [| discriminate].
      injection H as <- <-. split; [done |]. by apply rsplit_last_None.
  - intros [-> Hb]. induction a as [|d a IH]; simpl.
    + apply rsplit_last_None in Hb. rewrite Hb. by rewrite Ascii.eqb_refl.
    + by rewrite IH.
Qed.

(** The index [[1]] in [allowed_file] is always in range when it is
    evaluated. *)
Lemma rsplit1_second (s : string) :
  contains "." s = true → is_Some (rsplit1 "." s !! 1%nat).
Proof.
  intros H. unfold rsplit1.
  destruct (rsplit_last "." s) as [[a b]|] eqn:E; [by eexists |].
  apply rsplit_last_None in E. congruence.
Qed.

(** [allowed_file] decides [has_allowed_extension]. *)
Lemma allowed_file_spec (name : string) (exts : gset string) :
  allowed_file name exts = true ↔ has_allowed_extension name exts.
Proof.
  unfold allowed_file, has_allowed_extension, rsplit1. split.
  - intros H. apply andb_true_iff in H as [_ H].
    destruct (rsplit_last "." name) as [[a b]|] eqn:E; simpl in H; [| done].
    apply rsplit_last_Some in E as [-> Hb].
    apply bool_decide_eq_true in H. by exists a, b.
  - intros (stem & ext & -> & Hdot & Hin).
    rewrite contains_app. simpl.
    assert (rsplit_last "." (stem ++ String "." ext) = Some (stem, ext)) as ->
      by by apply rsplit_last_Some.
    simpl. by apply bool_decide_eq_true.
Qed.

End FileNames.

Example allowed_file_upper_case : allowed_file "photo.PNG" ALLOWED_EXTENSIONS = true.
Proof. reflexivity. Qed.

Example allowed_file_last_extension : allowed_file "archive.png.exe" ALLOWED_EXTENSIONS = false.
Proof. reflexivity. Qed.

Example allowed_file_no_dot : allowed_file "png" ALLOWED_EXTENSIONS = false.
Proof. reflexivity. Qed.

Example allowed_file_other_kind : allowed_file "filaments.json" ALLOWED_EXTENSIONS = false.
Proof. reflexivity. Qed.

(** ** Uploads *)

Section Upload.

Context (C : Collaborators).

(** What the four checks of [upload_files] accept is [valid_upload]. *)
Lemma upload_checks_spec (files : gmap string FileStorage) :
  valid_upload files ↔
  ∃ image_file material_file,
    files !! "image" = Some image_file
    ∧ files !! "materials" = Some material_file
    ∧ bool_decide (filename image_file = "")
      || bool_decide (filename material_file = "") = false
    ∧ allowed_file (filename image_file) ALLOWED_EXTENSIONS = true
    ∧ allowed_file (filename material_file) ALLOWED_MATERIAL_EXTENSIONS = true.
Proof.
  unfold valid_upload. split.
  - intros (i & m & Hi & Hm & Hni & Hnm & Hai & Ham). exists i, m.
    repeat split; try done.
    + apply orb_false_iff. split; by apply bool_decide_eq_false.
    + by apply allowed_file_spec.
    + by apply allowed_file_spec.
  - intros (i & m & Hi & Hm & Hn & Hai & Ham). exists i, m.
    apply orb_false_iff in Hn as [Hni Hnm].
    apply bool_decide_eq_false in Hni, Hnm.
    repeat split; try done; by apply allowed_file_spec.
Qed.

(** A request that fails a check is answered 400 and changes nothing. *)
Lemma upload_rejected (files : gmap string FileStorage) (uuid : string)
    (now : float) (s : Server) :
  ¬ valid_upload files →
  upload_files C files uuid now s
  = (s, respond 400 (r_body (snd (upload_files C files uuid now s)))).
Proof.
  intros Hno. unfold upload_files.
  destruct (files !! "image") as [i|] eqn:Hi; [| done].
  destruct (files !! "materials") as [m|] eqn:Hm; [| done].
  destruct (bool_decide (filename i = "") || bool_decide (filename m = ""))
    eqn:Hn; [done |].
  destruct (allowed_file (filename i) ALLOWED_EXTENSIONS) eqn:Hai; [| done].
  destruct (allowed_file (filename m) ALLOWED_MATERIAL_EXTENSIONS) eqn:Ham;
    [| done].
  exfalso. apply Hno, upload_checks_spec. by exists i, m.
Qed.

(** A request that changes the server state passed every check. *)
Lemma upload_changes_only_if_valid (files : gmap string FileStorage)
    (uuid : string) (now : float) (s : Server) :
  fst (upload_files C files uuid now s) ≠ s → valid_upload files.
Proof.
  intros Hch. apply upload_checks_spec. revert Hch. unfold upload_files.
  destruct (files !! "image") as [i|] eqn:Hi; [| done].
  destruct (files !! "materials") as [m|] eqn:Hm; [| done].
  destruct (bool_decide (filename i = "") || bool_decide (filename m = ""))
    eqn:Hn; [done |].
  destruct (allowed_file (filename i) ALLOWED_EXTENSIONS) eqn:Hai; [| done].
  destruct (allowed_file (filename m) ALLOWED_MATERIAL_EXTENSIONS) eqn:Ham;
    [| done].
  intros _. by exists i, m.
Qed.

(** A valid request whose two files can be saved creates the job. *)
Lemma upload_accepted (files : gmap string FileStorage) (uuid : string)
    (now : float) (s : Server) :
  valid_upload files →
  (∀ path data, save C path data = Ok tt) →
  ∃ job,
    upload_files C files uuid now s
    = (with_jobs (insert uuid job) s,
       respond 200 (job_body uuid "Files uploaded successfully"))
    ∧ j_status job = "uploaded" ∧ j_outputs job = None
    ∧ j_cancelled job = None.
Proof.
  intros Hv Hsave. apply upload_checks_spec in Hv
    as (i & m & Hi & Hm & Hn & Hai & Ham).
  unfold upload_files. rewrite Hi, Hm, Hn, Hai, Ham. simpl.
  rewrite !Hsave. by eexists.
Qed.

End Upload.

(** C10.  For every upload request: the server state changes, that is a
    job is added to the registry, only if both files are present, their
    file names are non-empty and each name ends in a dot followed by an
    extension that, in lower case, is in the allowed set of its kind
    ([png], [jpg], [jpeg], [bmp], [webp] for the image; [csv], [json] for
    the materials).  Otherwise the response is 400 and the server state,
    registry included, is unchanged. *)
Theorem upload_creates_job_only_if_valid (C : Collaborators)
    (files : gmap string FileStorage) (uuid : string) (now : float) (s : Server) :
  (active_jobs (fst (upload_files C files uuid now s)) ≠ active_jobs s →
   valid_upload files)
  ∧ (¬ valid_upload files →
     r_code (snd (upload_files C files uuid now s)) = 400
     ∧ fst (upload_files C files uuid now s) = s).
Proof.
  split.
  - intros Hch. apply (upload_changes_only_if_valid C files uuid now s).
    intros Heq. apply Hch. by rewrite Heq.
  - intros Hno. rewrite (upload_rejected C files uuid now s Hno). done.
Qed.

(** The two directions of the statement above, at concrete requests: an
    upload with an executable in place of the image is refused, an upload
    of [photo.PNG] with [filaments.csv] creates the job ["job-1"]. *)
Example upload_refused_example :
  upload_files (Stub.collaborators false Stub.no_fault)
    (Stub.files "photo.png.exe" "filaments.csv") "job-1" 1000%float
    Stub.empty_server
  = (Stub.empty_server, respond 400 (error_body "Invalid image file type")).
Proof. reflexivity. Qed.

Example upload_accepted_example :
  ∃ job, active_jobs Stub.uploaded !! "job-1" = Some job
         ∧ j_status job = "uploaded".
Proof. eexists. split; [vm_compute; reflexivity | reflexivity]. Qed.

(** ** Starting a job *)

Section Start.

Lemma start_accepted (data : StartData) (s : Server) (job_id : string) (job : Job) :
  startable data s job_id job →
  start_optimization data s
  = (with_launched (launch_of data job_id job)
       (with_jobs (insert job_id (set_params (params_of data) job)) s),
     respond 200 (job_body job_id "Optimization started")).
Proof.
  intros (Hid & Hne & Hjob & Hst). unfold start_optimization.
  rewrite Hid, Hjob, Hst. by rewrite bool_decide_eq_false_2.
Qed.

(** A request that is not [startable] is answered 400, launches no
    thread and leaves the registry as it is. *)
Lemma start_refused (data : StartData) (s : Server) :
  (∀ job_id job, ¬ startable data s job_id job) →
  fst (start_optimization data s) = s
  ∧ r_code (snd (start_optimization data s)) = 400.
Proof.
  intros Hno. unfold start_optimization.
  destruct (d_job_id data) as [job_id|] eqn:Hid; [| done].
  case_bool_decide as Hne; [done |].
  destruct (active_jobs s !! job_id) as [job|] eqn:Hjob; [| done].
  case_bool_decide as Hst; [| done].
  by destruct (Hno job_id job).
Qed.

(** A thread is launched only for a job whose status is ['uploaded']. *)
Lemma start_launches_only_uploaded (data : StartData) (s : Server) :
  launched (fst (start_optimization data s)) ≠ launched s →
  ∃ job_id job, startable data s job_id job.
Proof.
  unfold start_optimization.
  destruct (d_job_id data) as [job_id|] eqn:Hid; [| done].
  case_bool_decide as Hne; [done |].
  destruct (active_jobs s !! job_id) as [job|] eqn:Hjob; [| done].
  case_bool_decide as Hst; [| done].
  intros _. by exists job_id, job.
Qed.

(** The handler assigns ['params'] and nothing else: the status of the
    job is still ['uploaded'] when it returns. *)
Lemma start_keeps_status (data : StartData) (s : Server) (job_id : string) (job : Job) :
  startable data s job_id job →
  startable data (fst (start_optimization data s)) job_id
    (set_params (params_of data) job).
Proof.
  intros H. rewrite (start_accepted data s job_id job H).
  destruct H as (Hid & Hne & Hjob & Hst).
  repeat split; try done. simpl. by rewrite lookup_insert_eq.
Qed.

End Start.

(** C9.  The handler of [/api/start] at two requests in a row for one
    uploaded job, the second served before the thread launched by the
    first has run its first statement
    ([active_jobs[job_id]['status'] = 'running']): both are answered 200
    and each launches a thread for the job. *)
Theorem start_twice_launches_twice (data : StartData) (s : Server)
    (job_id : string) (job : Job) :
  startable data s job_id job →
  let first := start_optimization data s in
  let second := start_optimization data (fst first) in
  r_code (snd first) = 200
  ∧ r_code (snd second) = 200
  ∧ launched (fst second)
    = (launched s ++ [launch_of data job_id job; launch_of data job_id job])%list.
Proof.
  intros H first second. subst first second.
  pose proof (start_keeps_status data s job_id job H) as H'.
  rewrite (start_accepted _ _ _ _ H') , (start_accepted _ _ _ _ H).
  simpl. repeat split. by rewrite <- app_assoc.
Qed.

Lemma start_twice_launches_twice_witness :
  startable (Stub.start_data 3 0 5) Stub.uploaded "job-1"
    {| j_id := "job-1"; j_status := "uploaded"; j_progress := 0;
       j_image_path := "/tmp/uploads/job-1_photo.PNG";
       j_material_path := "/tmp/uploads/job-1_filaments.csv";
       j_created_at := 1000%float; j_params := None; j_cancelled := None;
       j_iteration := None; j_outputs := None; j_error := None |}
  ∧ length
      (launched
         (fst (start_optimization (Stub.start_data 3 0 5)
                 (fst (start_optimization (Stub.start_data 3 0 5) Stub.uploaded)))))
    = 2%nat.
Proof.
  assert (startable (Stub.start_data 3 0 5) Stub.uploaded "job-1"
    {| j_id := "job-1"; j_status := "uploaded"; j_progress := 0;
       j_image_path := "/tmp/uploads/job-1_photo.PNG";
       j_material_path := "/tmp/uploads/job-1_filaments.csv";
       j_created_at := 1000%float; j_params := None; j_cancelled := None;
       j_iteration := None; j_outputs := None; j_error := None |}) as H.
  { repeat split; try done. }
  split; [exact H |].
  destruct (start_twice_launches_twice _ _ _ _ H) as (_ & _ & ->).
  reflexivity.
Defined.

(** ** The progress callback *)

Section Progress.

Context (C : Collaborators).

(** [send_progress] changes the trace of events only by its one call of
    [socketio.emit]: after a normal return the trace has one more event,
    the progress event carrying the arguments of the call. *)
Lemma send_progress_emits (job_id : string) (iteration total : Z)
    (loss : float) (preview : option RawImage) (s s' : Server) :
  send_progress C job_id iteration total loss preview s = (s', Ok tt) →
  ∃ percent image64,
    emitted s'
    = (emitted s
       ++ [progress {| pd_job_id := job_id; pd_iteration := iteration;
                       pd_total_iterations := total; pd_progress := percent;
                       pd_loss := loss; pd_preview := image64 |}])%list
    ∧ encode_preview C preview = Ok image64
    ∧ printed s' = printed s ∧ launched s' = launched s.
Proof.
  unfold send_progress, bind, call, ret, emit.
  destruct (PyNum.truediv iteration total) as [ratio|]; [| done].
  destruct (PyNum.py_int _) as [percent|]; [| done].
  destruct (encode_preview C preview) as [image64|]; [| done].
  destruct (emit_fault C _); [done |].
  destruct (active_jobs _ !! job_id); intros [= <-];
    eexists _, _; (split; [reflexivity |]); done.
Qed.

(** When [send_progress] raises, nothing has been emitted or recorded. *)
Lemma send_progress_raises (job_id : string) (iteration total : Z)
    (loss : float) (preview : option RawImage) (s s' : Server) (msg : string) :
  send_progress C job_id iteration total loss preview s = (s', Raise msg) →
  s' = s.
Proof.
  unfold send_progress, bind, call, ret, emit.
  destruct (PyNum.truediv iteration total) as [ratio|]; [| by intros [= <-]].
  destruct (PyNum.py_int _) as [percent|]; [| by intros [= <-]].
  destruct (encode_preview C preview) as [image64|]; [| by intros [= <-]].
  destruct (emit_fault C _); [by intros [= <-] |].
  by destruct (active_jobs _ !! job_id).
Qed.

(** The call does send when the percentage can be computed, the preview
    can be encoded and [socketio.emit] accepts the event. *)
Lemma send_progress_ok (job_id : string) (iteration total : Z)
    (loss : float) (preview : option RawImage) (s : Server)
    (ratio : float) (percent : Z) (image64 : option string) :
  PyNum.truediv iteration total = Ok ratio →
  PyNum.py_int (PrimFloat.mul ratio 100%float) = Ok percent →
  encode_preview C preview = Ok image64 →
  emit_fault C
    (progress {| pd_job_id := job_id; pd_iteration := iteration;
                 pd_total_iterations := total; pd_progress := percent;
                 pd_loss := loss; pd_preview := image64 |}) = None →
  ∃ s',
    send_progress C job_id iteration total loss preview s = (s', Ok tt)
    ∧ emitted s'
      = (emitted s
         ++ [progress {| pd_job_id := job_id; pd_iteration := iteration;
                         pd_total_iterations := total; pd_progress := percent;
                         pd_loss := loss; pd_preview := image64 |}])%list.
Proof.
  intros Hr Hp Hi He. unfold send_progress, bind, call, ret, emit.
  rewrite Hr, Hp, Hi, He.
  destruct (active_jobs _ !! job_id); by eexists.
Qed.

(** [update] never changes the interval and the job of the callback. *)
Lemma update_keeps_interval (cb : ProgressCallback) (now : float)
    (iteration total : Z) (loss : float) (preview : option RawImage) (s : Server) :
  update_interval (fst (fst (update C cb now iteration total loss preview s)))
  = update_interval cb
  ∧ cb_job_id (fst (fst (update C cb now iteration total loss preview s)))
    = cb_job_id cb.
Proof.
  unfold update. destruct (throttled cb now iteration total); [done |].
  by destruct (send_progress C _ _ _ _ _ s).
Qed.

End Progress.

(** C4, as the code has it.  [ProgressCallback.update] is throttled on the
    clock, with the interval 0.5 seconds set by the constructor.  It
    returns at once, with no event emitted and neither the callback nor
    the server state changed, exactly when less than the interval has
    passed since the last update that got past the throttle and
    [iteration < total_iterations - 1].  In every other case (the interval
    has passed, or [iteration >= total_iterations - 1] whatever the clock
    says) it records the time of the call and goes on to send.  Then one
    event is emitted, carrying the iteration, the total, the loss and the
    preview when there is one, provided the payload can be built (the
    percentage and the encoding of the preview) and the socket accepts the
    event; when one of these raises, the exception leaves [update] and
    nothing has been emitted.  This is so for [total_iterations = 0],
    where the percentage is a division by zero. *)
Theorem progress_update_throttle (C : Collaborators) (cb : ProgressCallback)
    (now : float) (iteration total : Z) (loss : float)
    (preview : option RawImage) (s : Server) :
  update_interval cb = 0.5%float →
  let sent :=
    {| cb_job_id := cb_job_id cb; last_update := now; update_interval := 0.5 |} in
  (PrimFloat.ltb (PrimFloat.sub now (last_update cb)) 0.5 = true →
   iteration < total - 1 →
   update C cb now iteration total loss preview s = (cb, s, Ok tt))
  ∧ (PrimFloat.ltb (PrimFloat.sub now (last_update cb)) 0.5 = false
     ∨ total - 1 <= iteration →
     (∃ s' r,
        update C cb now iteration total loss preview s = (sent, s', r)
        ∧ send_progress C (cb_job_id cb) iteration total loss preview s = (s', r))
     ∧ (∀ ratio percent image64,
          PyNum.truediv iteration total = Ok ratio →
          PyNum.py_int (PrimFloat.mul ratio 100%float) = Ok percent →
          encode_preview C preview = Ok image64 →
          emit_fault C
            (progress {| pd_job_id := cb_job_id cb; pd_iteration := iteration;
                         pd_total_iterations := total; pd_progress := percent;
                         pd_loss := loss; pd_preview := image64 |}) = None →
          ∃ s',
            update C cb now iteration total loss preview s = (sent, s', Ok tt)
            ∧ emitted s'
              = (emitted s
                 ++ [progress {| pd_job_id := cb_job_id cb;
                                 pd_iteration := iteration;
                                 pd_total_iterations := total;
                                 pd_progress := percent; pd_loss := loss;
                                 pd_preview := image64 |}])%list)
     ∧ (∀ s' msg,
          update C cb now iteration total loss preview s = (sent, s', Raise msg) →
          s' = s)
     ∧ (total = 0 →
        update C cb now iteration total loss preview s
        = (sent, s, Raise "division by zero"))).
Proof.
  intros Hint sent. split.
  - intros Hlt Hit. unfold update, throttled. rewrite Hint, Hlt.
    apply Z.ltb_lt in Hit. by rewrite Hit.
  - intros Hnot.
    assert (throttled cb now iteration total = false) as Hth.
    { unfold throttled. rewrite Hint. destruct Hnot as [-> | Hge]; [done |].
      assert ((iteration <? total - 1)%Z = false) as -> by by apply Z.ltb_ge.
      apply andb_false_r. }
    split; [| split; [| split]].
    + unfold update. rewrite Hth, Hint.
      destruct (send_progress C _ _ _ _ _ s) as [s' r]. by exists s', r.
    + intros ratio percent image64 Hr Hp Hi He.
      destruct (send_progress_ok C (cb_job_id cb) iteration total loss preview s
                  ratio percent image64 Hr Hp Hi He) as (s' & Hs' & Hev).
      exists s'. unfold update. by rewrite Hth, Hint, Hs'.
    + intros s' msg. unfold update. rewrite Hth, Hint.
      destruct (send_progress C _ _ _ _ _ s) as [s1 r] eqn:Hsend.
      intros [= <- ->]. by apply send_progress_raises in Hsend.
    + intros ->. unfold update. rewrite Hth, Hint.
      unfold send_progress, bind, call, PyNum.truediv. simpl.
      reflexivity.
Qed.

Lemma progress_update_throttle_witness :
  update_interval (new_callback "job-1") = 0.5%float
  ∧ update Stub.env (new_callback "job-1") 0.25%float 1 10 1%float None
      Stub.uploaded
    = (new_callback "job-1", Stub.uploaded, Ok tt)
  ∧ (∃ s',
       update Stub.env (new_callback "job-1") 1001%float 1 10 1%float None
         Stub.uploaded
       = ({| cb_job_id := "job-1"; last_update := 1001;
             update_interval := 0.5 |}, s', Ok tt)
       ∧ emitted s'
         = [progress {| pd_job_id := "job-1"; pd_iteration := 1;
                        pd_total_iterations := 10; pd_progress := 10;
                        pd_loss := 1; pd_preview := None |}])
  ∧ (∃ s',
       update Stub.env (new_callback "job-1") 0.25%float 10 10 1%float None
         Stub.uploaded
       = ({| cb_job_id := "job-1"; last_update := 0.25;
             update_interval := 0.5 |}, s', Ok tt)
       ∧ emitted s'
         = [progress {| pd_job_id := "job-1"; pd_iteration := 10;
                        pd_total_iterations := 10; pd_progress := 100;
                        pd_loss := 1; pd_preview := None |}]).
Proof.
  split; [reflexivity |]. split; [| split].
  - apply (progress_update_throttle Stub.env (new_callback "job-1") 0.25%float
             1 10 1%float None Stub.uploaded eq_refl); [reflexivity | lia].
  - destruct (progress_update_throttle Stub.env (new_callback "job-1")
                1001%float 1 10 1%float None Stub.uploaded eq_refl)
      as (_ & Hsend).
    destruct (Hsend (or_introl eq_refl)) as (_ & Hemit & _).
    exact (Hemit _ 10 None eq_refl eq_refl eq_refl eq_refl).
  - destruct (progress_update_throttle Stub.env (new_callback "job-1")
                0.25%float 10 10 1%float None Stub.uploaded eq_refl)
      as (_ & Hsend).
    assert (10 - 1 <= 10) as Hlast by lia.
    destruct (Hsend (or_intror Hlast)) as (_ & Hemit & _).
    exact (Hemit _ 100 None eq_refl eq_refl eq_refl eq_refl).
Defined.

(** C4, as stated, fails.  A call with [iteration >= total_iterations - 1]
    does not always emit.  With [total_iterations = 0] the percentage
    [iteration / total_iterations] raises [ZeroDivisionError] before the
    event is built; with a socket that refuses progress events the call of
    the last iteration raises in [socketio.emit].  In both runs the time of
    the call is recorded and no event is emitted. *)
Lemma last_update_can_emit_nothing :
  update Stub.env (new_callback "job-1") 1001%float 0 0 1%float None
    Stub.uploaded
  = ({| cb_job_id := "job-1"; last_update := 1001; update_interval := 0.5 |},
     Stub.uploaded, Raise "division by zero")
  ∧ update Stub.flaky (new_callback "job-1") 1001%float 10 10 1%float None
      Stub.uploaded
    = ({| cb_job_id := "job-1"; last_update := 1001; update_interval := 0.5 |},
       Stub.uploaded, Raise "socket closed")
  ∧ emitted Stub.uploaded = [].
Proof. vm_compute. repeat split. Qed.

(** A call after the interval is sent in the middle of a run; the
    percentage is the truncated float product. *)
Example update_after_interval_sends :
  emitted
    (snd (fst (update (Stub.collaborators false Stub.no_fault)
                 (new_callback "job-1") 0.5%float 29 100 1%float None
                 Stub.uploaded)))
  = [progress {| pd_job_id := "job-1"; pd_iteration := 29;
                 pd_total_iterations := 100; pd_progress := 28;
                 pd_loss := 1; pd_preview := None |}].
Proof. vm_compute. reflexivity. Qed.

(** ** The optimization loop *)

Section Loop.

Context (C : Collaborators) (job_id : string) (iterations : Z) (sch : Schedule).

Lemma job_kept_refl (s : Server) : job_kept job_id s s.
Proof. intros job H. by exists job. Qed.

Lemma job_kept_trans (s1 s2 s3 : Server) :
  job_kept job_id s1 s2 → job_kept job_id s2 s3 → job_kept job_id s1 s3.
Proof.
  intros H12 H23 job H. destruct (H12 job H) as (j2 & H2 & E2).
  destruct (H23 j2 H2) as (j3 & H3 & E3). exists j3. split; [done | congruence].
Qed.

(** Assigning a key other than ['outputs'] keeps the job. *)
Lemma job_kept_insert (s : Server) (job : Job) (f : Job → Job) :
  active_jobs s !! job_id = Some job →
  (∀ j, j_outputs (f j) = j_outputs j) →
  job_kept job_id s (with_jobs (insert job_id (f job)) s).
Proof.
  intros Hjob Hf job' Hjob'. exists (f job). simpl.
  rewrite lookup_insert_eq. split; [done |]. rewrite Hf. congruence.
Qed.

Lemma job_kept_emitted (s : Server) (e : Event) :
  job_kept job_id s (with_emitted e s).
Proof. intros job H. by exists job. Qed.

Lemma job_kept_printed (s : Server) (line : string) :
  job_kept job_id s (with_printed line s).
Proof. intros job H. by exists job. Qed.

Lemma job_kept_cancel (s : Server) :
  job_kept job_id s (fst (cancel_job job_id s)).
Proof.
  unfold cancel_job. destruct (active_jobs s !! job_id) as [job|] eqn:E.
  - by apply (job_kept_insert s job
                (fun j => set_status "cancelled" (set_cancelled true j))).
  - apply job_kept_refl.
Qed.

Lemma job_kept_interfere (i : nat) (s : Server) :
  job_kept job_id s (interfere sch i job_id s).
Proof.
  unfold interfere. destruct (cancels sch i);
    [apply job_kept_cancel | apply job_kept_refl].
Qed.

(** The cancel request leaves the flag set. *)
Lemma interfere_cancels (i : nat) (s : Server) (job : Job) :
  cancels sch i = true →
  active_jobs s !! job_id = Some job →
  active_jobs (interfere sch i job_id s) !! job_id
  = Some (set_status "cancelled" (set_cancelled true job)).
Proof.
  intros Hc Hjob. unfold interfere, cancel_job. rewrite Hc, Hjob. simpl.
  by rewrite lookup_insert_eq.
Qed.

Lemma job_kept_send_progress (iteration total : Z) (loss : float)
    (preview : option RawImage) (s s' : Server) (r : result unit) :
  send_progress C job_id iteration total loss preview s = (s', r) →
  job_kept job_id s s'.
Proof.
  unfold send_progress, bind, call, ret, emit. intros H.
  repeat case_match; simplify_eq.
  all: try apply job_kept_refl.
  all: try apply job_kept_emitted.
  all: match goal with
       | Hjob : active_jobs (with_emitted ?e ?s0) !! job_id = Some ?j |- _ =>
           apply (job_kept_trans s0 (with_emitted e s0));
           [ apply job_kept_emitted
           | apply (job_kept_insert (with_emitted e s0) j
                      (fun x => set_iteration iteration (set_progress _ x)));
             [exact Hjob | done] ]
       end.
Qed.

Lemma job_kept_update (cb cb' : ProgressCallback) (now : float)
    (iteration total : Z) (loss : float) (preview : option RawImage)
    (s s' : Server) (r : result unit) :
  cb_job_id cb = job_id →
  update C cb now iteration total loss preview s = (cb', s', r) →
  job_kept job_id s s'.
Proof.
  intros Hid. unfold update.
  destruct (throttled cb now iteration total).
  - intros [= _ <- _]. apply job_kept_refl.
  - rewrite Hid.
    destruct (send_progress C job_id iteration total loss preview s)
      as [s1 r1] eqn:E.
    intros [= _ <- _]. by eapply job_kept_send_progress.
Qed.

(** One iteration keeps the job, and the callback stays that of the
    job. *)
Lemma loop_body_kept (i : nat) (t t' : Thread C) (r : result unit) :
  cb_job_id (t_callback t) = job_id →
  loop_body C job_id iterations sch i t = (t', r) →
  job_kept job_id (t_server t) (t_server t')
  ∧ cb_job_id (t_callback t') = job_id.
Proof.
  intros Hid. unfold loop_body.
  pose proof (job_kept_interfere i (t_server t)) as Hint.
  set (s0 := interfere sch i job_id (t_server t)) in *.
  destruct (active_jobs s0 !! job_id) as [job|]; [| by intros [= <- _]].
  destruct (default false (j_cancelled job)); [by intros [= <- _] |].
  destruct (step C (t_optimizer t)) as [opt [loss|msg]]; [| by intros [= <- _]].
  assert (∀ preview,
    (let '(cb, s1, r0) :=
       update C (t_callback t) (clock sch i) (Z.of_nat i + 1) iterations
         loss preview s0 in
     ({| t_server := s1; t_optimizer := opt; t_callback := cb |}, r0))
    = (t', r) →
    job_kept job_id (t_server t) (t_server t')
    ∧ cb_job_id (t_callback t') = job_id) as Hrep.
  { intros preview.
    pose proof (update_keeps_interval C (t_callback t) (clock sch i)
                  (Z.of_nat i + 1) iterations loss preview s0) as [_ Hcb].
    destruct (update C (t_callback t) (clock sch i) (Z.of_nat i + 1)
                iterations loss preview s0) as [[cb s1] r0] eqn:E.
    intros [= <- _]. simpl in *. split; [| congruence].
    eapply job_kept_trans; [exact Hint |].
    by eapply job_kept_update. }
  destruct (wants_preview iterations i).
  - destruct (get_composite_image_disc C opt); [apply Hrep | by intros [= <- _]].
  - apply Hrep.
Qed.

(** One iteration calls [step] at most once, and it does when it
    returns normally. *)
Lemma loop_body_steps (i : nat) (t t' : Thread C) (r : result unit) :
  loop_body C job_id iterations sch i t = (t', r) →
  (t_optimizer t' = t_optimizer t ∧ r ≠ Ok tt)
  ∨ t_optimizer t' = fst (step C (t_optimizer t)).
Proof.
  unfold loop_body.
  destruct (active_jobs _ !! job_id) as [job|]; [| intros [= <- <-]; by left].
  destruct (default false (j_cancelled job)); [intros [= <- <-]; by left |].
  destruct (step C (t_optimizer t)) as [opt stepped]. simpl.
  intros H. right. revert H.
  destruct stepped as [loss|msg]; [| by intros [= <- _]].
  destruct (wants_preview iterations i).
  - destruct (get_composite_image_disc C opt); [| by intros [= <- _]].
    destruct (update _ _ _ _ _ _ _ _) as [[cb s1] r0]. by intros [= <- _].
  - destruct (update _ _ _ _ _ _ _ _) as [[cb s1] r0]. by intros [= <- _].
Qed.

(** A cancel request served before the poll of iteration [i] stops the
    loop at that poll: [step] is not called. *)
Lemma loop_body_cancelled (i : nat) (t : Thread C) :
  cancels sch i = true →
  is_Some (active_jobs (t_server t) !! job_id) →
  loop_body C job_id iterations sch i t
  = ({| t_server := fst (cancel_job job_id (t_server t));
        t_optimizer := t_optimizer t; t_callback := t_callback t |},
     Raise "Job cancelled by user").
Proof.
  intros Hc [job Hjob]. unfold loop_body.
  rewrite (interfere_cancels i _ job Hc Hjob). simpl.
  unfold interfere. by rewrite Hc.
Qed.

Lemma loop_kept (n i : nat) (t t' : Thread C) (r : result unit) :
  cb_job_id (t_callback t) = job_id →
  loop C job_id iterations sch n i t = (t', r) →
  job_kept job_id (t_server t) (t_server t')
  ∧ cb_job_id (t_callback t') = job_id.
Proof.
  revert i t. induction n as [|n IH]; simpl; intros i t Hid.
  - intros [= <- _]. split; [apply job_kept_refl | done].
  - destruct (loop_body C job_id iterations sch i t) as [t1 [[]|msg]] eqn:E;
      destruct (loop_body_kept i t t1 _ Hid E) as [Hk Hid1].
    + intros H. destruct (IH _ _ Hid1 H) as [Hk' Hid'].
      split; [by eapply job_kept_trans | done].
    + by intros [= <- _].
Qed.

(** The loop calls [step] at most once per iteration, and exactly once
    per iteration when it runs to its end. *)
Lemma loop_steps (n i : nat) (t t' : Thread C) (r : result unit) :
  loop C job_id iterations sch n i t = (t', r) →
  ∃ k, (k ≤ n)%nat
       ∧ t_optimizer t' = steps C k (t_optimizer t)
       ∧ (r = Ok tt → k = n).
Proof.
  revert i t. induction n as [|n IH]; simpl; intros i t.
  - intros [= <- <-]. by exists 0%nat.
  - destruct (loop_body C job_id iterations sch i t) as [t1 [[]|msg]] eqn:E;
      destruct (loop_body_steps i t t1 _ E) as [[Ho Hr]|Ho]; try done.
    + intros H. destruct (IH _ _ H) as (k & Hk & Hopt & Hok).
      exists (S k). repeat split; [lia | | intros Hr; by rewrite Hok].
      rewrite Hopt, Ho. unfold steps. by rewrite Nat.iter_succ_r.
    + intros [= <- <-]. exists 0%nat. repeat split; [lia | done | done].
    + intros [= <- <-]. exists 1%nat. repeat split; [lia | done | done].
Qed.

(** The first [a] iterations, then the next [b]. *)
Lemma loop_app (a b i : nat) (t : Thread C) :
  loop C job_id iterations sch (a + b) i t
  = match loop C job_id iterations sch a i t with
    | (t1, Ok _) => loop C job_id iterations sch b (i + a) t1
    | (t1, Raise msg) => (t1, Raise msg)
    end.
Proof.
  revert i t. induction a as [|a IH]; simpl; intros i t.
  - by rewrite Nat.add_0_r.
  - destruct (loop_body C job_id iterations sch i t) as [t1 [[]|msg]]; [| done].
    rewrite IH. by replace (S i + a)%nat with (i + S a)%nat by lia.
Qed.

End Loop.

(** ** The background thread *)

Section Run.

Context (C : Collaborators).

(** What a successful [prepare] has done: the calls it made, what they
    returned, the inputs handed to [FilamentOptimizer], and its effect on
    the shared state. *)
Lemma prepare_inv (job_id image_path material_file : string) (params : Params)
    (s s' : Server) (materials : Materials) (opt : Optimizer C) :
  prepare C job_id image_path material_file params s = (s', Ok (materials, opt)) →
  ∃ job image resized rgb init perception,
    active_jobs s !! job_id = Some job
    ∧ load_materials C (PyNum.endswith material_file ".csv") material_file
      = Ok materials
    ∧ imread C image_path = Ok image
    ∧ p_processing_reduction_factor params ≠ 0
    ∧ resize_image C image
        (p_stl_output_size params / p_processing_reduction_factor params)
        (p_stl_output_size params / p_processing_reduction_factor params)
      = Ok resized
    ∧ hex_to_rgb C (p_background_color params) = Ok rgb
    ∧ run_init_threads C resized (mul255_2 (div255_2 (m_colors materials)))
        (m_TDs materials) rgb (p_max_layers params) (p_layer_height params)
        (p_background_height params) (p_num_init_rounds params)
        (p_num_init_cluster_layers params) = Ok init
    ∧ PerceptionLoss C (select_device C) = Ok perception
    ∧ FilamentOptimizer C
        {| ci_args := namespace_of params;
           ci_target := div255_3 (tensor_of_image resized);
           ci_init := init;
           ci_material_colors := div255_2 (m_colors materials);
           ci_material_TDs := m_TDs materials;
           ci_background := div255_1 rgb;
           ci_device := select_device C;
           ci_perception_loss_module := perception |} = Ok opt
    ∧ s' = with_emitted (status job_id "Starting optimization...")
             (with_emitted (status job_id "Initializing height map...")
                (with_emitted (job_started job_id)
                   (with_jobs (insert job_id (set_status "running" job)) s))).
Proof.
  unfold prepare, update_job, get_job, bind, call, ret, emit, PyNum.floordiv.
  intros H. repeat case_match; simplify_eq.
  match goal with
  | Hz : (_ =? 0)%Z = false |- _ => apply Z.eqb_neq in Hz
  end.
  eexists _, _, _, _, _, _. repeat split; eauto.
Qed.

(** Conversely, [prepare] succeeds when the job is registered, the socket
    accepts its three events and each call it makes succeeds. *)
Lemma prepare_ok (job_id image_path material_file : string) (params : Params)
    (s : Server) (job : Job) (materials : Materials) (image resized : RawImage)
    (rgb : Tensor1) (init : InitData C) (perception : Perception C)
    (opt : Optimizer C) :
  active_jobs s !! job_id = Some job →
  emit_fault C (job_started job_id) = None →
  emit_fault C (status job_id "Initializing height map...") = None →
  emit_fault C (status job_id "Starting optimization...") = None →
  load_materials C (PyNum.endswith material_file ".csv") material_file
  = Ok materials →
  imread C image_path = Ok image →
  p_processing_reduction_factor params ≠ 0 →
  resize_image C image
    (p_stl_output_size params / p_processing_reduction_factor params)
    (p_stl_output_size params / p_processing_reduction_factor params)
  = Ok resized →
  hex_to_rgb C (p_background_color params) = Ok rgb →
  run_init_threads C resized (mul255_2 (div255_2 (m_colors materials)))
    (m_TDs materials) rgb (p_max_layers params) (p_layer_height params)
    (p_background_height params) (p_num_init_rounds params)
    (p_num_init_cluster_layers params) = Ok init →
  PerceptionLoss C (select_device C) = Ok perception →
  FilamentOptimizer C
    {| ci_args := namespace_of params;
       ci_target := div255_3 (tensor_of_image resized);
       ci_init := init;
       ci_material_colors := div255_2 (m_colors materials);
       ci_material_TDs := m_TDs materials;
       ci_background := div255_1 rgb;
       ci_device := select_device C;
       ci_perception_loss_module := perception |} = Ok opt →
  snd (prepare C job_id image_path material_file params s)
  = Ok (materials, opt).
Proof.
  intros Hjob He1 He2 He3 Hmat Him Hz Hre Hbg Hinit Hperc Hopt.
  unfold prepare, update_job, get_job, bind, call, ret, emit, PyNum.floordiv.
  rewrite Hjob, He1, Hmat, Him. apply Z.eqb_neq in Hz. rewrite Hz.
  by rewrite Hre, Hbg, He2, Hinit, Hperc, He3, Hopt.
Qed.

(** A successful [prepare] prints nothing and keeps the job. *)
Lemma prepare_kept (job_id image_path material_file : string) (params : Params)
    (s s' : Server) (materials : Materials) (opt : Optimizer C) :
  prepare C job_id image_path material_file params s = (s', Ok (materials, opt)) →
  job_kept job_id s s' ∧ is_Some (active_jobs s' !! job_id)
  ∧ printed s' = printed s.
Proof.
  intros H. apply prepare_inv in H
    as (job & ? & ? & ? & ? & ? & Hjob & _ & _ & _ & _ & _ & _ & _ & _ & ->).
  simpl. rewrite lookup_insert_eq. repeat split; [| by eexists].
  apply (job_kept_trans _ _ (with_jobs (insert job_id (set_status "running" job)) s)).
  - by apply (job_kept_insert job_id s job (set_status "running")).
  - intros j Hj. by exists j.
Qed.

(** The [except] block on a job of the registry. *)
Lemma except_block_records (job_id msg : string) (s : Server) (job : Job) :
  active_jobs s !! job_id = Some job →
  emit_fault C (job_failed job_id msg) = None →
  ∃ s',
    except_block C job_id msg s = (s', Ok tt)
    ∧ active_jobs s' !! job_id = Some (set_error msg (set_status "failed" job))
    ∧ emitted s' = (emitted s ++ [job_failed job_id msg])%list
    ∧ printed s'
      = (printed s ++ [("Error in job " ++ job_id ++ ": " ++ msg)%string])%list.
Proof.
  intros Hjob Hemit.
  unfold except_block, update_job, get_job, bind, print, emit. simpl.
  rewrite Hjob. simpl. rewrite lookup_insert_eq. simpl. rewrite Hemit.
  eexists. split; [reflexivity |]. simpl. by rewrite lookup_insert_eq.
Qed.

(** An exception that leaves the loop reaches the [except] block: the
    outputs are not written. *)
Lemma run_aborted (job_id image_path material_file : string) (params : Params)
    (sch : Schedule) (s s1 : Server) (materials : Materials)
    (opt : Optimizer C) (t : Thread C) (msg : string) :
  prepare C job_id image_path material_file params s = (s1, Ok (materials, opt)) →
  loop C job_id (p_iterations params) sch (Z.to_nat (p_iterations params)) 0
    {| t_server := s1; t_optimizer := opt; t_callback := new_callback job_id |}
  = (t, Raise msg) →
  run_autoforge_optimization C job_id image_path material_file params sch s
  = except_block C job_id msg (t_server t).
Proof.
  intros Hp Hl. unfold run_autoforge_optimization, try_except, try_block, bind.
  by rewrite Hp, Hl.
Qed.

(** The loop stopped in iteration [i], after [i] iterations that
    returned normally. *)
Lemma loop_aborted_at (job_id : string) (iterations : Z) (sch : Schedule)
    (i : nat) (t ti t' : Thread C) (msg : string) :
  Z.of_nat i < iterations →
  loop C job_id iterations sch i 0 t = (ti, Ok tt) →
  loop_body C job_id iterations sch i ti = (t', Raise msg) →
  loop C job_id iterations sch (Z.to_nat iterations) 0 t = (t', Raise msg).
Proof.
  intros Hi Hl Hb.
  replace (Z.to_nat iterations) with (i + S (Z.to_nat iterations - S i))%nat
    by lia.
  rewrite loop_app, Hl. simpl. by rewrite Hb.
Qed.

(** *** Reading a normal return backwards *)

Lemma bind_ok {A B} (m : M A) (k : A → M B) (s s' : Server) (b : B) :
  bind m k s = (s', Ok b) →
  ∃ a s1, m s = (s1, Ok a) ∧ k a s1 = (s', Ok b).
Proof.
  unfold bind. destruct (m s) as [s1 [a|msg]]; [| done].
  intros H. by exists a, s1.
Qed.

Lemma call_ok {A} (r : result A) (s s' : Server) (a : A) :
  call r s = (s', Ok a) → s' = s ∧ r = Ok a.
Proof. unfold call. by intros [= <- ->]. Qed.

Lemma emit_ok (e : Event) (s s' : Server) (u : unit) :
  emit C e s = (s', Ok u) → s' = with_emitted e s.
Proof. unfold emit. destruct (emit_fault C e); [done |]. by intros [= <-]. Qed.

Lemma update_job_ok (job_id : string) (f : Job → Job) (s s' : Server) (u : unit) :
  update_job job_id f s = (s', Ok u) →
  ∃ j, active_jobs s !! job_id = Some j
       ∧ s' = with_jobs (insert job_id (f j)) s.
Proof.
  unfold update_job, get_job, bind.
  destruct (active_jobs s !! job_id) as [j|]; [| done].
  intros [= <-]. by exists j.
Qed.

(** A guarded computation that leaves the shared state alone, with a
    handler that only prints, leaves the registry and the events alone. *)
Lemma try_print_ok (m : M unit) (line : string → string) (s s' : Server)
    (r : result unit) :
  (∀ s0 s1 x, m s0 = (s1, x) → s1 = s0) →
  try_except m (fun e => print (line e)) s = (s', r) →
  r = Ok tt ∧ active_jobs s' = active_jobs s ∧ emitted s' = emitted s.
Proof.
  intros Hm. unfold try_except, print.
  destruct (m s) as [s1 [[]|msg]] eqn:E; apply Hm in E as ->; by intros [= <- <-].
Qed.

(** What a [finish] that returns has done to the registry and to the
    trace of events. *)
Lemma finish_inv (job_id : string) (params : Params)
    (materials : Materials) (opt : Optimizer C) (s s' : Server) :
  finish C job_id params materials opt s = (s', Ok tt) →
  let outputs :=
    {| o_discretized_image := "discretized.png";
       o_stl_file := "model.stl";
       o_swap_instructions := "swap_instructions.txt";
       o_project_file :=
         if project_file_exists C
              ((OUTPUT_FOLDER C ++ "/" ++ job_id) ++ "/project.json")
         then Some "project.json" else None |} in
  ∃ job,
    active_jobs s !! job_id = Some job
    ∧ active_jobs s'
      = <[job_id := set_outputs outputs
                      (set_progress 100 (set_status "completed" job))]>
          (active_jobs s)
    ∧ emitted s'
      = (emitted s
         ++ [status job_id "Generating outputs...";
             status job_id "Generating STL file...";
             job_completed job_id outputs])%list.
Proof.
  unfold finish. intros H.
  apply bind_ok in H as (? & s1 & H1 & H). apply emit_ok in H1 as ->.
  do 4 (apply bind_ok in H as (? & ? & H1 & H); apply call_ok in H1 as [-> _]).
  apply bind_ok in H as (? & s2 & H1 & H). apply emit_ok in H1 as ->.
  do 4 (apply bind_ok in H as (? & ? & H1 & H); apply call_ok in H1 as [-> _]).
  apply bind_ok in H as (? & s3 & H1 & H).
  apply try_print_ok in H1 as (_ & Hjobs & Hev).
  2:{ intros s0 s1 r. unfold bind, call.
      destruct (get_best_discrete_solution C opt); by intros [= <-]. }
  apply bind_ok in H as (? & s4 & H1 & H).
  apply update_job_ok in H1 as (job & Hjob & ->).
  apply bind_ok in H as (? & s5 & H1 & H).
  apply update_job_ok in H1 as (job5 & Hjob5 & ->).
  apply bind_ok in H as (? & s6 & H1 & H).
  apply update_job_ok in H1 as (job6 & Hjob6 & ->).
  simpl in Hjob5, Hjob6. rewrite lookup_insert_eq in Hjob5, Hjob6.
  injection Hjob5 as <-. injection Hjob6 as <-.
  apply bind_ok in H as (job7 & s7 & H1 & H).
  unfold get_job in H1. simpl in H1. rewrite lookup_insert_eq in H1.
  injection H1 as <- <-. simpl in H. apply emit_ok in H as ->.
  rewrite Hjobs in Hjob. simpl in Hjob.
  exists job. split; [exact Hjob |]. simpl. rewrite Hjobs, Hev. simpl.
  split; [by rewrite !insert_insert_eq | by rewrite <- !app_assoc].
Qed.

(** An [except] block that returns has recorded the job as failed. *)
Lemma except_block_failed (job_id msg : string) (s s' : Server) :
  except_block C job_id msg s = (s', Ok tt) →
  ∃ job, active_jobs s' !! job_id = Some job
         ∧ j_status job = "failed" ∧ j_error job = Some msg.
Proof.
  unfold except_block, update_job, get_job, bind, emit, print.
  intros H. repeat case_match; simplify_eq; simpl in *.
  rewrite ?lookup_insert_eq in *. simplify_eq. simpl.
  eexists. by repeat split.
Qed.

(** A cancel request emits nothing. *)
Lemma emitted_interfere (sch : Schedule) (i : nat) (job_id : string) (s : Server) :
  emitted (interfere sch i job_id s) = emitted s.
Proof.
  unfold interfere, cancel_job. destruct (cancels sch i); [| done].
  by destruct (active_jobs s !! job_id).
Qed.

(** The optimization loop emits progress events and nothing else. *)
Lemma update_emits (cb cb' : ProgressCallback) (now : float)
    (iteration total : Z) (loss : float) (preview : option RawImage)
    (s s' : Server) (r : result unit) :
  update C cb now iteration total loss preview s = (cb', s', r) →
  ∃ events, emitted s' = (emitted s ++ events)%list
            ∧ Forall (fun e => ∃ data, e = progress data) events.
Proof.
  unfold update. destruct (throttled cb now iteration total).
  - intros [= _ <- _]. exists []. by rewrite app_nil_r.
  - destruct (send_progress C (cb_job_id cb) iteration total loss preview s)
      as [s1 [[]|msg]] eqn:E; intros [= _ <- _].
    + apply send_progress_emits in E as (percent & image64 & -> & _).
      eexists [_]. split; [done |]. repeat constructor. by eexists.
    + apply send_progress_raises in E as ->. exists []. by rewrite app_nil_r.
Qed.

Lemma loop_body_emits (job_id : string) (iterations : Z) (sch : Schedule)
    (i : nat) (t t' : Thread C) (r : result unit) :
  loop_body C job_id iterations sch i t = (t', r) →
  ∃ events, emitted (t_server t') = (emitted (t_server t) ++ events)%list
            ∧ Forall (fun e => ∃ data, e = progress data) events.
Proof.
  unfold loop_body.
  pose proof (emitted_interfere sch i job_id (t_server t)) as Hint.
  set (s0 := interfere sch i job_id (t_server t)) in *.
  assert (∃ events, emitted s0 = (emitted (t_server t) ++ events)%list
                    ∧ Forall (fun e => ∃ data, e = progress data) events)
    as Hnone by (exists []; by rewrite app_nil_r).
  destruct (active_jobs s0 !! job_id) as [job|]; [| by intros [= <- _]].
  destruct (default false (j_cancelled job)); [by intros [= <- _] |].
  destruct (step C (t_optimizer t)) as [opt [loss|msg]]; [| by intros [= <- _]].
  assert (∀ preview,
    (let '(cb, s1, r0) :=
       update C (t_callback t) (clock sch i) (Z.of_nat i + 1) iterations
         loss preview s0 in
     ({| t_server := s1; t_optimizer := opt; t_callback := cb |}, r0))
    = (t', r) →
    ∃ events, emitted (t_server t') = (emitted (t_server t) ++ events)%list
              ∧ Forall (fun e => ∃ data, e = progress data) events) as Hrep.
  { intros preview.
    destruct (update C (t_callback t) (clock sch i) (Z.of_nat i + 1)
                iterations loss preview s0) as [[cb s1] r0] eqn:E.
    intros [= <- _]. simpl. apply update_emits in E as (events & -> & Hev).
    exists events. by rewrite Hint. }
  destruct (wants_preview iterations i).
  - destruct (get_composite_image_disc C opt); [apply Hrep | by intros [= <- _]].
  - apply Hrep.
Qed.

Lemma loop_emits (job_id : string) (iterations : Z) (sch : Schedule)
    (n i : nat) (t t' : Thread C) (r : result unit) :
  loop C job_id iterations sch n i t = (t', r) →
  ∃ events, emitted (t_server t') = (emitted (t_server t) ++ events)%list
            ∧ Forall (fun e => ∃ data, e = progress data) events.
Proof.
  revert i t. induction n as [|n IH]; simpl; intros i t.
  - intros [= <- _]. exists []. by rewrite app_nil_r.
  - destruct (loop_body C job_id iterations sch i t) as [t1 [[]|msg]] eqn:E;
      apply loop_body_emits in E as (events1 & Hev1 & Hall1).
    + intros H. apply IH in H as (events2 & -> & Hall2).
      exists (events1 ++ events2)%list. rewrite Hev1, app_assoc.
      split; [done | by apply Forall_app].
    + intros [= <- _]. by exists events1.
Qed.

(** The poll of iteration [i] finds the flag set: the loop stops there,
    before the call of [step]. *)
Lemma loop_body_flag_seen (job_id : string) (iterations : Z) (sch : Schedule)
    (i : nat) (t : Thread C) :
  active_jobs (interfere sch i job_id (t_server t)) !! job_id ≫= j_cancelled
  = Some true →
  loop_body C job_id iterations sch i t
  = ({| t_server := interfere sch i job_id (t_server t);
        t_optimizer := t_optimizer t; t_callback := t_callback t |},
     Raise "Job cancelled by user").
Proof.
  unfold loop_body.
  destruct (active_jobs (interfere sch i job_id (t_server t)) !! job_id)
    as [job|]; simpl; [| done].
  by intros ->.
Qed.

(** The [except] block, however it ends, keeps the job with its
    ['outputs'] entry and emits at most the [job_failed] event. *)
Lemma except_block_keeps_outputs (job_id msg : string) (s s' : Server)
    (r : result unit) :
  except_block C job_id msg s = (s', r) →
  job_kept job_id s s'
  ∧ ∃ rest, emitted s' = (emitted s ++ rest)%list
            ∧ (rest = [] ∨ rest = [job_failed job_id msg]).
Proof.
  unfold except_block, update_job, get_job, bind, emit, print.
  intros H. repeat case_match; simplify_eq; simpl in *.
  all: rewrite ?lookup_insert_eq in *; simplify_eq.
  all: split;
    [ intros j Hj; simpl in *; rewrite ?lookup_insert_eq; simplify_eq; eauto
    | first [ exists []; simpl; rewrite app_nil_r; split; [done | by left]
            | eexists [_]; split; [reflexivity | by right] ] ].
Qed.

(** [prepare], however it ends, keeps the job with its ['outputs'] entry
    and emits no [job_completed] event. *)
Lemma prepare_keeps_outputs (job_id image_path material_file : string)
    (params : Params) (s s' : Server) (r : result (Materials * Optimizer C)) :
  prepare C job_id image_path material_file params s = (s', r) →
  job_kept job_id s s'.
Proof.
  unfold prepare, update_job, get_job, bind, call, ret, emit, PyNum.floordiv.
  intros H. repeat case_match; simplify_eq.
  all: intros j Hj; simpl in *; rewrite ?lookup_insert_eq; simplify_eq; eauto.
Qed.

(** When the job is registered, the socket accepts the three events and
    each call before the constructor succeeds, [prepare] ends as the
    constructor does. *)
Lemma prepare_reaches_constructor (job_id image_path material_file : string)
    (params : Params) (s : Server) (job : Job) (materials : Materials)
    (image resized : RawImage) (rgb : Tensor1) (init : InitData C)
    (perception : Perception C) :
  active_jobs s !! job_id = Some job →
  emit_fault C (job_started job_id) = None →
  emit_fault C (status job_id "Initializing height map...") = None →
  emit_fault C (status job_id "Starting optimization...") = None →
  load_materials C (PyNum.endswith material_file ".csv") material_file
  = Ok materials →
  imread C image_path = Ok image →
  p_processing_reduction_factor params ≠ 0 →
  resize_image C image
    (p_stl_output_size params / p_processing_reduction_factor params)
    (p_stl_output_size params / p_processing_reduction_factor params)
  = Ok resized →
  hex_to_rgb C (p_background_color params) = Ok rgb →
  run_init_threads C resized (mul255_2 (div255_2 (m_colors materials)))
    (m_TDs materials) rgb (p_max_layers params) (p_layer_height params)
    (p_background_height params) (p_num_init_rounds params)
    (p_num_init_cluster_layers params) = Ok init →
  PerceptionLoss C (select_device C) = Ok perception →
  snd (prepare C job_id image_path material_file params s)
  = rbind
      (FilamentOptimizer C
         {| ci_args := namespace_of params;
            ci_target := div255_3 (tensor_of_image resized);
            ci_init := init;
            ci_material_colors := div255_2 (m_colors materials);
            ci_material_TDs := m_TDs materials;
            ci_background := div255_1 rgb;
            ci_device := select_device C;
            ci_perception_loss_module := perception |})
      (fun opt => Ok (materials, opt)).
Proof.
  intros Hjob He1 He2 He3 Hmat Him Hz Hre Hbg Hinit Hperc.
  unfold prepare, update_job, get_job, bind, call, ret, emit, PyNum.floordiv.
  rewrite Hjob, He1, Hmat, Him. apply Z.eqb_neq in Hz. rewrite Hz.
  rewrite Hre, Hbg, He2, Hinit, Hperc, He3.
  by destruct (FilamentOptimizer C _).
Qed.

End Run.

(** ** Cancellation *)

(** C2.  For every iteration index [i] with [0 <= i < iterations]: when a
    cancel request has set the flag by the time the loop reaches the
    boundary of iteration [i], the loop does not run to its end; it raises
    having called [step] at most [i] times, so at most the iteration that
    was under way when the request came is completed.  The optimizer, and
    with it its best discrete solution, is exactly what the last completed
    call of [step] left.  When the iterations before [i] all returned
    normally, the loop stops at the poll of iteration [i] with
    ['Job cancelled by user'] and the optimizer of that moment. *)
Theorem cancel_halts_within_one_iteration (C : Collaborators) (job_id : string)
    (iterations : Z) (sch : Schedule) (i : nat) (t : Thread C) :
  Z.of_nat i < iterations →
  cancels sch i = true →
  is_Some (active_jobs (t_server t) !! job_id) →
  cb_job_id (t_callback t) = job_id →
  ∃ t' msg k,
    loop C job_id iterations sch (Z.to_nat iterations) 0 t = (t', Raise msg)
    ∧ (k ≤ i)%nat
    ∧ t_optimizer t' = steps C k (t_optimizer t)
    ∧ get_best_discrete_solution C (t_optimizer t')
      = get_best_discrete_solution C (steps C k (t_optimizer t))
    ∧ (∀ ti, loop C job_id iterations sch i 0 t = (ti, Ok tt) →
         k = i ∧ msg = "Job cancelled by user"
         ∧ t_optimizer t' = t_optimizer ti).
Proof.
  intros Hi Hc Hjob Hid.
  destruct (loop C job_id iterations sch i 0 t) as [ti [[]|msg]] eqn:Hl.
  - destruct (loop_kept C job_id iterations sch i 0 t ti _ Hid Hl) as [Hk _].
    destruct Hjob as [job Hjob]. destruct (Hk job Hjob) as (job' & Hjob' & _).
    pose proof (loop_body_cancelled C job_id iterations sch i ti Hc
                  (ex_intro _ job' Hjob')) as Hb.
    pose proof (loop_aborted_at C job_id iterations sch i t ti _ _ Hi Hl Hb) as Hrun.
    destruct (loop_steps C job_id iterations sch i 0 t ti _ Hl)
      as (k & Hle & Hopt & Hok).
    rewrite (Hok eq_refl) in Hopt.
    eexists _, _, i. split; [exact Hrun |]. simpl.
    split; [lia |]. split; [exact Hopt |]. split; [by rewrite Hopt |].
    by intros ti' [= <-].
  - destruct (loop_steps C job_id iterations sch i 0 t ti _ Hl)
      as (k & Hle & Hopt & _).
    exists ti, msg, k. split.
    { replace (Z.to_nat iterations) with (i + (Z.to_nat iterations - i))%nat by lia.
      by rewrite loop_app, Hl. }
    split; [exact Hle |]. split; [exact Hopt |]. split; [by rewrite Hopt |].
    by intros ti' [=].
Qed.

(** A run of three iterations whose second poll sees the flag: one call of
    [step] was made, and the optimizer is the one that call left. *)
Lemma cancel_halts_within_one_iteration_witness :
  ∃ t' msg k,
    loop (Stub.collaborators false Stub.no_fault) "job-1" 3 (Stub.cancel_before 1)
      (Z.to_nat 3) 0
      (Stub.thread Stub.no_fault Stub.uploaded)
    = (t', Raise msg)
    ∧ (k ≤ 1)%nat
    ∧ t_optimizer t' = steps (Stub.collaborators false Stub.no_fault) k 0%nat
    ∧ get_best_discrete_solution (Stub.collaborators false Stub.no_fault)
        (t_optimizer t')
      = get_best_discrete_solution (Stub.collaborators false Stub.no_fault)
          (steps (Stub.collaborators false Stub.no_fault) k 0%nat)
    ∧ (∀ ti,
         loop (Stub.collaborators false Stub.no_fault) "job-1" 3
           (Stub.cancel_before 1) 1 0
           (Stub.thread Stub.no_fault Stub.uploaded)
         = (ti, Ok tt) →
         k = 1%nat ∧ msg = "Job cancelled by user"
         ∧ t_optimizer t' = t_optimizer ti).
Proof.
  apply (cancel_halts_within_one_iteration
           (Stub.collaborators false Stub.no_fault) "job-1" 3
           (Stub.cancel_before 1) 1
           (Stub.thread Stub.no_fault Stub.uploaded)).
  - lia.
  - reflexivity.
  - vm_compute. eexists. reflexivity.
  - reflexivity.
Defined.

Example cancel_after_one_step :
  let '(t', r) :=
    loop (Stub.collaborators false Stub.no_fault) "job-1" 3 (Stub.cancel_before 1)
      3 0
      (Stub.thread Stub.no_fault Stub.uploaded) in
  r = Raise "Job cancelled by user" ∧ t_optimizer t' = 1%nat.
Proof. vm_compute. split; reflexivity. Qed.

(** C1, as the code has it.  When the poll at the boundary of an iteration
    [i], [0 <= i < iterations], finds the cancellation flag of the job set,
    after a successful preparation and [i] iterations that returned
    normally, the run stops at that poll: the loop raises
    ['Job cancelled by user'] without calling [step] again, the statements
    that write the outputs are skipped and no [job_completed] event is
    emitted.  The ['outputs'] entry of the job is what it was before the
    run, and that is what a status request returns: no result of the
    cancelled run can be retrieved through the job. *)
Theorem cancelled_run_writes_no_outputs (C : Collaborators)
    (job_id image_path material_file : string) (params : Params)
    (sch : Schedule) (s s1 : Server) (materials : Materials)
    (opt : Optimizer C) (i : nat) (ti : Thread C) :
  prepare C job_id image_path material_file params s = (s1, Ok (materials, opt)) →
  Z.of_nat i < p_iterations params →
  loop C job_id (p_iterations params) sch i 0
    {| t_server := s1; t_optimizer := opt; t_callback := new_callback job_id |}
  = (ti, Ok tt) →
  active_jobs (interfere sch i job_id (t_server ti)) !! job_id ≫= j_cancelled
  = Some true →
  ∃ t s' r job0 job' rest,
    loop C job_id (p_iterations params) sch (Z.to_nat (p_iterations params)) 0
      {| t_server := s1; t_optimizer := opt; t_callback := new_callback job_id |}
    = (t, Raise "Job cancelled by user")
    ∧ t_optimizer t = t_optimizer ti
    ∧ run_autoforge_optimization C job_id image_path material_file params sch s
      = (s', r)
    ∧ active_jobs s !! job_id = Some job0
    ∧ active_jobs s' !! job_id = Some job'
    ∧ j_outputs job' = j_outputs job0
    ∧ emitted s' = (emitted s ++ rest)%list
    ∧ (∀ outputs, job_completed job_id outputs ∉ rest)
    ∧ get_status job_id s'
      = respond 200
          (status_body job_id (j_status job') (j_progress job')
             (j_outputs job0) (j_error job')).
Proof.
  intros Hp Hi Hl Hflag.
  destruct (prepare_kept C _ _ _ _ _ _ _ _ Hp) as (Hk1 & _ & _).
  destruct (prepare_inv C _ _ _ _ _ _ _ _ Hp)
    as (job0 & ? & ? & ? & ? & ? & Hjob0 & _ & _ & _ & _ & _ & _ & _ & _ & Hs1).
  destruct (loop_emits C _ _ _ _ _ _ _ _ Hl) as (events & Hev2 & Hprogress).
  simpl in Hev2.
  destruct (Hk1 job0 Hjob0) as (job1 & Hjob1 & Hout1).
  destruct (loop_kept C job_id _ sch i 0
              {| t_server := s1; t_optimizer := opt;
                 t_callback := new_callback job_id |} ti _ eq_refl Hl)
    as [Hk2 _].
  destruct (Hk2 job1 Hjob1) as (job2 & Hjob2 & Hout2). simpl in Hjob2.
  destruct (job_kept_interfere job_id sch i (t_server ti) job2 Hjob2)
    as (job3 & Hjob3 & Hout3).
  pose proof (loop_body_flag_seen C job_id (p_iterations params) sch i ti Hflag)
    as Hb.
  pose proof (loop_aborted_at C job_id _ sch i _ ti _ _ Hi Hl Hb) as Hrun.
  pose proof (run_aborted C _ _ _ _ sch _ _ _ _ _ _ Hp Hrun) as Hexc.
  simpl in Hexc.
  destruct (except_block C job_id "Job cancelled by user"
              (interfere sch i job_id (t_server ti))) as [s' r] eqn:Hs'.
  destruct (except_block_keeps_outputs C _ _ _ _ _ Hs') as (Hk4 & rest & Hev & Hrest).
  destruct (Hk4 job3 Hjob3) as (job' & Hjob' & Hout').
  eexists _, s', r, job0, job',
    ([job_started job_id; status job_id "Initializing height map...";
      status job_id "Starting optimization..."] ++ events ++ rest)%list.
  split; [exact Hrun |]. split; [done |]. split; [by rewrite Hexc |].
  split; [done |]. split; [done |]. split; [congruence |].
  split; [| split].
  - rewrite Hev, emitted_interfere, Hev2, Hs1. simpl.
    by rewrite <- !app_assoc.
  - intros outputs Hin.
    apply elem_of_app in Hin as [Hin | Hin].
    { repeat (apply elem_of_cons in Hin as [[=] | Hin]).
      by apply elem_of_nil in Hin. }
    apply elem_of_app in Hin as [Hin | Hin].
    { rewrite Forall_forall in Hprogress.
      by destruct (Hprogress _ Hin) as [data [=]]. }
    destruct Hrest as [-> | ->].
    + by apply elem_of_nil in Hin.
    + by apply list_elem_of_singleton in Hin.
  - unfold get_status. rewrite Hjob'. by rewrite Hout', Hout3, Hout2, Hout1.
Qed.

Lemma cancelled_run_writes_no_outputs_witness :
  ∃ t s' r job0 job' rest,
    loop Stub.env "job-1" 3 (Stub.cancel_before 1) (Z.to_nat 3) 0
      (Stub.thread Stub.no_fault
         (fst (prepare Stub.env "job-1" "/tmp/uploads/job-1_photo.PNG"
                 "/tmp/uploads/job-1_filaments.csv"
                 (params_of (Stub.start_data 3 0 5)) Stub.uploaded)))
    = (t, Raise "Job cancelled by user")
    ∧ t_optimizer t
      = t_optimizer
          (fst (loop Stub.env "job-1" 3 (Stub.cancel_before 1) 1 0
                  (Stub.thread Stub.no_fault
                     (fst (prepare Stub.env "job-1"
                             "/tmp/uploads/job-1_photo.PNG"
                             "/tmp/uploads/job-1_filaments.csv"
                             (params_of (Stub.start_data 3 0 5))
                             Stub.uploaded)))))
    ∧ Stub.run Stub.env (params_of (Stub.start_data 3 0 5)) (Stub.cancel_before 1)
        Stub.uploaded
      = (s', r)
    ∧ active_jobs Stub.uploaded !! "job-1" = Some job0
    ∧ active_jobs s' !! "job-1" = Some job'
    ∧ j_outputs job' = j_outputs job0
    ∧ emitted s' = (emitted Stub.uploaded ++ rest)%list
    ∧ (∀ outputs, job_completed "job-1" outputs ∉ rest)
    ∧ get_status "job-1" s'
      = respond 200
          (status_body "job-1" (j_status job') (j_progress job')
             (j_outputs job0) (j_error job')).
Proof.
  apply (cancelled_run_writes_no_outputs Stub.env "job-1"
           "/tmp/uploads/job-1_photo.PNG" "/tmp/uploads/job-1_filaments.csv"
           (params_of (Stub.start_data 3 0 5)) (Stub.cancel_before 1)
           Stub.uploaded
           (fst (prepare Stub.env "job-1" "/tmp/uploads/job-1_photo.PNG"
                   "/tmp/uploads/job-1_filaments.csv"
                   (params_of (Stub.start_data 3 0 5)) Stub.uploaded))
           Stub.materials 0%nat 1
           (fst (loop Stub.env "job-1" 3 (Stub.cancel_before 1) 1 0
                   (Stub.thread Stub.no_fault
                      (fst (prepare Stub.env "job-1"
                              "/tmp/uploads/job-1_photo.PNG"
                              "/tmp/uploads/job-1_filaments.csv"
                              (params_of (Stub.start_data 3 0 5))
                              Stub.uploaded)))))).
  - vm_compute. reflexivity.
  - simpl. lia.
  - vm_compute. reflexivity.
  - vm_compute. reflexivity.
Defined.

(** C1, as stated, fails.  The job ["job-1"] is started with three
    iterations and a cancel request is served during the first: the poll
    of the second iteration stops the run, and the status request returns
    no outputs although one optimizer step was completed.  In this run the
    [except] block has the last word on the status: it is ['failed'], and
    the client is sent [job_failed]. *)
Lemma cancelled_run_is_a_failure_without_results :
  let started := fst (start_optimization (Stub.start_data 3 0 5) Stub.uploaded) in
  let s' :=
    fst (Stub.run Stub.env (params_of (Stub.start_data 3 0 5))
           (Stub.cancel_before 1) started) in
  get_status "job-1" s'
  = respond 200
      (status_body "job-1" "failed" 33 None (Some "Job cancelled by user"))
  ∧ last (emitted s') = Some (job_failed "job-1" "Job cancelled by user")
  ∧ t_optimizer
      (fst (loop Stub.env "job-1" 3 (Stub.cancel_before 1) 3 0
              (Stub.thread Stub.no_fault
                 (fst (prepare Stub.env "job-1" "/tmp/uploads/job-1_photo.PNG"
                         "/tmp/uploads/job-1_filaments.csv"
                         (params_of (Stub.start_data 3 0 5)) started)))))
    = 1%nat.
Proof. vm_compute. repeat split. Qed.

(** The condition on the poll matters: a cancel request served after the
    last poll of the flag does not stop the run, which writes its outputs
    and reports completion. *)
Example cancel_after_last_poll_completes :
  let started := fst (start_optimization (Stub.start_data 3 0 5) Stub.uploaded) in
  let s' :=
    fst (Stub.run Stub.env (params_of (Stub.start_data 3 0 5))
           (Stub.cancel_before 3) started) in
  (active_jobs s' !! "job-1" ≫= j_outputs)
  = Some {| o_discretized_image := "discretized.png";
            o_stl_file := "model.stl";
            o_swap_instructions := "swap_instructions.txt";
            o_project_file := Some "project.json" |}
  ∧ (active_jobs s' !! "job-1" ≫= j_cancelled) = Some true
  ∧ last (emitted s')
    = Some (job_completed "job-1"
              {| o_discretized_image := "discretized.png";
                 o_stl_file := "model.stl";
                 o_swap_instructions := "swap_instructions.txt";
                 o_project_file := Some "project.json" |}).
Proof. vm_compute. repeat split. Qed.

(** ** Exceptions in the progress callback *)

(** C3, as the code has it.  The call of [progress_callback.update] is not
    guarded: when it raises in iteration [i], after the poll and the call of
    [step] of that iteration, the loop is left at once with that exception,
    the iterations after [i] are not run, and the run ends in the [except]
    block, which records the job as ['failed'] with the message of the
    exception and writes no outputs. *)
Theorem callback_exception_aborts_run (C : Collaborators)
    (job_id image_path material_file : string) (params : Params)
    (sch : Schedule) (s s1 s2 : Server) (materials : Materials)
    (opt opt' : Optimizer C) (i : nat) (ti : Thread C) (job : Job)
    (loss : float) (preview : option RawImage) (cb' : ProgressCallback)
    (msg : string) :
  prepare C job_id image_path material_file params s = (s1, Ok (materials, opt)) →
  Z.of_nat i < p_iterations params →
  loop C job_id (p_iterations params) sch i 0
    {| t_server := s1; t_optimizer := opt; t_callback := new_callback job_id |}
  = (ti, Ok tt) →
  active_jobs (interfere sch i job_id (t_server ti)) !! job_id = Some job →
  default false (j_cancelled job) = false →
  step C (t_optimizer ti) = (opt', Ok loss) →
  (if wants_preview (p_iterations params) i
   then ∃ image, get_composite_image_disc C opt' = Ok image
                 ∧ preview = Some (image_of_tensor image)
   else preview = None) →
  update C (t_callback ti) (clock sch i) (Z.of_nat i + 1) (p_iterations params)
    loss preview (interfere sch i job_id (t_server ti))
  = (cb', s2, Raise msg) →
  emit_fault C (job_failed job_id msg) = None →
  ∃ s' job',
    loop C job_id (p_iterations params) sch (Z.to_nat (p_iterations params)) 0
      {| t_server := s1; t_optimizer := opt; t_callback := new_callback job_id |}
    = ({| t_server := s2; t_optimizer := opt'; t_callback := cb' |}, Raise msg)
    ∧ opt' = steps C (S i) opt
    ∧ run_autoforge_optimization C job_id image_path material_file params sch s
      = (s', Ok tt)
    ∧ active_jobs s' !! job_id = Some job'
    ∧ j_status job' = "failed"
    ∧ j_error job' = Some msg
    ∧ j_outputs job' = j_outputs job
    ∧ emitted s' = (emitted s2 ++ [job_failed job_id msg])%list.
Proof.
  intros Hp Hi Hl Hjob Hflag Hstep Hprev Hupd Hemit.
  assert (loop_body C job_id (p_iterations params) sch i ti
          = ({| t_server := s2; t_optimizer := opt'; t_callback := cb' |},
             Raise msg)) as Hb.
  { unfold loop_body. rewrite Hjob, Hflag, Hstep.
    destruct (wants_preview _ _).
    - destruct Hprev as (image & -> & ->). by rewrite Hupd.
    - subst preview. by rewrite Hupd. }
  pose proof (loop_aborted_at C job_id _ sch i _ ti _ _ Hi Hl Hb) as Hrun.
  pose proof (run_aborted C _ _ _ _ sch _ _ _ _ _ _ Hp Hrun) as Hexc.
  simpl in Hexc.
  destruct (loop_kept C job_id _ sch i 0
              {| t_server := s1; t_optimizer := opt;
                 t_callback := new_callback job_id |} ti _ eq_refl Hl)
    as [_ Hid].
  pose proof (job_kept_update C job_id _ _ _ _ _ _ _ _ _ _ Hid Hupd) as Hk.
  destruct (Hk job Hjob) as (job2 & Hjob2 & Hout2).
  destruct (except_block_records C job_id msg _ _ Hjob2 Hemit)
    as (s' & Hs' & Hjob' & Hev & _).
  destruct (loop_steps C job_id _ sch i 0 _ ti _ Hl) as (k & _ & Hopt & Hok).
  rewrite (Hok eq_refl) in Hopt. simpl in Hopt.
  exists s', (set_error msg (set_status "failed" job2)).
  split; [exact Hrun |]. split.
  { change (steps C (S i) opt) with (fst (step C (steps C i opt))).
    by rewrite <- Hopt, Hstep. }
  split; [by rewrite Hexc |]. repeat split; done.
Qed.

Lemma callback_exception_aborts_run_witness :
  ∃ s' job',
    loop Stub.flaky "job-1" 3 Stub.quiet (Z.to_nat 3) 0
      (Stub.thread Stub.progress_fault
         (fst (prepare Stub.flaky "job-1" "/tmp/uploads/job-1_photo.PNG"
                 "/tmp/uploads/job-1_filaments.csv"
                 (params_of (Stub.start_data 3 0 5)) Stub.uploaded)))
    = (Build_Thread Stub.flaky
         (fst (prepare Stub.flaky "job-1" "/tmp/uploads/job-1_photo.PNG"
                 "/tmp/uploads/job-1_filaments.csv"
                 (params_of (Stub.start_data 3 0 5)) Stub.uploaded))
         1%nat
         {| cb_job_id := "job-1"; last_update := 1001%float;
            update_interval := 0.5%float |},
       Raise "socket closed")
    ∧ 1%nat = steps Stub.flaky 1 0%nat
    ∧ Stub.run Stub.flaky (params_of (Stub.start_data 3 0 5)) Stub.quiet
        Stub.uploaded
      = (s', Ok tt)
    ∧ active_jobs s' !! "job-1" = Some job'
    ∧ j_status job' = "failed"
    ∧ j_error job' = Some "socket closed"
    ∧ j_outputs job' = None
    ∧ emitted s'
      = (emitted
           (fst (prepare Stub.flaky "job-1" "/tmp/uploads/job-1_photo.PNG"
                   "/tmp/uploads/job-1_filaments.csv"
                   (params_of (Stub.start_data 3 0 5)) Stub.uploaded))
         ++ [job_failed "job-1" "socket closed"])%list.
Proof.
  apply (callback_exception_aborts_run Stub.flaky "job-1"
           "/tmp/uploads/job-1_photo.PNG" "/tmp/uploads/job-1_filaments.csv"
           (params_of (Stub.start_data 3 0 5)) Stub.quiet Stub.uploaded
           (fst (prepare Stub.flaky "job-1" "/tmp/uploads/job-1_photo.PNG"
                   "/tmp/uploads/job-1_filaments.csv"
                   (params_of (Stub.start_data 3 0 5)) Stub.uploaded))
           (fst (prepare Stub.flaky "job-1" "/tmp/uploads/job-1_photo.PNG"
                   "/tmp/uploads/job-1_filaments.csv"
                   (params_of (Stub.start_data 3 0 5)) Stub.uploaded))
           Stub.materials 0%nat 1%nat 0%nat
           (Stub.thread Stub.progress_fault
              (fst (prepare Stub.flaky "job-1" "/tmp/uploads/job-1_photo.PNG"
                      "/tmp/uploads/job-1_filaments.csv"
                      (params_of (Stub.start_data 3 0 5)) Stub.uploaded)))
           {| j_id := "job-1"; j_status := "running"; j_progress := 0;
              j_image_path := "/tmp/uploads/job-1_photo.PNG";
              j_material_path := "/tmp/uploads/job-1_filaments.csv";
              j_created_at := 1000%float; j_params := None;
              j_cancelled := None; j_iteration := None; j_outputs := None;
              j_error := None |}
           1%float
           (Some (image_of_tensor [[[1 # 2; 1 # 2; 1 # 2]]]%Q))
           {| cb_job_id := "job-1"; last_update := 1001%float;
              update_interval := 0.5%float |}
           "socket closed").
  - vm_compute. reflexivity.
  - simpl. lia.
  - reflexivity.
  - vm_compute. reflexivity.
  - reflexivity.
  - vm_compute. reflexivity.
  - simpl. eexists. split; reflexivity.
  - vm_compute. reflexivity.
  - reflexivity.
Defined.

(** C3, as stated, fails.  With a socket that refuses progress events,
    the run of three iterations stops in the first: one call of [step], and
    the job is recorded as failed with the message of the exception that
    the callback raised. *)
Lemma callback_exception_stops_the_loop :
  let prepared :=
    fst (prepare Stub.flaky "job-1" "/tmp/uploads/job-1_photo.PNG"
           "/tmp/uploads/job-1_filaments.csv"
           (params_of (Stub.start_data 3 0 5)) Stub.uploaded) in
  let '(t', r) :=
    loop Stub.flaky "job-1" 3 Stub.quiet 3 0
      (Stub.thread Stub.progress_fault prepared) in
  r = Raise "socket closed"
  ∧ t_optimizer t' = 1%nat
  ∧ get_status "job-1"
      (fst (Stub.run Stub.flaky (params_of (Stub.start_data 3 0 5)) Stub.quiet
              Stub.uploaded))
    = respond 200 (status_body "job-1" "failed" 0 None (Some "socket closed")).
Proof. vm_compute. repeat split. Qed.

(** ** What the optimization core receives *)

Section Normalization.









End Normalization.



Example processing_size_default :
  PyNum.floordiv (p_stl_output_size (params_of (Stub.start_data 3 0 5)))
    (p_processing_reduction_factor (params_of (Stub.start_data 3 0 5)))
  = Ok 75.
Proof. reflexivity. Qed.

Example white_is_normalized_to_one :
  Forall2 (Forall2 Qeq) (div255_2 (m_colors Stub.materials))
    [[0; 0; 0]; [1; 1; 1]]%Q.
Proof. repeat constructor. Qed.

(** On the stand-in collaborators the optimizer receives these tensors:
    black and white as 0 and 255/255, and the two pixels of the image
    sample by sample. *)
Example core_inputs_of_the_stub :
  div255_2 (m_colors Stub.materials)
  = [[0 / 255; 0 / 255; 0 / 255]; [255 / 255; 255 / 255; 255 / 255]]%Q
  ∧ div255_3 (tensor_of_image Stub.image)
    = [[[128 / 255; 128 / 255; 128 / 255]; [0 / 255; 64 / 255; 255 / 255]]]%Q.
Proof. split; reflexivity. Qed.

(** ** The compute device *)

(** C5, as the code has it.  When CUDA is unavailable the device is the
    CPU, chosen by an expression that cannot raise.  The preparation then
    succeeds whenever the job is registered, the socket accepts the events
    and the calls it makes succeed, the perception loss module and the
    optimizer being constructed on the CPU; and whenever it succeeds the
    optimizer was constructed on the CPU.  Nothing is logged about the
    choice: up to the construction of the optimizer the run prints nothing
    and emits only [job_started] and its two fixed status messages. *)
Theorem cuda_unavailable_selects_cpu (C : Collaborators)
    (job_id image_path material_file : string) (params : Params) (s : Server) :
  cuda_is_available C = false →
  select_device C = Cpu
  ∧ (∀ job materials image resized rgb init perception opt,
       active_jobs s !! job_id = Some job →
       emit_fault C (job_started job_id) = None →
       emit_fault C (status job_id "Initializing height map...") = None →
       emit_fault C (status job_id "Starting optimization...") = None →
       load_materials C (PyNum.endswith material_file ".csv") material_file
       = Ok materials →
       imread C image_path = Ok image →
       p_processing_reduction_factor params ≠ 0 →
       resize_image C image
         (p_stl_output_size params / p_processing_reduction_factor params)
         (p_stl_output_size params / p_processing_reduction_factor params)
       = Ok resized →
       hex_to_rgb C (p_background_color params) = Ok rgb →
       run_init_threads C resized (mul255_2 (div255_2 (m_colors materials)))
         (m_TDs materials) rgb (p_max_layers params) (p_layer_height params)
         (p_background_height params) (p_num_init_rounds params)
         (p_num_init_cluster_layers params) = Ok init →
       PerceptionLoss C Cpu = Ok perception →
       FilamentOptimizer C
         {| ci_args := namespace_of params;
            ci_target := div255_3 (tensor_of_image resized);
            ci_init := init;
            ci_material_colors := div255_2 (m_colors materials);
            ci_material_TDs := m_TDs materials;
            ci_background := div255_1 rgb;
            ci_device := Cpu;
            ci_perception_loss_module := perception |} = Ok opt →
       snd (prepare C job_id image_path material_file params s)
       = Ok (materials, opt))
  ∧ (∀ s' materials opt,
       prepare C job_id image_path material_file params s
       = (s', Ok (materials, opt)) →
       (∃ inputs,
          FilamentOptimizer C inputs = Ok opt
          ∧ ci_device inputs = Cpu
          ∧ PerceptionLoss C Cpu = Ok (ci_perception_loss_module inputs))
       ∧ printed s' = printed s
       ∧ emitted s'
         = (emitted s
            ++ [job_started job_id;
                status job_id "Initializing height map...";
                status job_id "Starting optimization..."])%list).
Proof.
  intros Hcuda.
  assert (select_device C = Cpu) as Hdev by (unfold select_device; by rewrite Hcuda).
  split; [exact Hdev |]. split.
  - intros job materials image resized rgb init perception opt
      Hjob He1 He2 He3 Hmat Him Hz Hre Hbg Hinit Hperc Hopt.
    rewrite <- Hdev in Hperc, Hopt.
    by apply (prepare_ok C job_id image_path material_file params s job
                materials image resized rgb init perception opt).
  - intros s' materials opt H.
    apply prepare_inv in H
      as (job & image & resized & rgb & init & perception
          & _ & _ & _ & _ & _ & _ & _ & Hperc & Hopt & ->).
    rewrite Hdev in Hperc, Hopt. split.
    + eexists. split; [exact Hopt |]. by split.
    + simpl. split; [done |]. by rewrite <- !app_assoc.
Qed.

Lemma cuda_unavailable_selects_cpu_witness :
  select_device Stub.env = Cpu
  ∧ snd (prepare Stub.env "job-1" "/tmp/uploads/job-1_photo.PNG"
           "/tmp/uploads/job-1_filaments.csv"
           (params_of (Stub.start_data 3 0 5)) Stub.uploaded)
    = Ok (Stub.materials, 0%nat)
  ∧ printed
      (fst (prepare Stub.env "job-1" "/tmp/uploads/job-1_photo.PNG"
              "/tmp/uploads/job-1_filaments.csv"
              (params_of (Stub.start_data 3 0 5)) Stub.uploaded))
    = printed Stub.uploaded.
Proof.
  destruct (cuda_unavailable_selects_cpu Stub.env "job-1"
              "/tmp/uploads/job-1_photo.PNG" "/tmp/uploads/job-1_filaments.csv"
              (params_of (Stub.start_data 3 0 5)) Stub.uploaded eq_refl)
    as (Hdev & Hok & Hinv).
  split; [exact Hdev |]. split.
  - apply (Hok
             {| j_id := "job-1"; j_status := "uploaded"; j_progress := 0;
                j_image_path := "/tmp/uploads/job-1_photo.PNG";
                j_material_path := "/tmp/uploads/job-1_filaments.csv";
                j_created_at := 1000%float; j_params := None;
                j_cancelled := None; j_iteration := None; j_outputs := None;
                j_error := None |}
             Stub.materials Stub.image Stub.image [0; 0; 0]%Q tt Cpu 0%nat);
      try reflexivity. done.
  - apply (Hinv _ Stub.materials 0%nat). vm_compute. reflexivity.
Defined.

(** C5, as stated, fails.  A run without CUDA that completes: the job is
    ['completed'], nothing at all was printed, and the events sent are the
    start, the fixed status messages, the progress of the three iterations
    and the completion; none of them is a warning about the device. *)
Lemma cpu_fallback_logs_no_warning :
  let s' :=
    fst (Stub.run Stub.env (params_of (Stub.start_data 3 0 5)) Stub.quiet
           Stub.uploaded) in
  cuda_is_available Stub.env = false
  ∧ (j_status <$> active_jobs s' !! "job-1") = Some "completed"
  ∧ printed s' = []
  ∧ emitted s'
    = [job_started "job-1";
       status "job-1" "Initializing height map...";
       status "job-1" "Starting optimization...";
       progress {| pd_job_id := "job-1"; pd_iteration := 1;
                   pd_total_iterations := 3; pd_progress := 33;
                   pd_loss := 1; pd_preview := Some "data:image/jpeg;base64,AAAA" |};
       progress {| pd_job_id := "job-1"; pd_iteration := 2;
                   pd_total_iterations := 3; pd_progress := 66;
                   pd_loss := 0.5; pd_preview := None |};
       progress {| pd_job_id := "job-1"; pd_iteration := 3;
                   pd_total_iterations := 3; pd_progress := 100;
                   pd_loss := PrimFloat.div 1 3;
                   pd_preview := Some "data:image/jpeg;base64,AAAA" |};
       status "job-1" "Generating outputs...";
       status "job-1" "Generating STL file...";
       job_completed "job-1"
         {| o_discretized_image := "discretized.png"; o_stl_file := "model.stl";
            o_swap_instructions := "swap_instructions.txt";
            o_project_file := Some "project.json" |}].
Proof. vm_compute. repeat split. Qed.

(** ** Configuration parameters *)

(** C7.  [web_app.py] itself does not compare the two layer bounds: a
    start request with [min_layers > max_layers] for an uploaded job
    launches the thread with both values as sent.  With a constructor of
    the optimizer that validates the configuration as the spec's error
    taxonomy has it, the thread does not get to the optimization loop:
    the preparation never returns an optimizer, so no step is made; the
    run ends in the [except] block, which records the error, leaves the
    ['outputs'] entry of the job as it was and sends [job_failed].  When
    the calls before the constructor succeed, the error recorded is the
    [ConfigError]. *)
Theorem inverted_layer_bounds_are_rejected (C : Collaborators)
    (construct : CoreInputs (InitData C) (Perception C) → result (Optimizer C))
    (data : StartData) (s : Server) (job_id : string) (job : Job)
    (min_layers max_layers : Z) (sch : Schedule) (s0 : Server) (job0 : Job) :
  (∀ inputs,
     FilamentOptimizer C inputs = checked_FilamentOptimizer construct inputs) →
  startable data s job_id job →
  d_min_layers data = Some min_layers →
  d_max_layers data = Some max_layers →
  max_layers < min_layers →
  active_jobs s0 !! job_id = Some job0 →
  (∀ msg, emit_fault C (job_failed job_id msg) = None) →
  let launch := launch_of data job_id job in
  launched (fst (start_optimization data s)) = (launched s ++ [launch])%list
  ∧ p_min_layers (l_params launch) = min_layers
  ∧ p_max_layers (l_params launch) = max_layers
  ∧ (∀ s1 materials opt,
       prepare C job_id (l_image_path launch) (l_material_path launch)
         (l_params launch) s0
       ≠ (s1, Ok (materials, opt)))
  ∧ ∃ s' job' msg,
      run_autoforge_optimization C job_id (l_image_path launch)
        (l_material_path launch) (l_params launch) sch s0
      = (s', Ok tt)
      ∧ snd (prepare C job_id (l_image_path launch) (l_material_path launch)
               (l_params launch) s0)
        = Raise msg
      ∧ active_jobs s' !! job_id = Some job'
      ∧ j_error job' = Some msg
      ∧ j_outputs job' = j_outputs job0
      ∧ last (emitted s') = Some (job_failed job_id msg)
      ∧ (∀ materials image resized rgb init perception,
           emit_fault C (job_started job_id) = None →
           emit_fault C (status job_id "Initializing height map...") = None →
           emit_fault C (status job_id "Starting optimization...") = None →
           load_materials C (PyNum.endswith (l_material_path launch) ".csv")
             (l_material_path launch)
           = Ok materials →
           imread C (l_image_path launch) = Ok image →
           p_processing_reduction_factor (l_params launch) ≠ 0 →
           resize_image C image
             (p_stl_output_size (l_params launch)
              / p_processing_reduction_factor (l_params launch))
             (p_stl_output_size (l_params launch)
              / p_processing_reduction_factor (l_params launch))
           = Ok resized →
           hex_to_rgb C (p_background_color (l_params launch)) = Ok rgb →
           run_init_threads C resized (mul255_2 (div255_2 (m_colors materials)))
             (m_TDs materials) rgb (p_max_layers (l_params launch))
             (p_layer_height (l_params launch))
             (p_background_height (l_params launch))
             (p_num_init_rounds (l_params launch))
             (p_num_init_cluster_layers (l_params launch)) = Ok init →
           PerceptionLoss C (select_device C) = Ok perception →
           msg = ConfigError).
Proof.
  intros Hcheck Hst Hmin Hmax Hlt Hjob0 Hemit launch.
  assert (∀ inputs : CoreInputs (InitData C) (Perception C),
            ci_args inputs = namespace_of (l_params launch) →
            FilamentOptimizer C inputs = Raise ConfigError) as Hreject.
  { intros inputs Hargs. rewrite Hcheck. unfold checked_FilamentOptimizer.
    rewrite Hargs. simpl. rewrite Hmin, Hmax. simpl.
    apply Z.ltb_lt in Hlt. by rewrite Hlt. }
  assert (∀ s1 materials opt,
            prepare C job_id (l_image_path launch) (l_material_path launch)
              (l_params launch) s0
            ≠ (s1, Ok (materials, opt))) as Hnever.
  { intros s1 materials opt H. apply prepare_inv in H
      as (? & ? & ? & ? & ? & ? & _ & _ & _ & _ & _ & _ & _ & _ & Hopt & _).
    by rewrite Hreject in Hopt. }
  split; [by rewrite (start_accepted data s job_id job Hst) |].
  split; [simpl; by rewrite Hmin |]. split; [simpl; by rewrite Hmax |].
  split; [exact Hnever |].
  destruct (prepare C job_id (l_image_path launch) (l_material_path launch)
              (l_params launch) s0) as [s1 [[materials opt]|msg]] eqn:Hp.
  { by destruct (Hnever s1 materials opt). }
  destruct (prepare_keeps_outputs C _ _ _ _ _ _ _ Hp job0 Hjob0)
    as (job1 & Hjob1 & Hout1).
  destruct (except_block_records C job_id msg s1 job1 Hjob1 (Hemit msg))
    as (s' & Hs' & Hjob' & Hev & _).
  exists s', (set_error msg (set_status "failed" job1)), msg.
  split.
  { unfold run_autoforge_optimization, try_except, try_block, bind.
    by rewrite Hp. }
  split; [done |]. split; [exact Hjob' |]. split; [done |].
  split; [exact Hout1 |]. split; [by rewrite Hev, last_snoc |].
  intros mats image resized rgb init perception
    He1 He2 He3 Hmat Him Hz Hre Hbg Hinit Hperc.
  pose proof (prepare_reaches_constructor C job_id (l_image_path launch)
                (l_material_path launch) (l_params launch) s0 job0 mats image
                resized rgb init perception Hjob0 He1 He2 He3 Hmat Him Hz Hre
                Hbg Hinit Hperc) as Hend.
  rewrite Hp, Hreject in Hend; [| done]. simpl in Hend. congruence.
Qed.

Lemma inverted_layer_bounds_are_rejected_witness :
  let data := Stub.start_data 3 10 5 in
  let started := fst (start_optimization data Stub.uploaded) in
  length (launched started) = 1%nat
  ∧ ∃ s' job' msg,
      Stub.run Checked.collaborators (params_of data) Stub.quiet started
      = (s', Ok tt)
      ∧ active_jobs s' !! "job-1" = Some job'
      ∧ j_error job' = Some msg
      ∧ j_outputs job' = None
      ∧ last (emitted s') = Some (job_failed "job-1" msg)
      ∧ msg = ConfigError.
Proof.
  intros data started.
  assert (startable data Stub.uploaded "job-1"
            {| j_id := "job-1"; j_status := "uploaded"; j_progress := 0;
               j_image_path := "/tmp/uploads/job-1_photo.PNG";
               j_material_path := "/tmp/uploads/job-1_filaments.csv";
               j_created_at := 1000%float; j_params := None;
               j_cancelled := None; j_iteration := None; j_outputs := None;
               j_error := None |}) as Hst.
  { repeat split; try done. }
  assert (active_jobs started !! "job-1"
          = Some {| j_id := "job-1"; j_status := "uploaded"; j_progress := 0;
                    j_image_path := "/tmp/uploads/job-1_photo.PNG";
                    j_material_path := "/tmp/uploads/job-1_filaments.csv";
                    j_created_at := 1000%float;
                    j_params := Some (params_of data);
                    j_cancelled := None; j_iteration := None;
                    j_outputs := None; j_error := None |}) as Hjob0.
  { vm_compute. reflexivity. }
  assert (5 < 10) as Hlt by lia.
  destruct (inverted_layer_bounds_are_rejected Checked.collaborators
              (fun _ => Ok 0%nat) data Stub.uploaded "job-1" _ 10 5 Stub.quiet
              started _ (fun _ => eq_refl) Hst eq_refl eq_refl Hlt Hjob0
              (fun _ => eq_refl))
    as (Hlaunch & _ & _ & _ & s' & job' & msg & Hrun & _ & Hjob' & Herr & Hout
        & Hlast & Hmsg).
  split; [unfold started; by rewrite Hlaunch |].
  exists s', job', msg.
  split; [exact Hrun |]. split; [exact Hjob' |]. split; [exact Herr |].
  split; [exact Hout |]. split; [exact Hlast |].
  apply (Hmsg Stub.materials Stub.image Stub.image [0; 0; 0]%Q tt Cpu);
    try reflexivity.
  simpl. lia.
Defined.

(** The start request with [min_layers = 10] and [max_layers = 5], on the
    collaborators with the validating constructor: the request is answered
    200, the thread emits its first events and the initializer runs, then
    the constructor rejects the configuration; the job is left failed, with
    no step made and no outputs.  The same request with the bounds in order
    completes. *)
Example inverted_layer_bounds_run :
  let data := Stub.start_data 3 10 5 in
  let '(started, response) := start_optimization data Stub.uploaded in
  let s' :=
    fst (Stub.run Checked.collaborators (params_of data) Stub.quiet started) in
  response = respond 200 (job_body "job-1" "Optimization started")
  ∧ emitted s'
    = [job_started "job-1"; status "job-1" "Initializing height map...";
       status "job-1" "Starting optimization..."; job_failed "job-1" ConfigError]
  ∧ get_status "job-1" s'
    = respond 200 (status_body "job-1" "failed" 0 None (Some ConfigError)).
Proof. vm_compute. repeat split. Qed.

Example ordered_layer_bounds_run :
  let data := Stub.start_data 3 0 5 in
  let started := fst (start_optimization data Stub.uploaded) in
  let s' :=
    fst (Stub.run Checked.collaborators (params_of data) Stub.quiet started) in
  (j_status <$> active_jobs s' !! "job-1") = Some "completed".
Proof. vm_compute. reflexivity. Qed.

(** ** The temperature parameters

    [web_app.py] only forwards the three parameters of the temperature
    schedule; the schedule itself is computed inside the optimizer. *)

Lemma schedule_parameters_default (data : StartData) :
  d_init_tau data = None → d_final_tau data = None →
  d_warmup_fraction data = None →
  p_init_tau (params_of data) = 1.0%float
  ∧ p_final_tau (params_of data) = 0.01%float
  ∧ p_warmup_fraction (params_of data) = 1.0%float.
Proof. intros H1 H2 H3. simpl. by rewrite H1, H2, H3. Qed.

Lemma schedule_parameters_forwarded (params : Params) :
  p_init_tau (namespace_of params) = p_init_tau params
  ∧ p_final_tau (namespace_of params) = p_final_tau params
  ∧ p_warmup_fraction (namespace_of params) = p_warmup_fraction params
  ∧ p_iterations (namespace_of params) = p_iterations params.
Proof. done. Qed.

(** * Further properties of the handlers *)

(** ** File names, continued *)

Section FileNamesMore.

Import PyStr.

Lemma lower_ascii_dot (c : ascii) :
  Ascii.eqb (lower_ascii c) "." = Ascii.eqb c ".".
Proof. by destruct c as [[] [] [] [] [] [] [] []]. Qed.

Lemma lower_ascii_idem (c : ascii) : lower_ascii (lower_ascii c) = lower_ascii c.
Proof. by destruct c as [[] [] [] [] [] [] [] []]. Qed.

Lemma lower_idem (s : string) : lower (lower s) = lower s.
Proof. induction s as [|c s IH]; simpl; [done |]. by rewrite lower_ascii_idem, IH. Qed.

Lemma contains_lower (s : string) : contains "." (lower s) = contains "." s.
Proof.
  induction s as [|c s IH]; simpl; [done |]. by rewrite lower_ascii_dot, IH.
Qed.

Lemma rsplit_last_lower (s : string) :
  rsplit_last "." (lower s)
  = match rsplit_last "." s with
    | Some (a, b) => Some (lower a, lower b)
    | None => None
    end.
Proof.
  induction s as [|c s IH]; simpl; [done |]. rewrite IH, lower_ascii_dot.
  destruct (rsplit_last "." s) as [[a b]|]; [done |].
  by destruct (Ascii.eqb c ".").
Qed.

End FileNamesMore.

(** X1.  [allowed_file] looks only at the text after the last dot of the
    name: a name without a dot is refused, and a name [stem.ext], where
    [ext] has no dot, is allowed exactly when the lower-case form of [ext]
    is in the set.  The stem plays no part (it may be empty, or itself end
    in an allowed extension) and neither does the case of [ext]. *)
Theorem allowed_file_final_extension (exts : gset string) :
  (∀ name, PyStr.contains "." name = false → allowed_file name exts = false)
  ∧ (∀ stem ext,
       PyStr.contains "." ext = false →
       allowed_file (stem ++ String "." ext) exts
       = bool_decide (PyStr.lower ext ∈ exts)).
Proof.
  split.
  - intros name H. unfold allowed_file. by rewrite H.
  - intros stem ext H. unfold allowed_file, PyStr.rsplit1.
    rewrite contains_app.
    assert (PyStr.rsplit_last "." (stem ++ String "." ext) = Some (stem, ext))
      as -> by by apply rsplit_last_Some.
    done.
Qed.

Example allowed_file_hidden_name : allowed_file ".png" ALLOWED_EXTENSIONS = true.
Proof. reflexivity. Qed.

Example allowed_file_trailing_dot : allowed_file "photo." ALLOWED_EXTENSIONS = false.
Proof. reflexivity. Qed.

(** X2.  For the two extension sets of the program, the verdict of
    [allowed_file] does not depend on the case of the letters of the name:
    the name and its lower-case form are allowed together, as an image and
    as a materials file. *)
Theorem allowed_file_ignores_case (name : string) :
  allowed_file (PyStr.lower name) ALLOWED_EXTENSIONS
  = allowed_file name ALLOWED_EXTENSIONS
  ∧ allowed_file (PyStr.lower name) ALLOWED_MATERIAL_EXTENSIONS
    = allowed_file name ALLOWED_MATERIAL_EXTENSIONS.
Proof.
  unfold allowed_file, PyStr.rsplit1.
  rewrite contains_lower, rsplit_last_lower.
  destruct (PyStr.rsplit_last "." name) as [[a b]|]; [| done].
  simpl. by rewrite lower_idem.
Qed.

Example allowed_file_upper_case_names :
  allowed_file "PHOTO.JPEG" ALLOWED_EXTENSIONS = true
  ∧ allowed_file "photo.JPEG.exe" ALLOWED_EXTENSIONS = false
  ∧ allowed_file "Filaments.Json" ALLOWED_MATERIAL_EXTENSIONS = true
  ∧ allowed_file "Filaments.Json" ALLOWED_EXTENSIONS = false.
Proof. repeat split. Qed.

(** ** Uploads, continued *)

(** X3.  An upload with both files, non-empty names with allowed
    extensions, and two saves that succeed is answered 200 with the new job
    id.  The job is registered under that id with status ['uploaded'],
    progress 0 and the two paths of the saved files in the upload folder;
    no other entry of the registry changes, nothing is emitted, printed or
    launched, and a status request for the id reports the uploaded job. *)
Theorem upload_registers_job (C : Collaborators)
    (files : gmap string FileStorage) (uuid : string) (now : float) (s : Server)
    (image_file material_file : FileStorage) :
  files !! "image" = Some image_file →
  files !! "materials" = Some material_file →
  filename image_file ≠ "" →
  filename material_file ≠ "" →
  has_allowed_extension (filename image_file) ALLOWED_EXTENSIONS →
  has_allowed_extension (filename material_file) ALLOWED_MATERIAL_EXTENSIONS →
  save C (upload_path C uuid (secure_filename C (filename image_file)))
    (content image_file) = Ok tt →
  save C (upload_path C uuid (secure_filename C (filename material_file)))
    (content material_file) = Ok tt →
  let s' := fst (upload_files C files uuid now s) in
  snd (upload_files C files uuid now s)
  = respond 200 (job_body uuid "Files uploaded successfully")
  ∧ active_jobs s' !! uuid
    = Some {| j_id := uuid; j_status := "uploaded"; j_progress := 0;
              j_image_path :=
                upload_path C uuid (secure_filename C (filename image_file));
              j_material_path :=
                upload_path C uuid (secure_filename C (filename material_file));
              j_created_at := now; j_params := None; j_cancelled := None;
              j_iteration := None; j_outputs := None; j_error := None |}
  ∧ (∀ k, k ≠ uuid → active_jobs s' !! k = active_jobs s !! k)
  ∧ emitted s' = emitted s ∧ printed s' = printed s ∧ launched s' = launched s
  ∧ get_status uuid s' = respond 200 (status_body uuid "uploaded" 0 None None).
Proof.
  intros Hi Hm Hni Hnm Hai Ham Hsi Hsm s'. subst s'.
  apply allowed_file_spec in Hai, Ham.
  unfold upload_files. rewrite Hi, Hm, Hai, Ham.
  rewrite (bool_decide_eq_false_2 _ Hni), (bool_decide_eq_false_2 _ Hnm).
  simpl. rewrite Hsi, Hsm. simpl.
  split; [done |]. split; [by rewrite lookup_insert_eq |].
  split; [intros k Hk; by rewrite lookup_insert_ne |].
  repeat split. unfold get_status. simpl. by rewrite lookup_insert_eq.
Qed.

Lemma upload_registers_job_witness :
  get_status "job-1"
    (fst (upload_files Stub.env (Stub.files "photo.PNG" "filaments.csv")
            "job-1" 1000%float Stub.empty_server))
  = respond 200 (status_body "job-1" "uploaded" 0 None None).
Proof.
  apply (upload_registers_job Stub.env (Stub.files "photo.PNG" "filaments.csv")
           "job-1" 1000%float Stub.empty_server
           {| filename := "photo.PNG"; content := "<image>" |}
           {| filename := "filaments.csv"; content := "<materials>" |});
    try done.
  - by apply allowed_file_spec.
  - by apply allowed_file_spec.
Defined.

(** X4.  [upload_files] changes the server state only together with the
    answer 200: after any other answer the state is what it was.  In
    particular, when one of the two saves raises, after all checks have
    passed, the answer is 500 and no job is registered. *)
Theorem upload_changes_state_only_with_200 (C : Collaborators)
    (files : gmap string FileStorage) (uuid : string) (now : float) (s : Server) :
  (r_code (snd (upload_files C files uuid now s)) ≠ 200 →
   fst (upload_files C files uuid now s) = s)
  ∧ (∀ image_file material_file msg,
       files !! "image" = Some image_file →
       files !! "materials" = Some material_file →
       filename image_file ≠ "" →
       filename material_file ≠ "" →
       allowed_file (filename image_file) ALLOWED_EXTENSIONS = true →
       allowed_file (filename material_file) ALLOWED_MATERIAL_EXTENSIONS = true →
       save C (upload_path C uuid (secure_filename C (filename image_file)))
         (content image_file) = Raise msg
       ∨ (save C (upload_path C uuid (secure_filename C (filename image_file)))
            (content image_file) = Ok tt
          ∧ save C
              (upload_path C uuid (secure_filename C (filename material_file)))
              (content material_file) = Raise msg) →
       upload_files C files uuid now s
       = (s, respond 500 (unhandled_exception msg))).
Proof.
  split.
  - unfold upload_files. repeat case_match; simpl; done.
  - intros i m msg Hi Hm Hni Hnm Hai Ham Hsave.
    unfold upload_files. rewrite Hi, Hm, Hai, Ham.
    rewrite (bool_decide_eq_false_2 _ Hni), (bool_decide_eq_false_2 _ Hnm).
    simpl. destruct Hsave as [-> | [-> ->]]; done.
Qed.

(** X5.  A job that has just been uploaded can be started: after an
    accepted upload under a non-empty id, a start request naming the id is
    answered 200 and launches one thread, on the two paths stored by the
    upload and with the parameters of the request. *)
Theorem upload_then_start (C : Collaborators)
    (files : gmap string FileStorage) (uuid : string) (now : float) (s : Server)
    (data : StartData) :
  r_code (snd (upload_files C files uuid now s)) = 200 →
  uuid ≠ "" →
  d_job_id data = Some uuid →
  ∃ job,
    active_jobs (fst (upload_files C files uuid now s)) !! uuid = Some job
    ∧ start_optimization data (fst (upload_files C files uuid now s))
      = (with_launched (launch_of data uuid job)
           (with_jobs (insert uuid (set_params (params_of data) job))
              (fst (upload_files C files uuid now s))),
         respond 200 (job_body uuid "Optimization started"))
    ∧ l_image_path (launch_of data uuid job) = j_image_path job
    ∧ l_material_path (launch_of data uuid job) = j_material_path job
    ∧ l_params (launch_of data uuid job) = params_of data.
Proof.
  intros Hcode Hne Hid.
  assert (∃ job, active_jobs (fst (upload_files C files uuid now s)) !! uuid
                 = Some job ∧ j_status job = "uploaded") as (job & Hjob & Hst).
  { revert Hcode. unfold upload_files. repeat case_match; simpl; try done.
    intros _. eexists. by rewrite lookup_insert_eq. }
  exists job. split; [exact Hjob |]. split; [| done].
  by apply start_accepted.
Qed.

Lemma upload_then_start_witness :
  ∃ job,
    active_jobs Stub.uploaded !! "job-1" = Some job
    ∧ start_optimization (Stub.start_data 3 0 5) Stub.uploaded
      = (with_launched (launch_of (Stub.start_data 3 0 5) "job-1" job)
           (with_jobs
              (insert "job-1" (set_params (params_of (Stub.start_data 3 0 5)) job))
              Stub.uploaded),
         respond 200 (job_body "job-1" "Optimization started"))
    ∧ l_image_path (launch_of (Stub.start_data 3 0 5) "job-1" job)
      = j_image_path job
    ∧ l_material_path (launch_of (Stub.start_data 3 0 5) "job-1" job)
      = j_material_path job
    ∧ l_params (launch_of (Stub.start_data 3 0 5) "job-1" job)
      = params_of (Stub.start_data 3 0 5).
Proof.
  apply (upload_then_start Stub.env (Stub.files "photo.PNG" "filaments.csv")
           "job-1" 1000%float Stub.empty_server (Stub.start_data 3 0 5));
    done.
Defined.

(** ** Starting and cancelling, continued *)

(** X6.  The handler of [/api/start], on any JSON body, launches a thread
    only for an object whose ['job_id'] is a string naming a registered job
    whose status is ['uploaded'].  Every other body changes nothing:
    nothing is launched and no job is touched.  It is answered 500 when
    the handler raises (a body that is not an object, or an id that is a
    non-empty list or object) and 400 otherwise (no id, an id that is not a
    string, an empty or unknown id, a job in another status). *)
Theorem start_only_for_uploaded_jobs (body : StartBody) (s : Server) :
  (launched (fst (api_start body s)) ≠ launched s →
   ∃ job_id data job,
     body = body_object (id_string job_id) data
     ∧ startable (with_job_id (Some job_id) data) s job_id job)
  ∧ ((∀ job_id data job,
        body = body_object (id_string job_id) data →
        ¬ startable (with_job_id (Some job_id) data) s job_id job) →
     fst (api_start body s) = s
     ∧ r_code (snd (api_start body s))
       = (if start_raises body then 500 else 400)).
Proof.
  split.
  - destruct body as [type_name | [| job_id | truthy | type_name []] data];
      simpl; try done.
    intros H.
    destruct (start_launches_only_uploaded _ _ H) as (id & job & Hst).
    assert (id = job_id) as -> by (destruct Hst as [[=] _]; done).
    by exists job_id, data, job.
  - intros Hno.
    destruct body as [type_name | [| job_id | truthy | type_name []] data];
      simpl; try done.
    apply start_refused. intros id job Hst.
    assert (id = job_id) as -> by (destruct Hst as [[=] _]; done).
    by apply (Hno job_id data job).
Qed.

Example start_unknown_job :
  start_optimization
    {| d_job_id := Some "job-9"; d_iterations := None; d_learning_rate := None;
       d_layer_height := None; d_max_layers := None; d_min_layers := None;
       d_background_height := None; d_background_color := None;
       d_stl_output_size := None; d_processing_reduction_factor := None;
       d_nozzle_diameter := None; d_init_tau := None; d_final_tau := None;
       d_warmup_fraction := None; d_learning_rate_warmup_fraction := None;
       d_num_init_rounds := None; d_num_init_cluster_layers := None;
       d_early_stopping := None; d_perform_pruning := None;
       d_pruning_max_colors := None; d_pruning_max_swaps := None |}
    Stub.uploaded
  = (Stub.uploaded, respond 400 (error_body "Invalid job ID")).
Proof. reflexivity. Qed.

(** Bodies that are not of the expected type: a JSON list as the body, a
    list as the id, a number as the id. *)
Example start_ill_typed_bodies :
  api_start (body_not_object "list") Stub.uploaded
  = (Stub.uploaded,
     respond 500 (unhandled_exception "'list' object has no attribute 'get'"))
  ∧ api_start (body_object (id_container "list" false) (Stub.start_data 3 0 5))
      Stub.uploaded
    = (Stub.uploaded, respond 500 (unhandled_exception "unhashable type: 'list'"))
  ∧ api_start (body_object (id_scalar true) (Stub.start_data 3 0 5))
      Stub.uploaded
    = (Stub.uploaded, respond 400 (error_body "Invalid job ID"))
  ∧ r_code (snd (api_start (body_object (id_string "job-1") (Stub.start_data 3 0 5))
                   Stub.uploaded))
    = 200.
Proof. repeat split. Qed.

(** X7.  An accepted start request changes one thing in the registry: the
    ['params'] entry of its job, set to the parameters the thread is
    launched with.  The status, progress, paths, outputs and error of the
    job are as before, so a status request still reports ['uploaded']; no
    other job changes and nothing is emitted or printed. *)
Theorem start_stores_launch_params (data : StartData) (s : Server)
    (job_id : string) (job : Job) :
  startable data s job_id job →
  let s' := fst (start_optimization data s) in
  active_jobs s' !! job_id = Some (set_params (params_of data) job)
  ∧ (∀ k, k ≠ job_id → active_jobs s' !! k = active_jobs s !! k)
  ∧ (∃ l, launched s' = (launched s ++ [l])%list
          ∧ Some (l_params l) = j_params (set_params (params_of data) job)
          ∧ l_job_id l = job_id)
  ∧ emitted s' = emitted s ∧ printed s' = printed s
  ∧ get_status job_id s'
    = respond 200
        (status_body job_id "uploaded" (j_progress job) (j_outputs job)
           (j_error job)).
Proof.
  intros H s'. subst s'. rewrite (start_accepted data s job_id job H).
  destruct H as (_ & _ & _ & Hst). simpl.
  split; [by rewrite lookup_insert_eq |].
  split; [intros k Hk; by rewrite lookup_insert_ne |].
  split; [by eexists |]. split; [done |]. split; [done |].
  unfold get_status. simpl. rewrite lookup_insert_eq. simpl. by rewrite Hst.
Qed.

Lemma start_stores_launch_params_witness :
  get_status "job-1"
    (fst (start_optimization (Stub.start_data 3 0 5) Stub.uploaded))
  = respond 200 (status_body "job-1" "uploaded" 0 None None).
Proof.
  apply (start_stores_launch_params (Stub.start_data 3 0 5) Stub.uploaded "job-1"
           {| j_id := "job-1"; j_status := "uploaded"; j_progress := 0;
              j_image_path := "/tmp/uploads/job-1_photo.PNG";
              j_material_path := "/tmp/uploads/job-1_filaments.csv";
              j_created_at := 1000%float; j_params := None;
              j_cancelled := None; j_iteration := None; j_outputs := None;
              j_error := None |}).
  repeat split; done.
Defined.

(** X8.  [cancel_job] on an unknown id is answered 404 and changes nothing.
    On a registered job, whatever its status, it is answered 200, sets the
    flag and the status ['cancelled'] and keeps the rest: a status request
    then reports ['cancelled'] with the progress, outputs and error the job
    had.  No other job changes, and a second cancel changes nothing more. *)
Theorem cancel_job_effect (job_id : string) (s : Server) :
  (active_jobs s !! job_id = None →
   cancel_job job_id s = (s, respond 404 (error_body "Job not found")))
  ∧ (∀ job,
       active_jobs s !! job_id = Some job →
       snd (cancel_job job_id s) = respond 200 (message_body "Job cancelled")
       ∧ (j_cancelled <$> active_jobs (fst (cancel_job job_id s)) !! job_id)
         = Some (Some true)
       ∧ get_status job_id (fst (cancel_job job_id s))
         = respond 200
             (status_body job_id "cancelled" (j_progress job) (j_outputs job)
                (j_error job))
       ∧ (∀ k, k ≠ job_id →
            active_jobs (fst (cancel_job job_id s)) !! k = active_jobs s !! k)
       ∧ fst (cancel_job job_id (fst (cancel_job job_id s)))
         = fst (cancel_job job_id s)).
Proof.
  split.
  - intros H. unfold cancel_job. by rewrite H.
  - intros job H.
    assert (cancel_job job_id s
            = (with_jobs
                 (insert job_id (set_status "cancelled" (set_cancelled true job))) s,
               respond 200 (message_body "Job cancelled"))) as Hc.
    { unfold cancel_job. by rewrite H. }
    rewrite Hc. simpl.
    split; [done |]. split; [by rewrite lookup_insert_eq |].
    split; [unfold get_status; simpl; by rewrite lookup_insert_eq |].
    split; [intros k Hk; by rewrite lookup_insert_ne |].
    unfold cancel_job. simpl. rewrite lookup_insert_eq. simpl.
    unfold with_jobs. simpl. by rewrite insert_insert_eq.
Qed.

Example cancel_completed_job :
  get_status "job-2" (fst (cancel_job "job-2" Lab.two_jobs))
  = respond 200
      (status_body "job-2" "cancelled" 100
         (Some {| o_discretized_image := "discretized.png";
                  o_stl_file := "model.stl";
                  o_swap_instructions := "swap_instructions.txt";
                  o_project_file := None |})
         None).
Proof. vm_compute. reflexivity. Qed.

(** X9.  A job cancelled before it was started cannot be started: after
    [cancel_job], a start request naming the job is answered 400, launches
    nothing and leaves the state as the cancellation left it. *)
Theorem cancelled_job_cannot_be_started (data : StartData) (job_id : string)
    (s : Server) (job : Job) :
  active_jobs s !! job_id = Some job →
  d_job_id data = Some job_id →
  fst (start_optimization data (fst (cancel_job job_id s)))
  = fst (cancel_job job_id s)
  ∧ r_code (snd (start_optimization data (fst (cancel_job job_id s)))) = 400
  ∧ launched (fst (start_optimization data (fst (cancel_job job_id s))))
    = launched s.
Proof.
  intros Hjob Hid.
  destruct (start_refused data (fst (cancel_job job_id s))) as [Hs Hc].
  - intros id j (Hid' & _ & Hj & Hst). rewrite Hid in Hid'. injection Hid' as <-.
    revert Hj. unfold cancel_job. rewrite Hjob. simpl.
    rewrite lookup_insert_eq. intros [= <-]. done.
  - rewrite Hs. repeat split; [done |].
    unfold cancel_job. by rewrite Hjob.
Qed.

Lemma cancelled_job_cannot_be_started_witness :
  fst (start_optimization (Stub.start_data 3 0 5)
         (fst (cancel_job "job-1" Stub.uploaded)))
  = fst (cancel_job "job-1" Stub.uploaded)
  ∧ r_code (snd (start_optimization (Stub.start_data 3 0 5)
                   (fst (cancel_job "job-1" Stub.uploaded)))) = 400
  ∧ launched (fst (start_optimization (Stub.start_data 3 0 5)
                     (fst (cancel_job "job-1" Stub.uploaded))))
    = launched Stub.uploaded.
Proof.
  apply (cancelled_job_cannot_be_started (Stub.start_data 3 0 5) "job-1"
           Stub.uploaded
           {| j_id := "job-1"; j_status := "uploaded"; j_progress := 0;
              j_image_path := "/tmp/uploads/job-1_photo.PNG";
              j_material_path := "/tmp/uploads/job-1_filaments.csv";
              j_created_at := 1000%float; j_params := None;
              j_cancelled := None; j_iteration := None; j_outputs := None;
              j_error := None |}); done.
Defined.

(** * Further properties of the background thread *)

(** ** What a thread leaves alone *)

Section Frame.

Context (C : Collaborators) (job_id : string).

Lemma job_step_refl (j : Job) : job_step j j.
Proof. by repeat split. Qed.

Lemma job_step_trans (j1 j2 j3 : Job) :
  job_step j1 j2 → job_step j2 j3 → job_step j1 j3.
Proof.
  intros (A1 & A2 & A3 & A4 & A5 & A6) (B1 & B2 & B3 & B4 & B5 & B6).
  repeat split; try congruence. auto.
Qed.

Lemma frame_refl (s : Server) : frame job_id s s.
Proof.
  repeat split; try done. intros j H. exists j. split; [done | apply job_step_refl].
Qed.

Lemma frame_trans (s1 s2 s3 : Server) :
  frame job_id s1 s2 → frame job_id s2 s3 → frame job_id s1 s3.
Proof.
  intros (A1 & A2 & A3 & A4) (B1 & B2 & B3 & B4). repeat split.
  - congruence.
  - intros k Hk. rewrite B2, A2; done.
  - intros j Hj. destruct (A3 j Hj) as (j2 & Hj2 & S2).
    destruct (B3 j2 Hj2) as (j3 & Hj3 & S3).
    exists j3. split; [done |]. by eapply job_step_trans.
  - auto.
Qed.

Lemma frame_emitted (s : Server) (e : Event) : frame job_id s (with_emitted e s).
Proof. exact (frame_refl s). Qed.

Lemma frame_printed (s : Server) (line : string) :
  frame job_id s (with_printed line s).
Proof. exact (frame_refl s). Qed.

Lemma frame_insert (s : Server) (j j' : Job) :
  active_jobs s !! job_id = Some j →
  job_step j j' →
  frame job_id s (with_jobs (insert job_id j') s).
Proof.
  intros Hj Hstep. repeat split; simpl.
  - intros k Hk. by rewrite lookup_insert_ne.
  - intros j0 Hj0. exists j'. rewrite lookup_insert_eq. split; [done |]. congruence.
  - congruence.
Qed.

Lemma frame_cancel (s : Server) : frame job_id s (fst (cancel_job job_id s)).
Proof.
  unfold cancel_job. destruct (active_jobs s !! job_id) as [j|] eqn:E; simpl.
  - apply (frame_insert s j); [done |]. by repeat split.
  - apply frame_refl.
Qed.

Lemma frame_interfere (sch : Schedule) (i : nat) (s : Server) :
  frame job_id s (interfere sch i job_id s).
Proof.
  unfold interfere. destruct (cancels sch i); [apply frame_cancel | apply frame_refl].
Qed.

(** The computations of the monad, one by one. *)

Lemma preserves_ret {A} (a : A) : preserves job_id (ret a).
Proof. intros s s' r [= <- _]. apply frame_refl. Qed.

Lemma preserves_raise {A} (msg : string) : preserves job_id (@raise A msg).
Proof. intros s s' r [= <- _]. apply frame_refl. Qed.

Lemma preserves_call {A} (x : result A) : preserves job_id (call x).
Proof. intros s s' r [= <- _]. apply frame_refl. Qed.

Lemma preserves_emit (e : Event) : preserves job_id (emit C e).
Proof.
  intros s s' r. unfold emit. destruct (emit_fault C e); intros [= <- _];
    [apply frame_refl | apply frame_emitted].
Qed.

Lemma preserves_print (line : string) : preserves job_id (print line).
Proof. intros s s' r [= <- _]. apply frame_printed. Qed.

Lemma preserves_get_job : preserves job_id (get_job job_id).
Proof.
  intros s s' r. unfold get_job.
  destruct (active_jobs s !! job_id); intros [= <- _]; apply frame_refl.
Qed.

Lemma preserves_bind {A B} (m : M A) (k : A → M B) :
  preserves job_id m → (∀ a, preserves job_id (k a)) →
  preserves job_id (bind m k).
Proof.
  intros Hm Hk s s' r. unfold bind.
  destruct (m s) as [s1 [a|msg]] eqn:E.
  - intros H. eapply frame_trans; [by eapply Hm | by eapply Hk].
  - intros [= <- _]. by eapply Hm.
Qed.

Lemma preserves_try_except {A} (m : M A) (handler : string → M A) :
  preserves job_id m → (∀ msg, preserves job_id (handler msg)) →
  preserves job_id (try_except m handler).
Proof.
  intros Hm Hh s s' r. unfold try_except.
  destruct (m s) as [s1 [a|msg]] eqn:E.
  - intros [= <- _]. by eapply Hm.
  - intros H. eapply frame_trans; [by eapply Hm | by eapply Hh].
Qed.

Lemma preserves_update_job (f : Job → Job) :
  (∀ j, job_step j (f j)) → preserves job_id (update_job job_id f).
Proof.
  intros Hf s s' r. unfold update_job, bind, get_job.
  destruct (active_jobs s !! job_id) as [j|] eqn:E; intros [= <- _].
  - by apply (frame_insert s j).
  - apply frame_refl.
Qed.

Lemma preserves_send_progress (iteration total : Z) (loss : float)
    (preview : option RawImage) :
  preserves job_id (send_progress C job_id iteration total loss preview).
Proof.
  unfold send_progress.
  repeat (apply preserves_bind; [first [apply preserves_call | apply preserves_emit] |];
          intros ?).
  intros s s' r. destruct (active_jobs s !! job_id) as [j|] eqn:E; intros [= <- _].
  - apply (frame_insert s j); [done |]. by repeat split.
  - apply frame_refl.
Qed.

Lemma frame_update (cb cb' : ProgressCallback) (now : float)
    (iteration total : Z) (loss : float) (preview : option RawImage)
    (s s' : Server) (r : result unit) :
  cb_job_id cb = job_id →
  update C cb now iteration total loss preview s = (cb', s', r) →
  frame job_id s s'.
Proof.
  intros Hid. unfold update. destruct (throttled cb now iteration total).
  - intros [= _ <- _]. apply frame_refl.
  - rewrite Hid.
    destruct (send_progress C job_id iteration total loss preview s)
      as [s1 r1] eqn:E.
    intros [= _ <- _]. by eapply preserves_send_progress.
Qed.

Lemma frame_loop_body (iterations : Z) (sch : Schedule) (i : nat)
    (t t' : Thread C) (r : result unit) :
  cb_job_id (t_callback t) = job_id →
  loop_body C job_id iterations sch i t = (t', r) →
  frame job_id (t_server t) (t_server t').
Proof.
  intros Hid. unfold loop_body.
  pose proof (frame_interfere sch i (t_server t)) as Hint.
  set (s0 := interfere sch i job_id (t_server t)) in *.
  destruct (active_jobs s0 !! job_id) as [job|]; [| by intros [= <- _]].
  destruct (default false (j_cancelled job)); [by intros [= <- _] |].
  destruct (step C (t_optimizer t)) as [opt [loss|msg]]; [| by intros [= <- _]].
  assert (∀ preview,
    (let '(cb, s1, r0) :=
       update C (t_callback t) (clock sch i) (Z.of_nat i + 1) iterations
         loss preview s0 in
     ({| t_server := s1; t_optimizer := opt; t_callback := cb |}, r0))
    = (t', r) → frame job_id (t_server t) (t_server t')) as Hrep.
  { intros preview.
    destruct (update C (t_callback t) (clock sch i) (Z.of_nat i + 1)
                iterations loss preview s0) as [[cb s1] r0] eqn:E.
    intros [= <- _]. simpl. eapply frame_trans; [exact Hint |].
    by eapply frame_update. }
  destruct (wants_preview iterations i).
  - destruct (get_composite_image_disc C opt); [apply Hrep | by intros [= <- _]].
  - apply Hrep.
Qed.

Lemma frame_loop (iterations : Z) (sch : Schedule) (n i : nat)
    (t t' : Thread C) (r : result unit) :
  cb_job_id (t_callback t) = job_id →
  loop C job_id iterations sch n i t = (t', r) →
  frame job_id (t_server t) (t_server t').
Proof.
  revert i t. induction n as [|n IH]; simpl; intros i t Hid.
  - intros [= <- _]. apply frame_refl.
  - destruct (loop_body C job_id iterations sch i t) as [t1 [[]|msg]] eqn:E;
      pose proof (frame_loop_body iterations sch i t t1 _ Hid E) as Hf;
      destruct (loop_body_kept C job_id iterations sch i t t1 _ Hid E)
        as [_ Hid1].
    + intros H. eapply frame_trans; [exact Hf | by eapply IH].
    + by intros [= <- _].
Qed.

Lemma preserves_prepare (image_path material_file : string) (params : Params) :
  preserves job_id (prepare C job_id image_path material_file params).
Proof.
  unfold prepare. cbv zeta.
  repeat (apply preserves_bind;
          [first [ apply preserves_call | apply preserves_emit
                 | apply preserves_update_job; intros j; by repeat split ] |];
          intros ?).
  apply preserves_ret.
Qed.

Lemma preserves_finish (params : Params) (materials : Materials)
    (opt : Optimizer C) :
  preserves job_id (finish C job_id params materials opt).
Proof.
  unfold finish. cbv zeta.
  repeat (apply preserves_bind;
          [first [ apply preserves_call | apply preserves_emit
                 | apply preserves_get_job
                 | apply preserves_update_job; intros j; by repeat split
                 | apply preserves_try_except;
                   [ apply preserves_bind;
                     [apply preserves_call | intros ?; apply preserves_call]
                   | intros ?; apply preserves_print ] ] |];
          intros ?).
  destruct (j_outputs _); [apply preserves_emit | apply preserves_raise].
Qed.

Lemma preserves_except_block (msg : string) :
  preserves job_id (except_block C job_id msg).
Proof.
  unfold except_block.
  repeat (apply preserves_bind;
          [first [ apply preserves_print
                 | apply preserves_update_job; intros j; by repeat split ] |];
          intros ?).
  apply preserves_emit.
Qed.

Lemma preserves_try_block (image_path material_file : string) (params : Params)
    (sch : Schedule) :
  preserves job_id (try_block C job_id image_path material_file params sch).
Proof.
  unfold try_block. apply preserves_bind; [apply preserves_prepare |].
  intros [materials opt]. cbv zeta. apply preserves_bind.
  - intros s s' r.
    destruct (loop C job_id (p_iterations params) sch _ 0 _) as [t [[]|msg]] eqn:E;
      intros [= <- _];
      pose proof (frame_loop _ sch _ 0
                    {| t_server := s; t_optimizer := opt;
                       t_callback := new_callback job_id |} t _ eq_refl E) as Hf;
      simpl in Hf.
    + eapply frame_trans; [exact Hf | apply frame_interfere].
    + exact Hf.
  - intros opt'. apply preserves_finish.
Qed.

Lemma preserves_run (image_path material_file : string) (params : Params)
    (sch : Schedule) :
  preserves job_id
    (run_autoforge_optimization C job_id image_path material_file params sch).
Proof.
  apply preserves_try_except;
    [apply preserves_try_block | apply preserves_except_block].
Qed.

End Frame.

(** X14.  A thread touches only its own job.  Whatever
    [run_autoforge_optimization] does, returns or raises: it launches no
    thread; every other job of the registry is as it was; its own job is
    neither created nor removed, keeps its id, its two paths, its creation
    time and its parameters; and a cancellation flag that was set is still
    set at the end. *)
Theorem run_touches_only_its_job (C : Collaborators)
    (job_id image_path material_file : string) (params : Params)
    (sch : Schedule) (s : Server) :
  let s' :=
    fst (run_autoforge_optimization C job_id image_path material_file params
           sch s) in
  launched s' = launched s
  ∧ (∀ k, k ≠ job_id → active_jobs s' !! k = active_jobs s !! k)
  ∧ (∀ j, active_jobs s !! job_id = Some j →
       ∃ j', active_jobs s' !! job_id = Some j'
             ∧ j_id j' = j_id j
             ∧ j_image_path j' = j_image_path j
             ∧ j_material_path j' = j_material_path j
             ∧ j_created_at j' = j_created_at j
             ∧ j_params j' = j_params j
             ∧ (j_cancelled j = Some true → j_cancelled j' = Some true))
  ∧ (active_jobs s !! job_id = None → active_jobs s' !! job_id = None).
Proof.
  intros s'. subst s'.
  destruct (run_autoforge_optimization C job_id image_path material_file params
              sch s) as [s' r] eqn:E.
  exact (preserves_run C job_id image_path material_file params sch s s' r E).
Qed.

Lemma run_touches_only_its_job_witness :
  active_jobs
    (fst (Stub.run Stub.env (params_of (Stub.start_data 3 0 5)) Stub.quiet
            Lab.two_jobs)) !! "job-2"
  = active_jobs Lab.two_jobs !! "job-2".
Proof.
  by apply (run_touches_only_its_job Stub.env "job-1" _ _ _ Stub.quiet
              Lab.two_jobs).
Defined.

Section RunMore.

Context (C : Collaborators).

(** The poll of an iteration stops the loop when the flag is already set
    in the registry. *)
Lemma loop_body_flag_set (job_id : string) (iterations : Z) (sch : Schedule)
    (i : nat) (t : Thread C) (j : Job) :
  active_jobs (t_server t) !! job_id = Some j →
  j_cancelled j = Some true →
  loop_body C job_id iterations sch i t
  = ({| t_server := interfere sch i job_id (t_server t);
        t_optimizer := t_optimizer t; t_callback := t_callback t |},
     Raise "Job cancelled by user").
Proof.
  intros Hj Hflag. unfold loop_body.
  destruct (frame_interfere job_id sch i (t_server t)) as (_ & _ & Hown & _).
  destruct (Hown j Hj) as (j' & -> & (_ & _ & _ & _ & _ & Hsticky)).
  by rewrite (Hsticky Hflag).
Qed.

End RunMore.

(** X15.  A thread whose job is registered does not die: provided the
    socket accepts the [job_failed] event, every exception of the [try]
    block is caught and recorded, and [run_autoforge_optimization]
    returns.  The last thing the thread did was to report how it ended:
    either the outputs are recorded in the job and [job_completed] with
    these outputs is the last event it emitted, or an error message is
    recorded in the job and [job_failed] with this message is the last
    event it emitted. *)
Theorem run_returns_and_reports (C : Collaborators)
    (job_id image_path material_file : string) (params : Params)
    (sch : Schedule) (s : Server) :
  is_Some (active_jobs s !! job_id) →
  (∀ msg, emit_fault C (job_failed job_id msg) = None) →
  ∃ s' job,
    run_autoforge_optimization C job_id image_path material_file params sch s
    = (s', Ok tt)
    ∧ active_jobs s' !! job_id = Some job
    ∧ ((∃ outputs,
          j_outputs job = Some outputs
          ∧ last (emitted s') = Some (job_completed job_id outputs))
       ∨ (∃ msg,
            j_error job = Some msg
            ∧ last (emitted s') = Some (job_failed job_id msg))).
Proof.
  intros [j Hj] Hemit.
  unfold run_autoforge_optimization, try_except.
  destruct (try_block C job_id image_path material_file params sch s)
    as [s1 [[]|msg]] eqn:Htry.
  - revert Htry. unfold try_block, bind.
    destruct (prepare C job_id image_path material_file params s)
      as [s0 [[materials opt]|]]; [| done].
    destruct (loop C job_id (p_iterations params) sch _ 0 _) as [t [[]|]];
      [| done].
    intros H. apply finish_inv in H as (job0 & _ & Hjobs & Hev).
    eexists s1, _. split; [done |].
    split; [by rewrite Hjobs, lookup_insert_eq |].
    left. eexists. split; [reflexivity |]. by rewrite Hev, last_app.
  - destruct (preserves_try_block C job_id _ _ _ sch s s1 _ Htry)
      as (_ & _ & Hown & _).
    destruct (Hown j Hj) as (j1 & Hj1 & _).
    destruct (except_block_records C job_id msg s1 j1 Hj1 (Hemit msg))
      as (s' & Hs' & Hjob' & Hev & _).
    exists s', (set_error msg (set_status "failed" j1)).
    split; [done |]. split; [done |].
    right. exists msg. split; [done |]. by rewrite Hev, last_snoc.
Qed.

Lemma run_returns_and_reports_witness :
  ∃ s' job,
    Stub.run Lab.diverging (params_of (Stub.start_data 3 0 5)) Stub.quiet
      Stub.uploaded
    = (s', Ok tt)
    ∧ active_jobs s' !! "job-1" = Some job
    ∧ ((∃ outputs,
          j_outputs job = Some outputs
          ∧ last (emitted s') = Some (job_completed "job-1" outputs))
       ∨ (∃ msg,
            j_error job = Some msg
            ∧ last (emitted s') = Some (job_failed "job-1" msg))).
Proof.
  apply (run_returns_and_reports Lab.diverging "job-1"
           "/tmp/uploads/job-1_photo.PNG" "/tmp/uploads/job-1_filaments.csv"
           (params_of (Stub.start_data 3 0 5)) Stub.quiet Stub.uploaded).
  - vm_compute. by eexists.
  - done.
Defined.

(** X16.  A thread started for an id that is not in the registry dies with
    a [KeyError]: the first statement of the [try] block raises it, the
    [except] block prints its line and raises it again when it assigns the
    status.  Nothing is emitted, no [job_failed] in particular, and the
    registry is not changed. *)
Theorem run_on_unknown_job_raises (C : Collaborators)
    (job_id image_path material_file : string) (params : Params)
    (sch : Schedule) (s : Server) :
  active_jobs s !! job_id = None →
  run_autoforge_optimization C job_id image_path material_file params sch s
  = (with_printed ("Error in job " ++ job_id ++ ": " ++ key_error job_id) s,
     Raise (key_error job_id)).
Proof.
  intros H.
  unfold run_autoforge_optimization, try_except, try_block, prepare,
    except_block, update_job, get_job, bind, print.
  rewrite H. simpl. by rewrite H.
Qed.

Lemma run_on_unknown_job_raises_witness :
  Stub.run Stub.env (params_of (Stub.start_data 3 0 5)) Stub.quiet
    Stub.empty_server
  = (with_printed "Error in job job-1: 'job-1'" Stub.empty_server,
     Raise "'job-1'").
Proof.
  apply (run_on_unknown_job_raises Stub.env "job-1"
           "/tmp/uploads/job-1_photo.PNG" "/tmp/uploads/job-1_filaments.csv"
           (params_of (Stub.start_data 3 0 5)) Stub.quiet Stub.empty_server).
  reflexivity.
Defined.

(** ** The progress callback, continued *)

(** X10.  [ProgressCallback.update] writes only the ['progress'] and
    ['iteration'] entries of its own job.  Whatever the call does, it
    prints and launches nothing, leaves every other job alone, and keeps
    the status, the flag, the parameters, the outputs and the error of its
    job.  Either nothing was sent and the registry is unchanged, or exactly
    one progress event was emitted, for the iteration of the call, and the
    job, if registered, now holds that iteration and the percentage of the
    event. *)
Theorem update_writes_only_progress (C : Collaborators) (cb cb' : ProgressCallback)
    (now : float) (iteration total : Z) (loss : float)
    (preview : option RawImage) (s s' : Server) (r : result unit) :
  update C cb now iteration total loss preview s = (cb', s', r) →
  launched s' = launched s ∧ printed s' = printed s
  ∧ (∀ k, k ≠ cb_job_id cb → active_jobs s' !! k = active_jobs s !! k)
  ∧ (∀ j, active_jobs s !! cb_job_id cb = Some j →
       ∃ j', active_jobs s' !! cb_job_id cb = Some j'
             ∧ j_status j' = j_status j ∧ j_cancelled j' = j_cancelled j
             ∧ j_params j' = j_params j ∧ j_outputs j' = j_outputs j
             ∧ j_error j' = j_error j)
  ∧ ((emitted s' = emitted s ∧ active_jobs s' = active_jobs s)
     ∨ (∃ data,
          emitted s' = (emitted s ++ [progress data])%list
          ∧ pd_iteration data = iteration
          ∧ pd_total_iterations data = total
          ∧ r = Ok tt
          ∧ ∀ j, active_jobs s !! cb_job_id cb = Some j →
              active_jobs s' !! cb_job_id cb
              = Some (set_iteration iteration (set_progress (pd_progress data) j)))).
Proof.
  unfold update. destruct (throttled cb now iteration total).
  { intros [= _ <- _]. repeat split; try done.
    - intros j Hj. exists j. by repeat split.
    - by left. }
  destruct (send_progress C (cb_job_id cb) iteration total loss preview s)
    as [s1 r1] eqn:E.
  intros [= _ <- <-]. revert E.
  unfold send_progress, bind, call, ret, emit.
  destruct (PyNum.truediv iteration total) as [ratio|];
    [| intros [= <- _]; repeat split; try done;
       [intros j Hj; exists j; by repeat split | by left]].
  destruct (PyNum.py_int _) as [percent|];
    [| intros [= <- _]; repeat split; try done;
       [intros j Hj; exists j; by repeat split | by left]].
  destruct (encode_preview C preview) as [image64|];
    [| intros [= <- _]; repeat split; try done;
       [intros j Hj; exists j; by repeat split | by left]].
  destruct (emit_fault C _);
    [intros [= <- _]; repeat split; try done;
       [intros j Hj; exists j; by repeat split | by left] |].
  simpl. destruct (active_jobs s !! cb_job_id cb) as [j0|] eqn:Hj0;
    intros [= <- <-]; simpl.
  - split; [done |]. split; [done |].
    split; [intros k Hk; by rewrite lookup_insert_ne |].
    split.
    + intros j [= <-]. eexists. rewrite lookup_insert_eq. by repeat split.
    + right. eexists. split; [reflexivity |]. repeat split.
      intros j [= <-]. by rewrite lookup_insert_eq.
  - split; [done |]. split; [done |]. split; [done |].
    split; [intros j Hj; congruence |].
    right. eexists. split; [reflexivity |]. repeat split.
    intros j Hj. congruence.
Qed.

Lemma update_writes_only_progress_witness :
  ∃ s',
    update Stub.env (new_callback "job-1") 1001%float 1 3 1%float None
      Lab.two_jobs
    = ({| cb_job_id := "job-1"; last_update := 1001%float;
          update_interval := 0.5%float |}, s', Ok tt)
    ∧ active_jobs s' !! "job-2" = active_jobs Lab.two_jobs !! "job-2".
Proof.
  eexists. split; [vm_compute; reflexivity |].
  eapply (update_writes_only_progress Stub.env (new_callback "job-1") _
            1001%float 1 3 1%float None Lab.two_jobs _ (Ok tt)).
  - vm_compute. reflexivity.
  - done.
Defined.

(** ** The optimization loop, continued *)

(** X11.  The loop calls [optimizer.step()] once per iteration and never
    more: however it ends, the optimizer is the result of at most
    [iterations] calls, and of exactly [iterations] calls when the loop
    runs to its end.  For [iterations <= 0] the body is never entered: the
    loop returns at once with the optimizer, the callback and the shared
    state untouched. *)
Theorem loop_steps_once_per_iteration (C : Collaborators) (job_id : string)
    (iterations : Z) (sch : Schedule) (t t' : Thread C) (r : result unit) :
  loop C job_id iterations sch (Z.to_nat iterations) 0 t = (t', r) →
  (∃ k, (k ≤ Z.to_nat iterations)%nat
        ∧ t_optimizer t' = steps C k (t_optimizer t)
        ∧ (r = Ok tt → k = Z.to_nat iterations))
  ∧ (iterations <= 0 → t' = t ∧ r = Ok tt).
Proof.
  intros H. split.
  - by apply (loop_steps C job_id iterations sch _ 0 t t' r).
  - intros Hle. replace (Z.to_nat iterations) with 0%nat in H by lia.
    simpl in H. by injection H as <- <-.
Qed.

Lemma loop_steps_once_per_iteration_witness :
  (∃ k, (k ≤ Z.to_nat 3)%nat
        ∧ t_optimizer
            (fst (loop Stub.env "job-1" 3 Stub.quiet (Z.to_nat 3) 0
                    (Stub.thread Stub.no_fault Stub.uploaded)))
          = steps Stub.env k 0%nat
        ∧ (snd (loop Stub.env "job-1" 3 Stub.quiet (Z.to_nat 3) 0
                  (Stub.thread Stub.no_fault Stub.uploaded)) = Ok tt →
           k = Z.to_nat 3))
  ∧ (3 <= 0 →
     fst (loop Stub.env "job-1" 3 Stub.quiet (Z.to_nat 3) 0
            (Stub.thread Stub.no_fault Stub.uploaded))
     = Stub.thread Stub.no_fault Stub.uploaded
     ∧ snd (loop Stub.env "job-1" 3 Stub.quiet (Z.to_nat 3) 0
              (Stub.thread Stub.no_fault Stub.uploaded)) = Ok tt).
Proof.
  apply (loop_steps_once_per_iteration Stub.env "job-1" 3 Stub.quiet
           (Stub.thread Stub.no_fault Stub.uploaded)).
  by destruct (loop Stub.env "job-1" 3 Stub.quiet (Z.to_nat 3) 0
                 (Stub.thread Stub.no_fault Stub.uploaded)).
Defined.

(** X12.  An exception raised by [optimizer.step()] ends the run.  When the
    step of iteration [i] raises, after [i] iterations that returned
    normally, the loop is left at once with that exception and the
    optimizer as the failing step left it; no preview is asked for and no
    progress event is sent for that iteration; the [except] block then
    records the job as ['failed'] with the message of the exception and
    sends [job_failed], and no outputs are written. *)
Theorem step_exception_fails_the_job (C : Collaborators)
    (job_id image_path material_file : string) (params : Params)
    (sch : Schedule) (s s1 : Server) (materials : Materials)
    (opt opt' : Optimizer C) (i : nat) (ti : Thread C) (job : Job)
    (msg : string) :
  prepare C job_id image_path material_file params s = (s1, Ok (materials, opt)) →
  Z.of_nat i < p_iterations params →
  loop C job_id (p_iterations params) sch i 0
    {| t_server := s1; t_optimizer := opt; t_callback := new_callback job_id |}
  = (ti, Ok tt) →
  active_jobs (interfere sch i job_id (t_server ti)) !! job_id = Some job →
  default false (j_cancelled job) = false →
  step C (t_optimizer ti) = (opt', Raise msg) →
  emit_fault C (job_failed job_id msg) = None →
  ∃ s' job',
    loop C job_id (p_iterations params) sch (Z.to_nat (p_iterations params)) 0
      {| t_server := s1; t_optimizer := opt; t_callback := new_callback job_id |}
    = ({| t_server := interfere sch i job_id (t_server ti);
          t_optimizer := opt'; t_callback := t_callback ti |}, Raise msg)
    ∧ opt' = steps C (S i) opt
    ∧ run_autoforge_optimization C job_id image_path material_file params sch s
      = (s', Ok tt)
    ∧ active_jobs s' !! job_id = Some job'
    ∧ j_status job' = "failed"
    ∧ j_error job' = Some msg
    ∧ j_outputs job' = j_outputs job
    ∧ emitted s' = (emitted (t_server ti) ++ [job_failed job_id msg])%list.
Proof.
  intros Hp Hi Hl Hjob Hflag Hstep Hemit.
  assert (loop_body C job_id (p_iterations params) sch i ti
          = ({| t_server := interfere sch i job_id (t_server ti);
                t_optimizer := opt'; t_callback := t_callback ti |},
             Raise msg)) as Hb.
  { unfold loop_body. by rewrite Hjob, Hflag, Hstep. }
  pose proof (loop_aborted_at C job_id _ sch i _ ti _ _ Hi Hl Hb) as Hrun.
  pose proof (run_aborted C _ _ _ _ sch _ _ _ _ _ _ Hp Hrun) as Hexc.
  simpl in Hexc.
  destruct (except_block_records C job_id msg _ _ Hjob Hemit)
    as (s' & Hs' & Hjob' & Hev & _).
  destruct (loop_steps C job_id _ sch i 0 _ ti _ Hl) as (k & _ & Hopt & Hok).
  rewrite (Hok eq_refl) in Hopt. simpl in Hopt.
  exists s', (set_error msg (set_status "failed" job)).
  split; [exact Hrun |]. split.
  { change (steps C (S i) opt) with (fst (step C (steps C i opt))).
    by rewrite <- Hopt, Hstep. }
  split; [by rewrite Hexc |]. split; [done |]. split; [done |].
  split; [done |]. split; [done |].
  by rewrite Hev, emitted_interfere.
Qed.

Lemma step_exception_fails_the_job_witness :
  ∃ s' job',
    loop Lab.diverging "job-1" 3 Stub.quiet (Z.to_nat 3) 0
      (Lab.thread Lab.diverging 0%nat
         (fst (prepare Lab.diverging "job-1" "/tmp/uploads/job-1_photo.PNG"
                 "/tmp/uploads/job-1_filaments.csv"
                 (params_of (Stub.start_data 3 0 5)) Stub.uploaded)))
    = (Build_Thread Lab.diverging
         (interfere Stub.quiet 1 "job-1"
            (t_server
               (fst (loop Lab.diverging "job-1" 3 Stub.quiet 1 0
                       (Lab.thread Lab.diverging 0%nat
                          (fst (prepare Lab.diverging "job-1"
                                  "/tmp/uploads/job-1_photo.PNG"
                                  "/tmp/uploads/job-1_filaments.csv"
                                  (params_of (Stub.start_data 3 0 5))
                                  Stub.uploaded)))))))
         2%nat
         (t_callback
            (fst (loop Lab.diverging "job-1" 3 Stub.quiet 1 0
                    (Lab.thread Lab.diverging 0%nat
                       (fst (prepare Lab.diverging "job-1"
                               "/tmp/uploads/job-1_photo.PNG"
                               "/tmp/uploads/job-1_filaments.csv"
                               (params_of (Stub.start_data 3 0 5))
                               Stub.uploaded)))))),
       Raise "loss is NaN")
    ∧ 2%nat = steps Lab.diverging 2 0%nat
    ∧ Stub.run Lab.diverging (params_of (Stub.start_data 3 0 5)) Stub.quiet
        Stub.uploaded
      = (s', Ok tt)
    ∧ active_jobs s' !! "job-1" = Some job'
    ∧ j_status job' = "failed"
    ∧ j_error job' = Some "loss is NaN"
    ∧ j_outputs job' = None
    ∧ emitted s'
      = (emitted
           (t_server
              (fst (loop Lab.diverging "job-1" 3 Stub.quiet 1 0
                      (Lab.thread Lab.diverging 0%nat
                         (fst (prepare Lab.diverging "job-1"
                                 "/tmp/uploads/job-1_photo.PNG"
                                 "/tmp/uploads/job-1_filaments.csv"
                                 (params_of (Stub.start_data 3 0 5))
                                 Stub.uploaded))))))
         ++ [job_failed "job-1" "loss is NaN"])%list.
Proof.
  apply (step_exception_fails_the_job Lab.diverging "job-1"
           "/tmp/uploads/job-1_photo.PNG" "/tmp/uploads/job-1_filaments.csv"
           (params_of (Stub.start_data 3 0 5)) Stub.quiet Stub.uploaded
           (fst (prepare Lab.diverging "job-1" "/tmp/uploads/job-1_photo.PNG"
                   "/tmp/uploads/job-1_filaments.csv"
                   (params_of (Stub.start_data 3 0 5)) Stub.uploaded))
           Stub.materials 0%nat 2%nat 1%nat
           (fst (loop Lab.diverging "job-1" 3 Stub.quiet 1 0
                   (Lab.thread Lab.diverging 0%nat
                      (fst (prepare Lab.diverging "job-1"
                              "/tmp/uploads/job-1_photo.PNG"
                              "/tmp/uploads/job-1_filaments.csv"
                              (params_of (Stub.start_data 3 0 5))
                              Stub.uploaded)))))
           {| j_id := "job-1"; j_status := "running"; j_progress := 33;
              j_image_path := "/tmp/uploads/job-1_photo.PNG";
              j_material_path := "/tmp/uploads/job-1_filaments.csv";
              j_created_at := 1000%float; j_params := None;
              j_cancelled := None; j_iteration := Some 1; j_outputs := None;
              j_error := None |}
           "loss is NaN").
  - vm_compute. reflexivity.
  - simpl. lia.
  - vm_compute. reflexivity.
  - vm_compute. reflexivity.
  - reflexivity.
  - vm_compute. reflexivity.
  - reflexivity.
Defined.

(** X13.  A job whose flag is already set when its thread starts (the
    cancel request came between the start request and the first statement
    of the thread) is still prepared in full: the status is overwritten
    with ['running'], the materials and the image are loaded and the
    optimizer is constructed.  The first poll then stops the loop before
    any call of [step], and the job ends ['failed'] with
    ['Job cancelled by user']. *)
Theorem cancel_before_thread_start (C : Collaborators)
    (job_id image_path material_file : string) (params : Params)
    (sch : Schedule) (s s1 : Server) (job : Job) (materials : Materials)
    (opt : Optimizer C) :
  active_jobs s !! job_id = Some job →
  j_cancelled job = Some true →
  prepare C job_id image_path material_file params s = (s1, Ok (materials, opt)) →
  0 < p_iterations params →
  emit_fault C (job_failed job_id "Job cancelled by user") = None →
  ∃ t s' job',
    active_jobs s1 !! job_id = Some (set_status "running" job)
    ∧ loop C job_id (p_iterations params) sch (Z.to_nat (p_iterations params)) 0
        {| t_server := s1; t_optimizer := opt; t_callback := new_callback job_id |}
      = (t, Raise "Job cancelled by user")
    ∧ t_optimizer t = opt
    ∧ run_autoforge_optimization C job_id image_path material_file params sch s
      = (s', Ok tt)
    ∧ active_jobs s' !! job_id = Some job'
    ∧ j_status job' = "failed"
    ∧ j_error job' = Some "Job cancelled by user"
    ∧ j_outputs job' = j_outputs job.
Proof.
  intros Hjob Hflag Hp Hpos Hemit.
  destruct (prepare_inv C _ _ _ _ _ _ _ _ Hp)
    as (job0 & ? & ? & ? & ? & ? & Hjob0 & _ & _ & _ & _ & _ & _ & _ & _ & Hs1).
  rewrite Hjob in Hjob0. injection Hjob0 as <-.
  assert (active_jobs s1 !! job_id = Some (set_status "running" job)) as Hj1.
  { rewrite Hs1. simpl. by rewrite lookup_insert_eq. }
  pose proof (loop_body_flag_set C job_id (p_iterations params) sch 0
                {| t_server := s1; t_optimizer := opt;
                   t_callback := new_callback job_id |}
                (set_status "running" job) Hj1 Hflag) as Hb.
  simpl in Hb.
  pose proof (loop_aborted_at C job_id (p_iterations params) sch 0
                {| t_server := s1; t_optimizer := opt;
                   t_callback := new_callback job_id |} _ _ _
                ltac:(simpl; lia) eq_refl Hb) as Hrun.
  pose proof (run_aborted C _ _ _ _ sch _ _ _ _ _ _ Hp Hrun) as Hexc.
  simpl in Hexc.
  destruct (frame_interfere job_id sch 0 s1) as (_ & _ & Hown & _).
  destruct (job_kept_interfere job_id sch 0 s1 _ Hj1) as (j2 & Hj2 & Hout2).
  destruct (except_block_records C job_id "Job cancelled by user" _ _ Hj2 Hemit)
    as (s' & Hs' & Hjob' & _).
  eexists _, s', _. split; [exact Hj1 |]. split; [exact Hrun |].
  split; [done |]. split; [by rewrite Hexc |]. split; [exact Hjob' |].
  repeat split. simpl. by rewrite Hout2.
Qed.

Lemma cancel_before_thread_start_witness :
  ∃ t s' job',
    active_jobs
      (fst (prepare Stub.env "job-1" "/tmp/uploads/job-1_photo.PNG"
              "/tmp/uploads/job-1_filaments.csv"
              (params_of (Stub.start_data 3 0 5))
              (fst (cancel_job "job-1" Stub.uploaded)))) !! "job-1"
    = Some
        (set_status "running"
           {| j_id := "job-1"; j_status := "cancelled"; j_progress := 0;
              j_image_path := "/tmp/uploads/job-1_photo.PNG";
              j_material_path := "/tmp/uploads/job-1_filaments.csv";
              j_created_at := 1000%float; j_params := None;
              j_cancelled := Some true; j_iteration := None;
              j_outputs := None; j_error := None |})
    ∧ loop Stub.env "job-1" 3 Stub.quiet (Z.to_nat 3) 0
        (Stub.thread Stub.no_fault
           (fst (prepare Stub.env "job-1" "/tmp/uploads/job-1_photo.PNG"
                   "/tmp/uploads/job-1_filaments.csv"
                   (params_of (Stub.start_data 3 0 5))
                   (fst (cancel_job "job-1" Stub.uploaded)))))
      = (t, Raise "Job cancelled by user")
    ∧ t_optimizer t = 0%nat
    ∧ Stub.run Stub.env (params_of (Stub.start_data 3 0 5)) Stub.quiet
        (fst (cancel_job "job-1" Stub.uploaded))
      = (s', Ok tt)
    ∧ active_jobs s' !! "job-1" = Some job'
    ∧ j_status job' = "failed"
    ∧ j_error job' = Some "Job cancelled by user"
    ∧ j_outputs job' = None.
Proof.
  apply (cancel_before_thread_start Stub.env "job-1"
           "/tmp/uploads/job-1_photo.PNG" "/tmp/uploads/job-1_filaments.csv"
           (params_of (Stub.start_data 3 0 5)) Stub.quiet
           (fst (cancel_job "job-1" Stub.uploaded))
           (fst (prepare Stub.env "job-1" "/tmp/uploads/job-1_photo.PNG"
                   "/tmp/uploads/job-1_filaments.csv"
                   (params_of (Stub.start_data 3 0 5))
                   (fst (cancel_job "job-1" Stub.uploaded))))
           {| j_id := "job-1"; j_status := "cancelled"; j_progress := 0;
              j_image_path := "/tmp/uploads/job-1_photo.PNG";
              j_material_path := "/tmp/uploads/job-1_filaments.csv";
              j_created_at := 1000%float; j_params := None;
              j_cancelled := Some true; j_iteration := None;
              j_outputs := None; j_error := None |}
           Stub.materials 0%nat).
  - vm_compute. reflexivity.
  - reflexivity.
  - vm_compute. reflexivity.
  - simpl. lia.
  - reflexivity.
Defined.

(** X19.  Whenever the loop runs to its end, the last thing it emitted is
    the progress event of the final iteration: its iteration counter equals
    the total, and it carries a preview image.  The throttle cannot hold
    this event back, whatever the clock says, and the callback has recorded
    the time of that last call. *)
Theorem last_iteration_is_always_reported (C : Collaborators) (job_id : string)
    (iterations : Z) (sch : Schedule) (t t' : Thread C) :
  0 < iterations →
  cb_job_id (t_callback t) = job_id →
  loop C job_id iterations sch (Z.to_nat iterations) 0 t = (t', Ok tt) →
  ∃ percent loss img_base64,
    last (emitted (t_server t'))
    = Some (progress {| pd_job_id := job_id; pd_iteration := iterations;
                        pd_total_iterations := iterations;
                        pd_progress := percent; pd_loss := loss;
                        pd_preview :=
                          Some ("data:image/jpeg;base64," ++ img_base64) |})
    ∧ last_update (t_callback t') = clock sch (Z.to_nat iterations - 1).
Proof.
  intros Hpos Hid Hl.
  set (m := (Z.to_nat iterations - 1)%nat).
  replace (Z.to_nat iterations) with (m + 1)%nat in Hl by lia.
  rewrite loop_app in Hl.
  destruct (loop C job_id iterations sch m 0 t) as [tm [[]|msg]] eqn:Hm;
    [| done].
  destruct (loop_kept C job_id iterations sch m 0 t tm _ Hid Hm) as [_ Hidm].
  simpl in Hl.
  destruct (loop_body C job_id iterations sch m tm) as [t1 [[]|msg]] eqn:Hb;
    [| done].
  injection Hl as <-. revert Hb. unfold loop_body.
  destruct (active_jobs _ !! job_id) as [job|]; [| done].
  destruct (default false (j_cancelled job)); [done |].
  destruct (step C (t_optimizer tm)) as [opt [loss|msg]]; [| done].
  assert (wants_preview iterations m = true) as ->.
  { unfold wants_preview. apply orb_true_iff. right. apply Z.eqb_eq. lia. }
  destruct (get_composite_image_disc C opt) as [image|]; [| done].
  unfold update, throttled.
  assert ((Z.of_nat m + 1 <? iterations - 1)%Z = false) as ->
    by (apply Z.ltb_ge; lia).
  rewrite andb_false_r, Hidm.
  destruct (send_progress C job_id _ _ _ _ _) as [s1 r1] eqn:Hsend.
  intros [= <- ->]. simpl.
  destruct (send_progress_emits C _ _ _ _ _ _ _ Hsend)
    as (percent & image64 & Hev & Henc & _).
  unfold encode_preview, rbind in Henc.
  destruct (imencode_jpg_base64 C _) as [b64|]; [| done].
  injection Henc as <-.
  exists percent, loss, b64. split; [| done].
  rewrite Hev, last_snoc. do 3 f_equal. lia.
Qed.

Lemma last_iteration_is_always_reported_witness :
  ∃ percent loss img_base64,
    last (emitted
            (t_server
               (fst (loop Stub.env "job-1" 3 Stub.quiet (Z.to_nat 3) 0
                       (Stub.thread Stub.no_fault Stub.uploaded)))))
    = Some (progress {| pd_job_id := "job-1"; pd_iteration := 3;
                        pd_total_iterations := 3;
                        pd_progress := percent; pd_loss := loss;
                        pd_preview :=
                          Some ("data:image/jpeg;base64," ++ img_base64) |})
    ∧ last_update
        (t_callback
           (fst (loop Stub.env "job-1" 3 Stub.quiet (Z.to_nat 3) 0
                   (Stub.thread Stub.no_fault Stub.uploaded))))
      = clock Stub.quiet (Z.to_nat 3 - 1).
Proof.
  apply (last_iteration_is_always_reported Stub.env "job-1" 3 Stub.quiet
           (Stub.thread Stub.no_fault Stub.uploaded)).
  - lia.
  - reflexivity.
  - vm_compute. reflexivity.
Defined.

(** ** The outputs of a completed run *)

(** X18.  A job left ['completed'] by its thread is consistent: its
    progress is 100, its outputs are recorded under the three fixed file
    names, with the project file listed exactly when it exists, and the
    last event emitted is [job_completed] carrying these same outputs. *)
Theorem completed_job_is_consistent (C : Collaborators)
    (job_id image_path material_file : string) (params : Params)
    (sch : Schedule) (s s' : Server) (job : Job) :
  run_autoforge_optimization C job_id image_path material_file params sch s
  = (s', Ok tt) →
  active_jobs s' !! job_id = Some job →
  j_status job = "completed" →
  ∃ outputs,
    j_progress job = 100
    ∧ j_outputs job = Some outputs
    ∧ o_discretized_image outputs = "discretized.png"
    ∧ o_stl_file outputs = "model.stl"
    ∧ o_swap_instructions outputs = "swap_instructions.txt"
    ∧ o_project_file outputs
      = (if project_file_exists C
              ((OUTPUT_FOLDER C ++ "/" ++ job_id) ++ "/project.json")
         then Some "project.json" else None)
    ∧ last (emitted s') = Some (job_completed job_id outputs).
Proof.
  unfold run_autoforge_optimization, try_except.
  destruct (try_block C job_id image_path material_file params sch s)
    as [s1 [[]|msg]] eqn:Htry.
  - intros [= <-]. revert Htry. unfold try_block, bind.
    destruct (prepare C job_id image_path material_file params s)
      as [s0 [[materials opt]|]]; [| done].
    destruct (loop C job_id (p_iterations params) sch _ 0 _) as [t [[]|]];
      [| done].
    intros H Hjob Hst. apply finish_inv in H as (job0 & _ & Hjobs & Hev).
    rewrite Hjobs, lookup_insert_eq in Hjob. injection Hjob as <-.
    eexists. split; [reflexivity |]. split; [reflexivity |]. simpl.
    repeat split; try done.
    by rewrite Hev, last_app.
  - intros H Hjob Hst. apply except_block_failed in H as (j & Hj & Hf & _).
    rewrite Hjob in Hj. injection Hj as <-. rewrite Hst in Hf. discriminate.
Qed.

Lemma completed_job_is_consistent_witness :
  ∃ outputs,
    100 = 100
    ∧ Some {| o_discretized_image := "discretized.png"; o_stl_file := "model.stl";
              o_swap_instructions := "swap_instructions.txt";
              o_project_file := Some "project.json" |} = Some outputs
    ∧ o_discretized_image outputs = "discretized.png"
    ∧ o_stl_file outputs = "model.stl"
    ∧ o_swap_instructions outputs = "swap_instructions.txt"
    ∧ o_project_file outputs
      = (if project_file_exists Stub.env
              ((OUTPUT_FOLDER Stub.env ++ "/" ++ "job-1") ++ "/project.json")
         then Some "project.json" else None)
    ∧ last (emitted
              (fst (Stub.run Stub.env (params_of (Stub.start_data 3 0 5))
                      Stub.quiet Stub.uploaded)))
      = Some (job_completed "job-1" outputs).
Proof.
  apply (completed_job_is_consistent Stub.env "job-1"
           "/tmp/uploads/job-1_photo.PNG" "/tmp/uploads/job-1_filaments.csv"
           (params_of (Stub.start_data 3 0 5)) Stub.quiet Stub.uploaded
           (fst (Stub.run Stub.env (params_of (Stub.start_data 3 0 5))
                   Stub.quiet Stub.uploaded))
           {| j_id := "job-1"; j_status := "completed"; j_progress := 100;
              j_image_path := "/tmp/uploads/job-1_photo.PNG";
              j_material_path := "/tmp/uploads/job-1_filaments.csv";
              j_created_at := 1000%float; j_params := None;
              j_cancelled := None; j_iteration := Some 3;
              j_outputs :=
                Some {| o_discretized_image := "discretized.png";
                        o_stl_file := "model.stl";
                        o_swap_instructions := "swap_instructions.txt";
                        o_project_file := Some "project.json" |};
              j_error := None |}).
  - vm_compute. reflexivity.
  - vm_compute. reflexivity.
  - reflexivity.
Defined.

(** X17.  A project file that cannot be written does not fail the job.
    When every other call of the output phase succeeds and
    [generate_project_file] raises, the phase still returns normally: the
    exception is caught, one warning line with its message is printed, and
    the job is ['completed'] with a project file listed only if the file
    exists all the same. *)
Theorem project_file_failure_is_tolerated (C : Collaborators) (job_id : string)
    (params : Params) (materials : Materials) (opt : Optimizer C) (s : Server)
    (job : Job) (image : Tensor3) (height_map : HeightMap C)
    (solution : Solution C) (swap : string) (e : string) :
  active_jobs s !! job_id = Some job →
  (∀ ev, emit_fault C ev = None) →
  get_composite_image_disc C opt = Ok image →
  get_height_map C opt = Ok height_map →
  mkdir C (OUTPUT_FOLDER C ++ "/" ++ job_id) = Ok tt →
  imwrite_rgb C ((OUTPUT_FOLDER C ++ "/" ++ job_id) ++ "/discretized.png")
    (image_of_tensor image) = Ok tt →
  generate_stl C height_map ((OUTPUT_FOLDER C ++ "/" ++ job_id) ++ "/model.stl")
    (p_stl_output_size params) (p_nozzle_diameter params) = Ok tt →
  get_best_discrete_solution C opt = Ok solution →
  generate_swap_instructions C solution (m_names materials)
    (p_layer_height params) (p_background_height params) = Ok swap →
  write_text C ((OUTPUT_FOLDER C ++ "/" ++ job_id) ++ "/swap_instructions.txt")
    swap = Ok tt →
  generate_project_file C solution materials
    ((OUTPUT_FOLDER C ++ "/" ++ job_id) ++ "/project.json")
    (p_layer_height params) (p_background_height params)
    (p_stl_output_size params) = Raise e →
  ∃ s' job',
    finish C job_id params materials opt s = (s', Ok tt)
    ∧ printed s'
      = (printed s
         ++ [("Warning: Could not generate project file: " ++ e)%string])%list
    ∧ active_jobs s' !! job_id = Some job'
    ∧ j_status job' = "completed"
    ∧ (o_project_file <$> j_outputs job')
      = Some (if project_file_exists C
                   ((OUTPUT_FOLDER C ++ "/" ++ job_id) ++ "/project.json")
              then Some "project.json" else None).
Proof.
  intros Hjob Hemit Himg Hh Hmk Hw Hstl Hsol Hswap Hwt Hproj.
  unfold finish, try_except, update_job, get_job, bind, call, ret, raise,
    emit, print.
  repeat (simpl;
          first [ rewrite Hemit | rewrite Himg | rewrite Hh | rewrite Hmk
                | rewrite Hw | rewrite Hstl | rewrite Hsol | rewrite Hswap
                | rewrite Hwt | rewrite Hproj | rewrite Hjob
                | rewrite lookup_insert_eq ]).
  eexists _, _. split; [reflexivity |]. simpl.
  rewrite lookup_insert_eq. by repeat split.
Qed.

Lemma project_file_failure_is_tolerated_witness :
  ∃ s' job',
    finish Lab.no_project "job-1" (params_of (Stub.start_data 3 0 5))
      Stub.materials 3%nat Stub.uploaded = (s', Ok tt)
    ∧ printed s'
      = (printed Stub.uploaded
         ++ [("Warning: Could not generate project file: " ++ "disk full")%string])%list
    ∧ active_jobs s' !! "job-1" = Some job'
    ∧ j_status job' = "completed"
    ∧ (o_project_file <$> j_outputs job')
      = Some (if project_file_exists Lab.no_project
                   ((OUTPUT_FOLDER Lab.no_project ++ "/" ++ "job-1") ++ "/project.json")
              then Some "project.json" else None).
Proof.
  apply (project_file_failure_is_tolerated Lab.no_project "job-1"
           (params_of (Stub.start_data 3 0 5)) Stub.materials 3%nat
           Stub.uploaded
           {| j_id := "job-1"; j_status := "uploaded"; j_progress := 0;
              j_image_path := "/tmp/uploads/job-1_photo.PNG";
              j_material_path := "/tmp/uploads/job-1_filaments.csv";
              j_created_at := 1000%float; j_params := None;
              j_cancelled := None; j_iteration := None; j_outputs := None;
              j_error := None |}
           [[[1 # 2; 1 # 2; 1 # 2]]]%Q tt 3%nat "swap" "disk full");
    done.
Defined.

(** ** The materials file and the processing size *)

Section Suffixes.

Lemma length_app_string (a b : string) :
  String.length (a ++ b) = (String.length a + String.length b)%nat.
Proof. induction a as [|c a IH]; simpl; [done | by rewrite IH]. Qed.

Lemma substring_all (b : string) : String.substring 0 (String.length b) b = b.
Proof. induction b as [|c b IH]; simpl; [done | by rewrite IH]. Qed.

Lemma substring_suffix (a b : string) :
  String.substring (String.length a) (String.length b) (a ++ b) = b.
Proof. induction a as [|c a IH]; simpl; [apply substring_all | exact IH]. Qed.

(** [endswith] compares the last characters of the string. *)
Lemma endswith_app (a b suffix : string) :
  String.length b = String.length suffix →
  PyNum.endswith (a ++ b) suffix = String.eqb b suffix.
Proof.
  intros Hlen. unfold PyNum.endswith. rewrite length_app_string, <- Hlen.
  replace (String.length a + String.length b - String.length b)%nat
    with (String.length a) by lia.
  rewrite substring_suffix.
  assert ((String.length b <=? String.length a + String.length b)%nat = true)
    as -> by (apply Nat.leb_le; lia).
  done.
Qed.

Lemma lower_length (s : string) : String.length (PyStr.lower s) = String.length s.
Proof. induction s as [|c s IH]; simpl; [done | by rewrite IH]. Qed.

End Suffixes.

(** X20.  The upload check and the thread disagree about the case of the
    extension.  A materials file whose extension is [csv] in another case
    ([CSV], [Csv], ...) passes [allowed_file], but the thread chooses the
    CSV loader only for a path that ends in [.csv] exactly: such a file is
    handed to the JSON loader, and when that loader raises, the preparation
    fails with its exception.  A path ending in [.csv] is read as CSV. *)
Theorem csv_loader_needs_lower_case_suffix (C : Collaborators)
    (job_id image_path : string) (params : Params) (s : Server) (job : Job)
    (stem path ext : string) :
  PyStr.lower ext = "csv" →
  ext ≠ "csv" →
  allowed_file (stem ++ String "." ext) ALLOWED_MATERIAL_EXTENSIONS = true
  ∧ PyNum.endswith (path ++ String "." ext) ".csv" = false
  ∧ PyNum.endswith (path ++ ".csv") ".csv" = true
  ∧ (∀ msg,
       active_jobs s !! job_id = Some job →
       emit_fault C (job_started job_id) = None →
       load_materials C false (path ++ String "." ext) = Raise msg →
       snd (prepare C job_id image_path (path ++ String "." ext) params s)
       = Raise msg).
Proof.
  intros Hlow Hne.
  assert (PyNum.endswith (path ++ String "." ext) ".csv" = false) as Hends.
  { rewrite endswith_app.
    - apply String.eqb_neq. intros [= ->]. done.
    - simpl. by rewrite <- (lower_length ext), Hlow. }
  split.
  { apply allowed_file_spec. exists stem, ext. split; [done |]. split.
    - by rewrite <- contains_lower, Hlow.
    - rewrite Hlow. set_solver. }
  split; [exact Hends |]. split; [by rewrite endswith_app |].
  intros msg Hjob Hemit Hload.
  unfold prepare, update_job, get_job, bind, call, emit. cbv zeta.
  by rewrite Hjob, Hemit, Hends, Hload.
Qed.

Lemma csv_loader_needs_lower_case_suffix_witness :
  allowed_file ("filaments" ++ String "." "CSV") ALLOWED_MATERIAL_EXTENSIONS = true
  ∧ PyNum.endswith ("/tmp/uploads/job-1_filaments" ++ String "." "CSV") ".csv"
    = false
  ∧ PyNum.endswith ("/tmp/uploads/job-1_filaments" ++ ".csv") ".csv" = true
  ∧ (∀ msg,
       active_jobs Stub.uploaded !! "job-1"
       = Some {| j_id := "job-1"; j_status := "uploaded"; j_progress := 0;
                 j_image_path := "/tmp/uploads/job-1_photo.PNG";
                 j_material_path := "/tmp/uploads/job-1_filaments.csv";
                 j_created_at := 1000%float; j_params := None;
                 j_cancelled := None; j_iteration := None; j_outputs := None;
                 j_error := None |} →
       emit_fault Lab.strict (job_started "job-1") = None →
       load_materials Lab.strict false
         ("/tmp/uploads/job-1_filaments" ++ String "." "CSV") = Raise msg →
       snd (prepare Lab.strict "job-1" "/tmp/uploads/job-1_photo.PNG"
              ("/tmp/uploads/job-1_filaments" ++ String "." "CSV")
              (params_of (Stub.start_data 3 0 5)) Stub.uploaded)
       = Raise msg).
Proof.
  apply (csv_loader_needs_lower_case_suffix Lab.strict "job-1"
           "/tmp/uploads/job-1_photo.PNG" (params_of (Stub.start_data 3 0 5))
           Stub.uploaded _ "filaments" "/tmp/uploads/job-1_filaments" "CSV");
    done.
Defined.

Example upper_case_csv_fails_the_job :
  get_status "job-1"
    (fst (run_autoforge_optimization Lab.strict "job-1"
            "/tmp/uploads/job-1_photo.PNG" "/tmp/uploads/job-1_filaments.CSV"
            (params_of (Stub.start_data 3 0 5)) Stub.quiet Stub.uploaded))
  = respond 200
      (status_body "job-1" "failed" 0 None
         (Some "Expecting value: line 1 column 1 (char 0)")).
Proof. vm_compute. reflexivity. Qed.

(** X21.  The processing size is not validated.  A start request with
    [processing_reduction_factor = 0] is accepted like any other, and its
    thread fails at the floor division, after the materials and the image
    have been loaded and before anything is resized or initialized: the job
    is recorded as ['failed'] with the message of the [ZeroDivisionError],
    and the only events are [job_started] and [job_failed]. *)
Theorem zero_reduction_factor_fails_the_run (C : Collaborators)
    (data : StartData) (s s0 : Server) (job_id : string) (job job0 : Job)
    (image_path material_file : string) (sch : Schedule)
    (materials : Materials) (image : RawImage) :
  startable data s job_id job →
  d_processing_reduction_factor data = Some 0 →
  active_jobs s0 !! job_id = Some job0 →
  (∀ ev, emit_fault C ev = None) →
  load_materials C (PyNum.endswith material_file ".csv") material_file
  = Ok materials →
  imread C image_path = Ok image →
  r_code (snd (start_optimization data s)) = 200
  ∧ ∃ s' job',
      run_autoforge_optimization C job_id image_path material_file
        (params_of data) sch s0 = (s', Ok tt)
      ∧ active_jobs s' !! job_id = Some job'
      ∧ j_status job' = "failed"
      ∧ j_error job' = Some "integer division or modulo by zero"
      ∧ j_outputs job' = j_outputs job0
      ∧ emitted s'
        = (emitted s0
           ++ [job_started job_id;
               job_failed job_id "integer division or modulo by zero"])%list.
Proof.
  intros Hst Hzero Hjob Hemit Hload Him.
  split; [by rewrite (start_accepted data s job_id job Hst) |].
  assert (prepare C job_id image_path material_file (params_of data) s0
          = (with_emitted (job_started job_id)
               (with_jobs (insert job_id (set_status "running" job0)) s0),
             Raise "integer division or modulo by zero")) as Hp.
  { unfold prepare, update_job, get_job, bind, call, emit, PyNum.floordiv.
    cbv zeta. rewrite Hjob, Hemit, Hload, Him. simpl. by rewrite Hzero. }
  assert (active_jobs
            (with_emitted (job_started job_id)
               (with_jobs (insert job_id (set_status "running" job0)) s0))
          !! job_id = Some (set_status "running" job0)) as Hj1.
  { simpl. by rewrite lookup_insert_eq. }
  destruct (except_block_records C job_id "integer division or modulo by zero"
              _ _ Hj1 (Hemit _)) as (s' & Hs' & Hjob' & Hev & _).
  exists s', (set_error "integer division or modulo by zero"
                (set_status "failed" (set_status "running" job0))).
  split.
  { unfold run_autoforge_optimization, try_except, try_block, bind.
    by rewrite Hp. }
  split; [done |]. repeat split. rewrite Hev. simpl. by rewrite <- app_assoc.
Qed.

Lemma zero_reduction_factor_fails_the_run_witness :
  r_code
    (snd (start_optimization
            {| d_job_id := Some "job-1"; d_iterations := Some 3;
               d_learning_rate := None; d_layer_height := None;
               d_max_layers := None; d_min_layers := None;
               d_background_height := None; d_background_color := None;
               d_stl_output_size := None;
               d_processing_reduction_factor := Some 0;
               d_nozzle_diameter := None; d_init_tau := None;
               d_final_tau := None; d_warmup_fraction := None;
               d_learning_rate_warmup_fraction := None;
               d_num_init_rounds := None; d_num_init_cluster_layers := None;
               d_early_stopping := None; d_perform_pruning := None;
               d_pruning_max_colors := None; d_pruning_max_swaps := None |}
            Stub.uploaded)) = 200.
Proof.
  eapply (zero_reduction_factor_fails_the_run Stub.env _ Stub.uploaded
            Stub.uploaded "job-1" _ _ "/tmp/uploads/job-1_photo.PNG"
            "/tmp/uploads/job-1_filaments.csv" Stub.quiet Stub.materials
            Stub.image).
  - repeat split; try done.
  - reflexivity.
  - vm_compute. reflexivity.
  - done.
  - reflexivity.
  - reflexivity.
Defined.

(** * The diagnostic script *)

Section Diagnostics.

Import CheckMps.

(** A line that contains an equals sign is not the final recommendation. *)
Lemma variable_line_differs (k v : string) :
  "  " ++ k ++ "=" ++ v ≠ should_work_line.
Proof.
  intros H. apply (f_equal (PyStr.contains "=")) in H.
  change ("  " ++ k ++ "=" ++ v) with (String " " (String " " (k ++ String "=" v))) in H.
  cbn [PyStr.contains] in H. simpl Ascii.eqb in H. cbv iota in H.
  rewrite contains_app in H. vm_compute in H. discriminate.
Qed.

Lemma environment_has_no_recommendation (m : Machine) :
  ¬ In should_work_line (environment_variables m).
Proof.
  unfold environment_variables. rewrite !in_app_iff. intros [H | [H | H]].
  - simpl in H. destruct H as [H|[]]. discriminate.
  - destruct (mps_vars m) as [|kv vars] eqn:E.
    + simpl in H. destruct H as [H|[]]. discriminate.
    + apply in_map_iff in H as (kv' & H & _).
      by apply variable_line_differs in H.
  - simpl in H. destruct H as [H|[]]. discriminate.
Qed.

End Diagnostics.

(** X22.  The recommendation printed by [check_mps.py] depends only on
    the two flags of PyTorch, not on the device test the script has just
    made.  The line [MPS should work!] is printed exactly when MPS is built
    and reported available; so when the test on such a machine raises, the
    output contains both the failure line, with the message of the
    exception, and the advice that MPS should work. *)
Theorem check_mps_recommendation_ignores_test (m : CheckMps.Machine) :
  (In CheckMps.should_work_line (CheckMps.check_mps m) ↔
   CheckMps.mps_is_built m = true ∧ CheckMps.mps_is_available m = true)
  ∧ (∀ e, CheckMps.mps_is_built m = true →
          CheckMps.mps_tensor_test m = Some e →
          In (CheckMps.failed_line e) (CheckMps.check_mps m)).
Proof.
  split; [split |].
  - unfold CheckMps.check_mps. rewrite !in_app_iff.
    intros [H | [H | [H | [H | [H | H]]]]].
    + simpl in H. repeat destruct H as [H|H]; discriminate || done.
    + simpl in H. repeat destruct H as [H|H]; discriminate || done.
    + simpl in H. repeat destruct H as [H|H]; try done; exfalso; revert H;
        unfold CheckMps.str_bool;
        destruct (CheckMps.mps_is_built m), (CheckMps.mps_is_available m);
        discriminate.
    + by apply environment_has_no_recommendation in H.
    + unfold CheckMps.testing_mps_device in H. rewrite !in_app_iff in H.
      destruct H as [H | [H | H]].
      * simpl in H. destruct H as [H|[]]. discriminate.
      * destruct (CheckMps.mps_is_built m);
          [destruct (CheckMps.mps_tensor_test m) |];
          simpl in H; repeat destruct H as [H|H]; discriminate || done.
      * simpl in H. repeat destruct H as [H|H]; discriminate || done.
    + unfold CheckMps.recommendations in H. rewrite in_app_iff in H.
      destruct H as [H | H].
      * simpl in H. destruct H as [H|[]]. discriminate.
      * destruct (CheckMps.mps_is_built m); simpl in H;
          [destruct (CheckMps.mps_is_available m); simpl in H |];
          repeat destruct H as [H|H]; discriminate || done.
  - intros [Hb Ha]. unfold CheckMps.check_mps, CheckMps.recommendations.
    rewrite !in_app_iff, Hb, Ha. simpl. tauto.
  - intros e Hb He. unfold CheckMps.check_mps, CheckMps.testing_mps_device.
    rewrite !in_app_iff, Hb, He. simpl. tauto.
Qed.

Example check_mps_contradicts_itself :
  In (CheckMps.failed_line "MPS backend out of memory")
    (CheckMps.check_mps CheckMps.broken_mac)
  ∧ last (CheckMps.check_mps CheckMps.broken_mac)
    = Some CheckMps.should_work_line
  ∧ CheckMps.mps_vars CheckMps.broken_mac
    = [("pytorch_enable_mps_fallback", "1")].
Proof. vm_compute. intuition. Qed.
